(** * Chat storage repository (package chatstorage): model and properties

    A shallow embedding of the SQL-backed chat storage repository: the
    placeholder adapter [p], the schema migrator, the upsert writes, the
    point lookups, the filtered chat listing, the cascading chat delete
    and the inbound-message ingestor, over an explicit model of the
    [database/sql] handle they drive. *)

From Stdlib Require Import String Ascii List ZArith Lia Bool Arith.
From Stdlib Require Import Numbers.DecimalString.
From Stdlib Require Import Sorting.Sorted Sorting.Permutation.
From Equations Require Import Equations.
Import ListNotations.

Local Open Scope string_scope.
Local Open Scope Z_scope.

(* ===================================================================== *)
(** * Go values *)
(* ===================================================================== *)

(** Go's [int] on the 64-bit targets the program is built for: a
    two's-complement 64-bit integer, carried as a [Z] that is wrapped after
    each arithmetic step. *)
Definition wrap64 (z : Z) : Z := (z + 2 ^ 63) mod 2 ^ 64 - 2 ^ 63.

Definition int_range (z : Z) : Prop := - 2 ^ 63 <= z < 2 ^ 63.

(** [time.Time], as an instant on a linear time line. *)
Definition Time := Z.

(** The package [strings] of the Go library, on byte strings. *)
Module strings.

(** [strings.HasPrefix(s, prefix)]. *)
Fixpoint HasPrefix (s prefix : string) : bool :=
  match prefix with
  | EmptyString => true
  | String c prefix' =>
      match s with
      | EmptyString => false
      | String d s' => Ascii.eqb c d && HasPrefix s' prefix'
      end
  end.

(** [strings.Contains(s, substr)]: [substr] starts at some index of [s]. *)
Fixpoint Contains (s substr : string) : bool :=
  HasPrefix s substr ||
  match s with
  | EmptyString => false
  | String _ s' => Contains s' substr
  end.

(** [s[n:]], cut short at the end of [s]. *)
Fixpoint skip (n : nat) (s : string) : string :=
  match n, s with
  | O, _ => s
  | S _, EmptyString => EmptyString
  | S n', String _ s' => skip n' s'
  end.

(** [strings.Replace(s, old, new, 1)]: the first (leftmost) instance of
    [old] in [s] is replaced by [new]; [s] is returned as it is when
    [old] does not occur. *)
Fixpoint Replace1 (s old new : string) : string :=
  if HasPrefix s old then new ++ skip (String.length old) s
  else match s with
       | EmptyString => EmptyString
       | String c s' => String c (Replace1 s' old new)
       end.

(** The letters [A] to [Z] lowered, byte by byte; other bytes are kept. *)
Definition lower_byte (c : ascii) : ascii :=
  let n := nat_of_ascii c in
  if (Nat.leb 65 n && Nat.leb n 90)%bool then ascii_of_nat (n + 32) else c.

Fixpoint lower_ascii (s : string) : string :=
  match s with
  | EmptyString => EmptyString
  | String c s' => String (lower_byte c) (lower_ascii s')
  end.

(** No byte of [s] is [utf8.RuneSelf] (0x80) or above. *)
Fixpoint isASCII (s : string) : bool :=
  match s with
  | EmptyString => true
  | String c s' => Nat.ltb (nat_of_ascii c) 128 && isASCII s'
  end.

(** [strings.ToLower(s)]: a string of ASCII bytes has its letters [A] to
    [Z] lowered; any other string goes through
    [strings.Map(unicode.ToLower, s)], which lowers every letter of
    Unicode by the tables of package [unicode]. Those tables are the
    argument [unicode_lower]. *)
Definition ToLower (unicode_lower : string -> string) (s : string) : string :=
  if isASCII s then lower_ascii s else unicode_lower s.

End strings.

(** The verb [%d] of [fmt.Sprintf]: the decimal numeral of an integer, with
    a leading minus sign for a negative one. *)
Definition fmt_d (n : Z) : string := NilEmpty.string_of_int (Z.to_int n).

(** [fmt.Sprintf("$%d", n)]. *)
Definition Sprintf_dollar (n : Z) : string := "$" ++ fmt_d n.

(* ===================================================================== *)
(** * The repository and its placeholder adapter *)
(* ===================================================================== *)

(** [SQLRepository]: the handle [db] is the state the methods below are
    run in; [isPostgres] is fixed at construction from the driver's name. *)
Record SQLRepository : Type := { isPostgres : bool }.

(** [func NewStorageRepository(db *sql.DB)], of which [driverName] is
    [fmt.Sprintf("%T", db.Driver())]. The flag it sets tells the methods
    which engine is behind the handle. [unicode_lower] is the argument of
    [strings.ToLower]. *)
Definition NewStorageRepository (unicode_lower : string -> string)
  (driverName : string) : SQLRepository :=
  let isPostgres :=
    strings.Contains (strings.ToLower unicode_lower driverName) "pq"
    || strings.Contains (strings.ToLower unicode_lower driverName) "postgres" in
  {| isPostgres := isPostgres |}.

(** Number of [?] bytes of a query. *)
Fixpoint count_q (s : string) : nat :=
  match s with
  | EmptyString => O
  | String c s' => (if Ascii.eqb c "?" then 1 else 0)%nat + count_q s'
  end.

Lemma HasPrefix_q (s : string) :
  strings.HasPrefix s "?" =
  match s with String c _ => Ascii.eqb "?" c | EmptyString => false end.
Proof.
  destruct s as [|c s]; cbn [strings.HasPrefix]; [reflexivity|].
  destruct s; apply andb_true_r.
Qed.

Lemma Contains_q_count (s : string) :
  strings.Contains s "?" = negb (Nat.eqb (count_q s) 0).
Proof.
  induction s as [|c s IH]; [reflexivity|].
  cbn [strings.Contains count_q]. rewrite HasPrefix_q, IH.
  rewrite (Ascii.eqb_sym "?"%char c).
  destruct (Ascii.eqb c "?"); simpl; reflexivity.
Qed.

Lemma count_q_app (s t : string) :
  count_q (s ++ t) = (count_q s + count_q t)%nat.
Proof. induction s as [|c s IH]; simpl; [reflexivity|]. rewrite IH. lia. Qed.

Lemma count_q_uint (d : Decimal.uint) :
  count_q (NilEmpty.string_of_uint d) = O.
Proof. induction d; simpl; auto. Qed.

Lemma count_q_fmt_d (n : Z) : count_q (fmt_d n) = O.
Proof.
  unfold fmt_d. destruct (Z.to_int n); simpl; apply count_q_uint.
Qed.

Lemma count_q_Sprintf (n : Z) : count_q (Sprintf_dollar n) = O.
Proof. unfold Sprintf_dollar. simpl. apply count_q_fmt_d. Qed.

(** Replacing the first [?] by a text without [?] removes one occurrence. *)
Lemma count_q_Replace1 (s new : string) :
  count_q new = O -> count_q s <> O ->
  S (count_q (strings.Replace1 s "?" new)) = count_q s.
Proof.
  intros Hnew. induction s as [|c s IH]; intros Hs; [now elim Hs|].
  cbn [strings.Replace1]. rewrite HasPrefix_q.
  rewrite (Ascii.eqb_sym "?"%char c). cbn [count_q] in *.
  destruct (Ascii.eqb c "?") eqn:E.
  - cbn [String.length strings.skip]. rewrite count_q_app, Hnew. reflexivity.
  - cbn [count_q]. rewrite E. simpl in *. rewrite IH by assumption. reflexivity.
Qed.

(** Case analysis that keeps the equation of the tested value. *)
Definition inspect {A : Type} (a : A) : {b : A | a = b} := exist _ a eq_refl.

(** The loop of [p]:
    [for strings.Contains(query, "?") { query = strings.Replace(query, "?",
    fmt.Sprintf("$%d", n), 1); n++ }], which ends because each round
    removes one [?] and the marker it writes holds none. *)
Equations? p_loop (query : string) (n : Z) : string by wf (count_q query) lt :=
  p_loop query n with inspect (strings.Contains query "?") := {
    | exist _ true more =>
        p_loop (strings.Replace1 query "?" (Sprintf_dollar n)) (wrap64 (n + 1));
    | exist _ false _ => query }.
Proof.
  rewrite Contains_q_count in more.
  destruct (Nat.eqb_spec (count_q query) 0) as [E|E]; [discriminate|].
  pose proof (count_q_Replace1 query (Sprintf_dollar n) (count_q_Sprintf n) E).
  lia.
Qed.

(** [func (r *SQLRepository) p(query string) string]. *)
Definition p (r : SQLRepository) (query : string) : string :=
  if negb (isPostgres r) then query else p_loop query 1.

(* ===================================================================== *)
(** * Rows and tables *)
(* ===================================================================== *)

Definition bytes := list Byte.byte.

(** [domainChatStorage.Chat], with the fields [scanChat] fills. *)
Module Chat.
Record t : Type := mk {
  DeviceID : string;
  JID : string;
  Name : string;
  LastMessageTime : Time;
  EphemeralExpiration : Z;
  CreatedAt : Time;
  UpdatedAt : Time }.

(** The zero value [&domainChatStorage.Chat{}]. *)
Definition zero : t := mk "" "" "" 0 0 0 0.

Definition set_UpdatedAt (c : t) (v : Time) : t :=
  mk (DeviceID c) (JID c) (Name c) (LastMessageTime c)
     (EphemeralExpiration c) (CreatedAt c) v.
End Chat.

(** [domainChatStorage.Message], with the fields [scanMessage] fills.
    [FileLength] is a [uint64]: a number from 0 to [2 ^ 64 - 1]. *)
Module Message.
Record t : Type := mk {
  ID : string;
  ChatJID : string;
  DeviceID : string;
  Sender : string;
  Content : string;
  Timestamp : Time;
  IsFromMe : bool;
  MediaType : string;
  Filename : string;
  URL : string;
  MediaKey : bytes;
  FileSHA256 : bytes;
  FileEncSHA256 : bytes;
  FileLength : Z;
  CreatedAt : Time;
  UpdatedAt : Time }.

Definition zero : t := mk "" "" "" "" "" 0 false "" "" "" [] [] [] 0 0 0.

Definition set_CreatedAt (m : t) (v : Time) : t :=
  mk (ID m) (ChatJID m) (DeviceID m) (Sender m) (Content m) (Timestamp m)
     (IsFromMe m) (MediaType m) (Filename m) (URL m) (MediaKey m)
     (FileSHA256 m) (FileEncSHA256 m) (FileLength m) v (UpdatedAt m).

Definition set_UpdatedAt (m : t) (v : Time) : t :=
  mk (ID m) (ChatJID m) (DeviceID m) (Sender m) (Content m) (Timestamp m)
     (IsFromMe m) (MediaType m) (Filename m) (URL m) (MediaKey m)
     (FileSHA256 m) (FileEncSHA256 m) (FileLength m) (CreatedAt m) v.
End Message.

(** [domainChatStorage.DeviceRecord]. *)
Module DeviceRecord.
Record t : Type := mk {
  DeviceID : string;
  DisplayName : string;
  JID : string;
  CreatedAt : Time;
  UpdatedAt : Time }.

Definition zero : t := mk "" "" "" 0 0.
End DeviceRecord.

(** [domainChatStorage.ChatFilter], with the fields [GetChats] reads. *)
Module ChatFilter.
Record t : Type := mk {
  SearchName : string;
  DeviceID : string;
  Limit : Z }.
End ChatFilter.

(** The tables of [getMigrations] and the version table of
    [getSchemaVersion]; a table is [None] until its
    [CREATE TABLE IF NOT EXISTS] has run. A row of [chats], [messages] or
    [devices] has the columns of the struct scanned from it; a row of
    [schema_info] is its [version] (its [updated_at] is never read). *)
Record DB : Type := mkDB {
  chats : option (list Chat.t);
  messages : option (list Message.t);
  devices : option (list DeviceRecord.t);
  schema_info : option (list Z) }.

Definition set_chats (d : DB) (v : option (list Chat.t)) : DB :=
  mkDB v (messages d) (devices d) (schema_info d).
Definition set_messages (d : DB) (v : option (list Message.t)) : DB :=
  mkDB (chats d) v (devices d) (schema_info d).
Definition set_devices (d : DB) (v : option (list DeviceRecord.t)) : DB :=
  mkDB (chats d) (messages d) v (schema_info d).
Definition set_schema_info (d : DB) (v : option (list Z)) : DB :=
  mkDB (chats d) (messages d) (devices d) v.

(* ===================================================================== *)
(** * The statements the repository sends *)
(* ===================================================================== *)

(** One constructor per statement text of the source, carrying the bound
    arguments in the order of the call. *)
Inductive Stmt : Type :=
(** [UPDATE chats SET name = ?, last_message_time = ?,
    ephemeral_expiration = ?, updated_at = ? WHERE jid = ? AND device_id = ?] *)
| UpdateChat (name : string) (last_message_time : Time)
    (ephemeral_expiration : Z) (updated_at : Time) (jid device_id : string)
(** [INSERT INTO chats (jid, device_id, name, last_message_time,
    ephemeral_expiration, created_at, updated_at) VALUES (...)] *)
| InsertChat (row : Chat.t)
(** [UPDATE messages SET sender = ?, ..., file_length = ?, updated_at = ?
    WHERE id = ? AND chat_jid = ? AND device_id = ?]: every column of the
    argument but [created_at] is written. *)
| UpdateMessage (m : Message.t)
(** [INSERT INTO messages (id, chat_jid, ..., created_at, updated_at)
    VALUES (...)] *)
| InsertMessage (row : Message.t)
(** [DELETE FROM messages WHERE chat_jid = ?] *)
| DeleteMessagesOfChat (chat_jid : string)
(** [DELETE FROM chats WHERE jid = ?] *)
| DeleteChatsOfJID (jid : string)
(** [UPDATE devices SET display_name = ?, jid = ?, updated_at = ?
    WHERE device_id = ?] *)
| UpdateDevice (display_name jid : string) (updated_at : Time)
    (device_id : string)
(** [INSERT INTO devices (device_id, display_name, jid, created_at,
    updated_at) VALUES (...)] *)
| InsertDevice (row : DeviceRecord.t)
(** [CREATE TABLE IF NOT EXISTS schema_info (version INTEGER PRIMARY KEY,
    updated_at TIMESTAMP DEFAULT CURRENT_TIMESTAMP)] *)
| CreateSchemaInfo
(** [DELETE FROM schema_info WHERE version = ?] *)
| DeleteSchemaVersion (version : Z)
(** [INSERT INTO schema_info (version) VALUES (?)] *)
| InsertSchemaVersion (version : Z)
(** [CREATE TABLE IF NOT EXISTS chats (..., PRIMARY KEY (jid, device_id))] *)
| CreateChats
(** [CREATE TABLE IF NOT EXISTS messages (..., media_key %s, file_sha256 %s,
    file_enc_sha256 %s, ..., PRIMARY KEY (id, chat_jid, device_id))] *)
| CreateMessages (blobType : string)
(** [CREATE TABLE IF NOT EXISTS devices (device_id VARCHAR(255) PRIMARY KEY,
    ...)] *)
| CreateDevices.

Definition is_migration (s : Stmt) : bool :=
  match s with
  | CreateChats | CreateMessages _ | CreateDevices => true
  | _ => false
  end.

(** The [WHERE] clauses. *)
Definition chat_is (jid device_id : string) (row : Chat.t) : bool :=
  String.eqb (Chat.JID row) jid && String.eqb (Chat.DeviceID row) device_id.

Definition chat_has_jid (jid : string) (row : Chat.t) : bool :=
  String.eqb (Chat.JID row) jid.

Definition message_is (id chat_jid device_id : string) (row : Message.t)
  : bool :=
  String.eqb (Message.ID row) id && String.eqb (Message.ChatJID row) chat_jid
  && String.eqb (Message.DeviceID row) device_id.

Definition message_has_id (id : string) (row : Message.t) : bool :=
  String.eqb (Message.ID row) id.

Definition message_in_chat (chat_jid : string) (row : Message.t) : bool :=
  String.eqb (Message.ChatJID row) chat_jid.

Definition device_is (device_id : string) (row : DeviceRecord.t) : bool :=
  String.eqb (DeviceRecord.DeviceID row) device_id.

(** Number of rows a [WHERE] clause selects. *)
Definition count_rows {A : Type} (sel : A -> bool) (rows : list A) : Z :=
  Z.of_nat (List.length (filter sel rows)).

(** [UPDATE ... WHERE sel]: every selected row is rewritten. *)
Definition update_rows {A : Type} (sel : A -> bool) (upd : A -> A)
  (rows : list A) : list A :=
  map (fun row => if sel row then upd row else row) rows.

(** [DELETE ... WHERE sel]. *)
Definition delete_rows {A : Type} (sel : A -> bool) (rows : list A) : list A :=
  filter (fun row => negb (sel row)) rows.

Definition set_chat_columns (name : string) (last_message_time : Time)
  (ephemeral_expiration : Z) (updated_at : Time) (row : Chat.t) : Chat.t :=
  Chat.mk (Chat.DeviceID row) (Chat.JID row) name last_message_time
          ephemeral_expiration (Chat.CreatedAt row) updated_at.

Definition set_message_columns (m row : Message.t) : Message.t :=
  Message.mk (Message.ID row) (Message.ChatJID row) (Message.DeviceID row)
    (Message.Sender m) (Message.Content m) (Message.Timestamp m)
    (Message.IsFromMe m) (Message.MediaType m) (Message.Filename m)
    (Message.URL m) (Message.MediaKey m) (Message.FileSHA256 m)
    (Message.FileEncSHA256 m) (Message.FileLength m) (Message.CreatedAt row)
    (Message.UpdatedAt m).

Definition set_device_columns (display_name jid : string) (updated_at : Time)
  (row : DeviceRecord.t) : DeviceRecord.t :=
  DeviceRecord.mk (DeviceRecord.DeviceID row) display_name jid
                  (DeviceRecord.CreatedAt row) updated_at.

(** What the engine does with a statement it accepts: the new tables and
    the number of rows affected; [inr] is its diagnostic when it refuses
    (the table is missing, or an insert repeats a primary key). *)
Definition no_such_table : string := "no such table".
Definition duplicate_key : string := "duplicate key".

Definition on_table {A : Type} (table : option (list A))
  (k : list A -> (DB * Z) + string) : (DB * Z) + string :=
  match table with
  | None => inr no_such_table
  | Some rows => k rows
  end.

Definition insert_row {A : Type} (key : A -> bool) (row : A) (rows : list A)
  (store : list A -> DB) : (DB * Z) + string :=
  if existsb key rows then inr duplicate_key
  else inl (store (rows ++ [row])%list, 1).

Definition run_stmt (s : Stmt) (d : DB) : (DB * Z) + string :=
  match s with
  | UpdateChat name lmt eph upd jid dev =>
      on_table (chats d) (fun rows =>
        inl (set_chats d (Some (update_rows (chat_is jid dev)
                                  (set_chat_columns name lmt eph upd) rows)),
             count_rows (chat_is jid dev) rows))
  | InsertChat row =>
      on_table (chats d) (fun rows =>
        insert_row (chat_is (Chat.JID row) (Chat.DeviceID row)) row rows
                   (fun rows' => set_chats d (Some rows')))
  | UpdateMessage m =>
      let sel := message_is (Message.ID m) (Message.ChatJID m)
                            (Message.DeviceID m) in
      on_table (messages d) (fun rows =>
        inl (set_messages d (Some (update_rows sel (set_message_columns m) rows)),
             count_rows sel rows))
  | InsertMessage row =>
      on_table (messages d) (fun rows =>
        insert_row (message_is (Message.ID row) (Message.ChatJID row)
                               (Message.DeviceID row)) row rows
                   (fun rows' => set_messages d (Some rows')))
  | DeleteMessagesOfChat jid =>
      on_table (messages d) (fun rows =>
        inl (set_messages d (Some (delete_rows (message_in_chat jid) rows)),
             count_rows (message_in_chat jid) rows))
  | DeleteChatsOfJID jid =>
      on_table (chats d) (fun rows =>
        inl (set_chats d (Some (delete_rows (chat_has_jid jid) rows)),
             count_rows (chat_has_jid jid) rows))
  | UpdateDevice name jid upd dev =>
      on_table (devices d) (fun rows =>
        inl (set_devices d (Some (update_rows (device_is dev)
                                    (set_device_columns name jid upd) rows)),
             count_rows (device_is dev) rows))
  | InsertDevice row =>
      on_table (devices d) (fun rows =>
        insert_row (device_is (DeviceRecord.DeviceID row)) row rows
                   (fun rows' => set_devices d (Some rows')))
  | CreateSchemaInfo =>
      match schema_info d with
      | None => inl (set_schema_info d (Some []), 0)
      | Some _ => inl (d, 0)
      end
  | DeleteSchemaVersion v =>
      on_table (schema_info d) (fun rows =>
        inl (set_schema_info d (Some (delete_rows (Z.eqb v) rows)),
             count_rows (Z.eqb v) rows))
  | InsertSchemaVersion v =>
      on_table (schema_info d) (fun rows =>
        insert_row (Z.eqb v) v rows
                   (fun rows' => set_schema_info d (Some rows')))
  | CreateChats =>
      match chats d with
      | None => inl (set_chats d (Some []), 0)
      | Some _ => inl (d, 0)
      end
  | CreateMessages _ =>
      match messages d with
      | None => inl (set_messages d (Some []), 0)
      | Some _ => inl (d, 0)
      end
  | CreateDevices =>
      match devices d with
      | None => inl (set_devices d (Some []), 0)
      | Some _ => inl (d, 0)
      end
  end.

(** Before a statement is sent, [database/sql] converts its arguments to
    the values a driver takes, and its converter refuses a [uint64] with
    the high bit set: the call then returns that error and the engine is
    not reached. The one [uint64] among the arguments of the package is
    [message.FileLength], the eleventh argument of the [UPDATE] of
    [StoreMessage] and the fourteenth of its [INSERT]; strings, booleans,
    times, byte slices and the smaller integers are always accepted. *)
Definition uint64_refused (ordinal : string) : string :=
  "sql: converting argument $" ++ ordinal
  ++ " type: uint64 values with high bit set are not supported".

Definition refused_argument (s : Stmt) : option string :=
  match s with
  | UpdateMessage m =>
      if 2 ^ 63 <=? Message.FileLength m then Some (uint64_refused "11")
      else None
  | InsertMessage row =>
      if 2 ^ 63 <=? Message.FileLength row then Some (uint64_refused "14")
      else None
  | _ => None
  end.

(* ===================================================================== *)
(** * The handle [*sql.DB] *)
(* ===================================================================== *)

(** Go's [error] values met in this package. *)
Inductive error : Type :=
| ErrNoRows                          (* [sql.ErrNoRows] *)
| ErrEngine (diagnostic : string)    (* of the library, driver or engine *)
| ErrTxDone.                         (* [sql.ErrTxDone] *)

(** A transaction in progress: its private view of the tables, and whether
    the engine has marked it as failed. *)
Record TxState : Type := mkTx { tx_db : DB; tx_failed : bool }.

(** The state behind the handle:
    - [db]: the committed tables;
    - [tx]: the open transaction of this caller, if any;
    - [faults]: what is about to go wrong between the program and the
      engine, one entry per round trip in the order of the calls:
      [Some diagnostic] makes that call fail with the diagnostic before it
      takes any effect (a lost connection, a busy or locked database),
      [None] lets it through; once the list is used up every call goes
      through;
    - [log]: the statements handed to [Exec], oldest first. *)
Record World : Type := mkWorld {
  db : DB;
  tx : option TxState;
  faults : list (option string);
  log : list Stmt }.

(** A world with nothing scheduled to fail and no transaction open. *)
Definition calm (d : DB) : World := mkWorld d None [] [].

(** A Go call either returns or panics. *)
Inductive Outcome (A : Type) : Type :=
| Returned (a : A)
| Panicked.
Arguments Returned {A} a.
Arguments Panicked {A}.

Definition M (A : Type) : Type := World -> Outcome A * World.

Definition ret {A : Type} (a : A) : M A := fun w => (Returned a, w).

Definition bind {A B : Type} (m : M A) (k : A -> M B) : M B :=
  fun w =>
    match m w with
    | (Returned a, w') => k a w'
    | (Panicked, w') => (Panicked, w')
    end.

Definition panic {A : Type} : M A := fun w => (Panicked, w).

Notation "x <- m ;; k" := (bind m (fun x => k))
  (at level 61, m at next level, right associativity).
Notation "' pat <- m ;; k" := (bind m (fun x => match x with pat => k end))
  (at level 61, pat pattern, m at next level, right associativity).

(** The next entry of the fault schedule. *)
Definition round_trip : M (option string) :=
  fun w =>
    match faults w with
    | [] => (Returned None, w)
    | f :: rest => (Returned f, mkWorld (db w) (tx w) rest (log w))
    end.

(** [sql.Result], of which only the affected-row count is read; the nil
    interface value is [None]. *)
Definition Result := option Z.

(** [db.Exec(query, args...)]: [(result, nil)] with the tables changed, or
    [(nil, err)] with the tables as they were. A statement with an
    argument the library refuses is not sent: no round trip is made. *)
Definition Exec (s : Stmt) : M (Result * option error) :=
  fun w =>
    let w := mkWorld (db w) (tx w) (faults w) (log w ++ [s]) in
    match refused_argument s with
    | Some diagnostic => (Returned (None, Some (ErrEngine diagnostic)), w)
    | None =>
        match round_trip w with
        | (Returned (Some diagnostic), w') =>
            (Returned (None, Some (ErrEngine diagnostic)), w')
        | (Returned None, w') =>
            match run_stmt s (db w') with
            | inl (d, n) =>
                (Returned (Some n, None),
                 mkWorld d (tx w') (faults w') (log w'))
            | inr diagnostic =>
                (Returned (None, Some (ErrEngine diagnostic)), w')
            end
        | (Panicked, w') => (Panicked, w')
        end
    end.

(** [result.RowsAffected()], whose own error the callers drop; calling it
    on the nil interface value is a nil dereference. *)
Definition RowsAffected (result : Result) : M Z :=
  match result with
  | Some n => ret n
  | None => panic
  end.

(** [*sql.Row] and the current row of [*sql.Rows], as [Scan] sees them. *)
Inductive Row (A : Type) : Type :=
| RowOf (a : A)
| RowErr (e : error).
Arguments RowOf {A} a.
Arguments RowErr {A} e.

(** [db.QueryRow(SELECT ... FROM table WHERE sel)]: the selected row the
    engine meets first; [Scan] reports [sql.ErrNoRows] when no row is
    selected. Which row the engine meets first is its own business (the
    order of its pages or of the index it walks), not the order in which
    the rows were written: [met] is the place of that row among the
    selected rows in the order of the table, counted modulo their
    number. *)
Definition QueryRow {A : Type} (table : DB -> option (list A))
  (sel : A -> bool) (met : nat) : M (Row A) :=
  fault <- round_trip ;;
  fun w =>
    match fault with
    | Some diagnostic => (Returned (RowErr (ErrEngine diagnostic)), w)
    | None =>
        match table (db w) with
        | None => (Returned (RowErr (ErrEngine no_such_table)), w)
        | Some rows =>
            match filter sel rows with
            | [] => (Returned (RowErr ErrNoRows), w)
            | row :: others =>
                let selected := row :: others in
                (Returned
                   (RowOf (nth (met mod List.length selected) selected row)),
                 w)
            end
        end
    end.

(** [SELECT COALESCE(MAX(version), 0) FROM schema_info]. *)
Definition max_version (versions : list Z) : Z :=
  match versions with
  | [] => 0
  | v :: rest => fold_left Z.max rest v
  end.

Definition QueryRowMaxVersion : M (Row Z) :=
  fault <- round_trip ;;
  fun w =>
    match fault with
    | Some diagnostic => (Returned (RowErr (ErrEngine diagnostic)), w)
    | None =>
        match schema_info (db w) with
        | None => (Returned (RowErr (ErrEngine no_such_table)), w)
        | Some versions => (Returned (RowOf (max_version versions)), w)
        end
    end.

(** ** [LIKE]

    [%] stands for any run of bytes and [_] for any one byte. Postgres
    compares the other bytes exactly and reads a backslash as the escape of
    the byte after it; the engine behind the universal token (SQLite)
    compares ASCII letters without regard to case and has no escape. *)
Definition like_byte (pg : bool) (a b : ascii) : bool :=
  if pg then Ascii.eqb a b
  else Ascii.eqb (strings.lower_byte a) (strings.lower_byte b).

Fixpoint like (pg : bool) (pattern s : string) {struct pattern} : bool :=
  match pattern with
  | EmptyString => match s with EmptyString => true | String _ _ => false end
  | String pc pattern' =>
      if Ascii.eqb pc "%" then
        (fix any (s : string) : bool :=
           like pg pattern' s ||
           match s with
           | EmptyString => false
           | String _ s' => any s'
           end) s
      else if Ascii.eqb pc "_" then
        match s with
        | EmptyString => false
        | String _ s' => like pg pattern' s'
        end
      else if pg && Ascii.eqb pc "\" then
        match pattern', s with
        | String ec pattern'', String c s' =>
            Ascii.eqb ec c && like pg pattern'' s'
        | _, _ => false
        end
      else
        match s with
        | EmptyString => false
        | String c s' => like_byte pg pc c && like pg pattern' s'
        end
  end.

(** [ORDER BY column DESC]; rows of equal rank keep the order of the
    table. *)
Fixpoint insert_desc {A : Type} (column : A -> Z) (row : A) (sorted : list A)
  : list A :=
  match sorted with
  | [] => [row]
  | x :: rest =>
      if column x <=? column row then row :: sorted
      else x :: insert_desc column row rest
  end.

Definition order_desc {A : Type} (column : A -> Z) (rows : list A) : list A :=
  fold_right (insert_desc column) [] rows.

Definition opt_holds {A : Type} (cond : option A) (test : A -> bool) : bool :=
  match cond with
  | None => true
  | Some a => test a
  end.

(** [db.Query] of the statement [GetChats] builds:
    [SELECT ... FROM chats c [WHERE [c.name LIKE ?] [AND] [c.device_id = ?]]
     ORDER BY c.last_message_time DESC [LIMIT ?]]. *)
Definition QueryChats (pg : bool) (name_like device_id : option string)
  (limit : option Z) : M (list Chat.t * option error) :=
  fault <- round_trip ;;
  fun w =>
    match fault with
    | Some diagnostic => (Returned ([], Some (ErrEngine diagnostic)), w)
    | None =>
        match chats (db w) with
        | None => (Returned ([], Some (ErrEngine no_such_table)), w)
        | Some rows =>
            let selected :=
              filter (fun row =>
                        opt_holds name_like
                          (fun pattern => like pg pattern (Chat.Name row))
                        && opt_holds device_id
                             (String.eqb (Chat.DeviceID row))) rows in
            let ordered := order_desc Chat.LastMessageTime selected in
            (Returned (match limit with
                       | Some n => firstn (Z.to_nat n) ordered
                       | None => ordered
                       end, None), w)
        end
    end.

(** ** Transactions

    [db.Begin()] hands out a [*sql.Tx], nil when it fails. Statements run
    on the transaction's private view. A statement the engine refuses
    leaves that view as it was; on Postgres it also marks the transaction
    as failed, after which every statement is refused and [Commit] rolls
    back and reports an error, while the engine behind the universal token
    keeps the transaction going. [Commit] publishes the view. (The
    statements the package runs in a transaction carry strings only,
    which the library always accepts as arguments.) *)
Inductive TxHandle : Type := TheTx.

Definition current_transaction_is_aborted : string :=
  "current transaction is aborted".

Definition Begin : M (option TxHandle * option error) :=
  fault <- round_trip ;;
  fun w =>
    match fault with
    | Some diagnostic => (Returned (None, Some (ErrEngine diagnostic)), w)
    | None =>
        (Returned (Some TheTx, None),
         mkWorld (db w) (Some (mkTx (db w) false)) (faults w) (log w))
    end.

Definition TxExec (pg : bool) (h : option TxHandle) (s : Stmt)
  : M (Result * option error) :=
  match h with
  | None => panic
  | Some _ =>
      fault <- round_trip ;;
      fun w =>
        let w := mkWorld (db w) (tx w) (faults w) (log w ++ [s]) in
        match tx w with
        | None => (Returned (None, Some ErrTxDone), w)
        | Some t =>
            let refused (diagnostic : string) :=
              (Returned (None, Some (ErrEngine diagnostic)),
               mkWorld (db w) (Some (mkTx (tx_db t) (tx_failed t || pg)))
                       (faults w) (log w)) in
            match fault with
            | Some diagnostic => refused diagnostic
            | None =>
                if tx_failed t then refused current_transaction_is_aborted
                else match run_stmt s (tx_db t) with
                     | inl (d, n) =>
                         (Returned (Some n, None),
                          mkWorld (db w) (Some (mkTx d false)) (faults w)
                                  (log w))
                     | inr diagnostic => refused diagnostic
                     end
            end
        end
  end.

Definition Commit (h : option TxHandle) : M (option error) :=
  match h with
  | None => panic
  | Some _ =>
      fault <- round_trip ;;
      fun w =>
        let closed (d : DB) := mkWorld d None (faults w) (log w) in
        match tx w with
        | None => (Returned (Some ErrTxDone), w)
        | Some t =>
            match fault with
            | Some diagnostic =>
                (Returned (Some (ErrEngine diagnostic)), closed (db w))
            | None =>
                if tx_failed t
                then (Returned (Some (ErrEngine current_transaction_is_aborted)),
                      closed (db w))
                else (Returned None, closed (tx_db t))
            end
        end
  end.

(** The function [LOWER] of the engine, which lowers the letters [A] to
    [Z]: this is SQLite's built-in, and Postgres in a database of the [C]
    collation. *)
Definition LOWER (s : string) : string := strings.lower_ascii s.

(** [db.Query] of the statement [SearchMessages] builds:
    [SELECT ... FROM messages WHERE chat_jid = ? AND device_id = ? AND
     LOWER(content) LIKE ? ORDER BY timestamp DESC [LIMIT n]]. *)
Definition QueryMessagesLike (pg : bool)
  (chat_jid device_id pattern : string) (limit : option Z)
  : M (list Message.t * option error) :=
  fault <- round_trip ;;
  fun w =>
    match fault with
    | Some diagnostic => (Returned ([], Some (ErrEngine diagnostic)), w)
    | None =>
        match messages (db w) with
        | None => (Returned ([], Some (ErrEngine no_such_table)), w)
        | Some rows =>
            let selected :=
              filter (fun row =>
                        String.eqb (Message.ChatJID row) chat_jid
                        && String.eqb (Message.DeviceID row) device_id
                        && like pg pattern
                             (LOWER (Message.Content row))) rows in
            let ordered := order_desc Message.Timestamp selected in
            (Returned (match limit with
                       | Some n => firstn (Z.to_nat n) ordered
                       | None => ordered
                       end, None), w)
        end
    end.

(* ===================================================================== *)
(** * The methods of [SQLRepository] *)
(* ===================================================================== *)

(** A method with a pointer parameter returns, next to its Go results, the
    struct as the caller finds it afterwards. [now] is what [time.Now()]
    yields in the call, and [met] is the argument of [QueryRow]: the row
    the engine meets first in the call. *)

Definition is_ErrNoRows (err : option error) : bool :=
  match err with
  | Some ErrNoRows => true
  | _ => false
  end.

Definition is_nil {A : Type} (err : option A) : bool :=
  match err with
  | None => true
  | Some _ => false
  end.

(** [func (r *SQLRepository) scanChat(s interface{ Scan(...any) error })]. *)
Definition scanChat (s : Row Chat.t) : Chat.t * option error :=
  match s with
  | RowOf row => (row, None)
  | RowErr e => (Chat.zero, Some e)
  end.

(** [func (r *SQLRepository) scanMessage(s interface{ Scan(...any) error })]. *)
Definition scanMessage (s : Row Message.t) : Message.t * option error :=
  match s with
  | RowOf row => (row, None)
  | RowErr e => (Message.zero, Some e)
  end.

(** [func (r *SQLRepository) StoreChat(chat *domainChatStorage.Chat) error]. *)
Definition StoreChat (r : SQLRepository) (now : Time) (chat : Chat.t)
  : M (option error * Chat.t) :=
  let chat := Chat.set_UpdatedAt chat now in
  '(result, err) <-
    Exec (UpdateChat (Chat.Name chat) (Chat.LastMessageTime chat)
            (Chat.EphemeralExpiration chat) (Chat.UpdatedAt chat)
            (Chat.JID chat) (Chat.DeviceID chat)) ;;
  if negb (is_nil err) then ret (err, chat)
  else
    rowsAffected <- RowsAffected result ;;
    if rowsAffected =? 0 then
      '(_, err) <-
        Exec (InsertChat
                (Chat.mk (Chat.DeviceID chat) (Chat.JID chat) (Chat.Name chat)
                   (Chat.LastMessageTime chat) (Chat.EphemeralExpiration chat)
                   now (Chat.UpdatedAt chat))) ;;
      ret (err, chat)
    else ret (err, chat).

(** [func (r *SQLRepository) GetChat(jid string)
      ( *domainChatStorage.Chat, error)]. *)
Definition GetChat (r : SQLRepository) (met : nat) (jid : string)
  : M (option Chat.t * option error) :=
  row <- QueryRow chats (chat_has_jid jid) met ;;
  let '(chat, err) := scanChat row in
  if is_ErrNoRows err then ret (None, None)
  else ret (Some chat, err).

(** [func (r *SQLRepository) GetChatByDevice(deviceID, jid string)
      ( *domainChatStorage.Chat, error)]. *)
Definition GetChatByDevice (r : SQLRepository) (met : nat)
  (deviceID jid : string) : M (option Chat.t * option error) :=
  row <- QueryRow chats (chat_is jid deviceID) met ;;
  let '(chat, err) := scanChat row in
  if is_ErrNoRows err then ret (None, None)
  else ret (Some chat, err).

(** [func (r *SQLRepository) StoreMessage(message *domainChatStorage.Message)
      error]. *)
Definition StoreMessage (r : SQLRepository) (now : Time) (message : Message.t)
  : M (option error * Message.t) :=
  let message := Message.set_CreatedAt message now in
  let message := Message.set_UpdatedAt message now in
  if String.eqb (Message.Content message) ""
     && String.eqb (Message.MediaType message) ""
  then ret (None, message)
  else
    '(result, err) <- Exec (UpdateMessage message) ;;
    if negb (is_nil err) then ret (err, message)
    else
      rowsAffected <- RowsAffected result ;;
      if rowsAffected =? 0 then
        '(_, err) <- Exec (InsertMessage message) ;;
        ret (err, message)
      else ret (err, message).

(** [func (r *SQLRepository) GetMessageByID(id string)
      ( *domainChatStorage.Message, error)]. *)
Definition GetMessageByID (r : SQLRepository) (met : nat) (id : string)
  : M (option Message.t * option error) :=
  row <- QueryRow messages (message_has_id id) met ;;
  let '(message, err) := scanMessage row in
  if is_ErrNoRows err then ret (None, None)
  else ret (Some message, err).

(** [func (r *SQLRepository) GetChats(filter *domainChatStorage.ChatFilter)
      ([]*domainChatStorage.Chat, error)]. *)
Definition GetChats (r : SQLRepository) (filter : ChatFilter.t)
  : M (list Chat.t * option error) :=
  let name_like :=
    if negb (String.eqb (ChatFilter.SearchName filter) "")
    then Some ("%" ++ ChatFilter.SearchName filter ++ "%")
    else None in
  let device_id :=
    if negb (String.eqb (ChatFilter.DeviceID filter) "")
    then Some (ChatFilter.DeviceID filter)
    else None in
  let limit :=
    if ChatFilter.Limit filter >? 0 then Some (ChatFilter.Limit filter)
    else None in
  '(rows, err) <- QueryChats (isPostgres r) name_like device_id limit ;;
  if negb (is_nil err) then ret ([], err)
  else ret (rows, None).

(** [func (r *SQLRepository) SearchMessages(deviceID, chatJID, searchText
      string, limit int) ([]*domainChatStorage.Message, error)];
    [unicode_lower] is the argument of [strings.ToLower]. *)
Definition SearchMessages (unicode_lower : string -> string)
  (r : SQLRepository) (deviceID chatJID searchText : string) (limit : Z)
  : M (list Message.t * option error) :=
  '(rows, err) <-
    QueryMessagesLike (isPostgres r) chatJID deviceID
      ("%" ++ strings.ToLower unicode_lower searchText ++ "%")
      (if limit >? 0 then Some limit else None) ;;
  if negb (is_nil err) then ret ([], err)
  else ret (rows, None).

(** [func (r *SQLRepository) DeleteChat(jid string) error]. *)
Definition DeleteChat (r : SQLRepository) (jid : string) : M (option error) :=
  '(tx, _) <- Begin ;;
  _ <- TxExec (isPostgres r) tx (DeleteMessagesOfChat jid) ;;
  _ <- TxExec (isPostgres r) tx (DeleteChatsOfJID jid) ;;
  Commit tx.

(** [func (r *SQLRepository) SaveDeviceRecord(record
      *domainChatStorage.DeviceRecord) error]. *)
Definition SaveDeviceRecord (r : SQLRepository) (now : Time)
  (record : DeviceRecord.t) : M (option error) :=
  '(res, _) <-
    Exec (UpdateDevice (DeviceRecord.DisplayName record)
            (DeviceRecord.JID record) now (DeviceRecord.DeviceID record)) ;;
  aff <- RowsAffected res ;;
  _ <- (if aff =? 0 then
          _ <- Exec (InsertDevice
                       (DeviceRecord.mk (DeviceRecord.DeviceID record)
                          (DeviceRecord.DisplayName record)
                          (DeviceRecord.JID record) now now)) ;;
          ret tt
        else ret tt) ;;
  ret None.

(** [func (r *SQLRepository) GetDeviceRecord(deviceID string)
      ( *domainChatStorage.DeviceRecord, error)]. *)
Definition GetDeviceRecord (r : SQLRepository) (met : nat)
  (deviceID : string) : M (option DeviceRecord.t * option error) :=
  row <- QueryRow devices (device_is deviceID) met ;;
  let '(rec, err) :=
    match row with
    | RowOf found => (found, None)
    | RowErr e => (DeviceRecord.zero, Some e)
    end in
  if is_ErrNoRows err then ret (None, None)
  else ret (Some rec, err).

(** ** The schema migrator *)

(** [func (r *SQLRepository) getSchemaVersion() (int, error)]: [v] keeps
    its zero value when the scan fails. *)
Definition getSchemaVersion (r : SQLRepository) : M (Z * option error) :=
  _ <- Exec CreateSchemaInfo ;;
  row <- QueryRowMaxVersion ;;
  let v := match row with
           | RowOf version => version
           | RowErr _ => 0
           end in
  ret (v, None).

(** [func (r *SQLRepository) getMigrations() []string]. *)
Definition getMigrations (r : SQLRepository) : list Stmt :=
  let blobType := if isPostgres r then "BYTEA" else "BLOB" in
  [CreateChats; CreateMessages blobType; CreateDevices].

(** [migs[i]]: indexing outside the slice panics. *)
Definition index {A : Type} (s : list A) (i : Z) : M A :=
  if i <? 0 then panic
  else match nth_error s (Z.to_nat i) with
       | Some a => ret a
       | None => panic
       end.

(** The loop of [InitializeSchema],
    [for i := v; i < len(migs); i++ { ... }], from the value [i] on. Its
    counter stays below [len(migs)], so [i+1] never leaves the range of
    [int]. *)
Equations? schema_loop (migs : list Stmt) (i : Z) : M unit
  by wf (Z.to_nat (Z.of_nat (List.length migs) - i)) lt :=
  schema_loop migs i with inspect (i <? Z.of_nat (List.length migs)) := {
    | exist _ true more =>
        mig <- index migs i ;;
        _ <- Exec mig ;;
        _ <- Exec (DeleteSchemaVersion (i + 1)) ;;
        _ <- Exec (InsertSchemaVersion (i + 1)) ;;
        schema_loop migs (i + 1);
    | exist _ false _ => ret tt }.
Proof. apply Z.ltb_lt in more. lia. Qed.

(** [func (r *SQLRepository) InitializeSchema() error]. *)
Definition InitializeSchema (r : SQLRepository) : M (option error) :=
  '(v, _) <- getSchemaVersion r ;;
  let migs := getMigrations r in
  _ <- schema_loop migs v ;;
  ret None.

(** ** The event ingestor *)

(** [types.JID] of the protocol library. *)
Module JID.
Record t : Type := mk {
  User : string;
  RawAgent : Z;
  Device : Z;
  Integrator : Z;
  Server : string }.
End JID.

(** [func (r *SQLRepository) GetChatNameWithPushName(jid types.JID, chatJID
      string, senderUser string, pushName string) string]. *)
Definition GetChatNameWithPushName (r : SQLRepository) (jid : JID.t)
  (chatJID senderUser pushName : string) : string :=
  if negb (String.eqb pushName "") then pushName
  else JID.User jid.

(** [types.MessageInfo] and [events.Message], with the fields
    [CreateMessage] reads; [Proto] is the raw payload. *)
Module MessageInfo.
Record t : Type := mk {
  ID : string;
  Chat : JID.t;
  Sender : JID.t;
  Timestamp : Time;
  IsFromMe : bool;
  PushName : string }.
End MessageInfo.

Module Event.
Record t (Proto : Type) : Type := mk {
  Info : MessageInfo.t;
  Message : Proto }.
Arguments mk {Proto} _ _.
Arguments Info {Proto} _.
Arguments Message {Proto} _.
End Event.

(** The seven results of [utils.ExtractMediaInfo]; [fLen] is a [uint64],
    as the file length of a message is. *)
Module MediaInfo.
Record t : Type := mk {
  mType : string;
  fName : string;
  url : string;
  mKey : bytes;
  fSha : bytes;
  fEncSha : bytes;
  fLen : Z }.
End MediaInfo.

Section Ingestor.

(** The collaborators of the ingestor, which live outside this package:
    the request context with the protocol client and device it carries,
    the normalisation of alias identifiers, the rendering of an
    identifier, and the readers of the raw payload. *)
Variables Context Client DeviceInstance Proto : Type.
Variable ClientFromContext : Context -> Client.
Variable DeviceFromContext : Context -> option DeviceInstance.
Variable DeviceInstance_ID : DeviceInstance -> string.
Variable NormalizeJIDFromLID : Context -> JID.t -> Client -> JID.t.
Variable JID_String : JID.t -> string.
Variable ExtractMessageTextFromProto : Proto -> string.
Variable ExtractMediaInfo : Proto -> MediaInfo.t.

(** [func (r *SQLRepository) CreateMessage(ctx context.Context, evt
      *events.Message) error]; [now_chat] and [now_message] are the
    readings of the clock in [StoreChat] and in [StoreMessage]. *)
Definition CreateMessage (r : SQLRepository) (now_chat now_message : Time)
  (ctx : Context) (evt : Event.t Proto) : M (option error) :=
  let client := ClientFromContext ctx in
  let deviceID := match DeviceFromContext ctx with
                  | Some inst => DeviceInstance_ID inst
                  | None => ""
                  end in
  let normalizedChatJID :=
    NormalizeJIDFromLID ctx (MessageInfo.Chat (Event.Info evt)) client in
  let chatJID := JID_String normalizedChatJID in
  let chat :=
    Chat.mk deviceID chatJID
      (GetChatNameWithPushName r normalizedChatJID chatJID
         (JID.User (MessageInfo.Sender (Event.Info evt)))
         (MessageInfo.PushName (Event.Info evt)))
      (MessageInfo.Timestamp (Event.Info evt)) 0 0 0 in
  _ <- StoreChat r now_chat chat ;;
  let content := ExtractMessageTextFromProto (Event.Message evt) in
  let media := ExtractMediaInfo (Event.Message evt) in
  let message :=
    Message.mk (MessageInfo.ID (Event.Info evt)) chatJID deviceID
      (JID_String (MessageInfo.Sender (Event.Info evt))) content
      (MessageInfo.Timestamp (Event.Info evt))
      (MessageInfo.IsFromMe (Event.Info evt))
      (MediaInfo.mType media) (MediaInfo.fName media) (MediaInfo.url media)
      (MediaInfo.mKey media) (MediaInfo.fSha media) (MediaInfo.fEncSha media)
      (MediaInfo.fLen media) 0 0 in
  '(err, _) <- StoreMessage r now_message message ;;
  ret err.

End Ingestor.

(* ===================================================================== *)
(** * The remaining methods *)
(* ===================================================================== *)

(** [func (r *SQLRepository) GetChatNameWithPushNameByDevice(deviceID
      string, jid types.JID, chatJID string, senderUser string, pushName
      string) string]. *)
Definition GetChatNameWithPushNameByDevice (r : SQLRepository)
  (deviceID : string) (jid : JID.t) (chatJID senderUser pushName : string)
  : string :=
  GetChatNameWithPushName r jid chatJID senderUser pushName.

(** ** Deletions *)

(** The [DELETE] statements of the remaining methods, with their bound
    arguments in the order of the call. *)
Inductive Deletion : Type :=
(** [DELETE FROM messages WHERE chat_jid = ? AND device_id = ?] *)
| DeleteMessagesOfChatOnDevice (chat_jid device_id : string)
(** [DELETE FROM chats WHERE jid = ? AND device_id = ?] *)
| DeleteChatOnDevice (jid device_id : string)
(** [DELETE FROM messages WHERE id = ? AND chat_jid = ?] *)
| DeleteMessageOfChat (id chat_jid : string)
(** [DELETE FROM messages WHERE id = ? AND chat_jid = ? AND device_id = ?] *)
| DeleteMessageOnDevice (id chat_jid device_id : string)
(** [DELETE FROM devices WHERE device_id = ?] *)
| DeleteDevice (device_id : string)
(** [DELETE FROM messages WHERE device_id = ?] *)
| DeleteMessagesOfDevice (device_id : string)
(** [DELETE FROM chats WHERE device_id = ?] *)
| DeleteChatsOfDevice (device_id : string).

Definition message_in_chat_on (chat_jid device_id : string) (row : Message.t)
  : bool :=
  String.eqb (Message.ChatJID row) chat_jid
  && String.eqb (Message.DeviceID row) device_id.

Definition message_of_chat (id chat_jid : string) (row : Message.t) : bool :=
  String.eqb (Message.ID row) id && String.eqb (Message.ChatJID row) chat_jid.

Definition message_on_device (device_id : string) (row : Message.t) : bool :=
  String.eqb (Message.DeviceID row) device_id.

Definition chat_on_device (device_id : string) (row : Chat.t) : bool :=
  String.eqb (Chat.DeviceID row) device_id.

Definition delete_from_messages (sel : Message.t -> bool) (d : DB)
  : (DB * Z) + string :=
  on_table (messages d) (fun rows =>
    inl (set_messages d (Some (delete_rows sel rows)), count_rows sel rows)).

Definition delete_from_chats (sel : Chat.t -> bool) (d : DB)
  : (DB * Z) + string :=
  on_table (chats d) (fun rows =>
    inl (set_chats d (Some (delete_rows sel rows)), count_rows sel rows)).

Definition delete_from_devices (sel : DeviceRecord.t -> bool) (d : DB)
  : (DB * Z) + string :=
  on_table (devices d) (fun rows =>
    inl (set_devices d (Some (delete_rows sel rows)), count_rows sel rows)).

Definition run_deletion (s : Deletion) (d : DB) : (DB * Z) + string :=
  match s with
  | DeleteMessagesOfChatOnDevice jid dev =>
      delete_from_messages (message_in_chat_on jid dev) d
  | DeleteChatOnDevice jid dev => delete_from_chats (chat_is jid dev) d
  | DeleteMessageOfChat id jid => delete_from_messages (message_of_chat id jid) d
  | DeleteMessageOnDevice id jid dev =>
      delete_from_messages (message_is id jid dev) d
  | DeleteDevice dev => delete_from_devices (device_is dev) d
  | DeleteMessagesOfDevice dev =>
      delete_from_messages (message_on_device dev) d
  | DeleteChatsOfDevice dev => delete_from_chats (chat_on_device dev) d
  end.

(** [db.Exec] of a deletion: as [Exec], one round trip, then the engine's
    verdict. (The [log] of the handle keeps the statements of the upsert
    and schema paths only.) *)
Definition ExecDeletion (s : Deletion) : M (Result * option error) :=
  fault <- round_trip ;;
  fun w =>
    match fault with
    | Some diagnostic => (Returned (None, Some (ErrEngine diagnostic)), w)
    | None =>
        match run_deletion s (db w) with
        | inl (d, n) =>
            (Returned (Some n, None), mkWorld d (tx w) (faults w) (log w))
        | inr diagnostic => (Returned (None, Some (ErrEngine diagnostic)), w)
        end
    end.

(** [tx.Exec] of a deletion: as [TxExec], on the transaction's view. *)
Definition TxExecDeletion (pg : bool) (h : option TxHandle) (s : Deletion)
  : M (Result * option error) :=
  match h with
  | None => panic
  | Some _ =>
      fault <- round_trip ;;
      fun w =>
        match tx w with
        | None => (Returned (None, Some ErrTxDone), w)
        | Some t =>
            let refused (diagnostic : string) :=
              (Returned (None, Some (ErrEngine diagnostic)),
               mkWorld (db w) (Some (mkTx (tx_db t) (tx_failed t || pg)))
                       (faults w) (log w)) in
            match fault with
            | Some diagnostic => refused diagnostic
            | None =>
                if tx_failed t then refused current_transaction_is_aborted
                else match run_deletion s (tx_db t) with
                     | inl (d, n) =>
                         (Returned (Some n, None),
                          mkWorld (db w) (Some (mkTx d false)) (faults w)
                                  (log w))
                     | inr diagnostic => refused diagnostic
                     end
            end
        end
  end.

(** [tx.Rollback()]: [sql.ErrTxDone], without a round trip, once the
    transaction has been committed or rolled back; otherwise the view of
    the transaction is thrown away. *)
Definition Rollback (h : option TxHandle) : M (option error) :=
  match h with
  | None => panic
  | Some _ =>
      fun w =>
        match tx w with
        | None => (Returned (Some ErrTxDone), w)
        | Some _ =>
            (fault <- round_trip ;;
             fun w' =>
               (Returned match fault with
                         | Some diagnostic => Some (ErrEngine diagnostic)
                         | None => None
                         end,
                mkWorld (db w') None (faults w') (log w'))) w
        end
  end.

(** [func (r *SQLRepository) DeleteChatByDevice(deviceID, jid string)
      error]. *)
Definition DeleteChatByDevice (r : SQLRepository) (deviceID jid : string)
  : M (option error) :=
  '(tx, _) <- Begin ;;
  _ <- TxExecDeletion (isPostgres r) tx
         (DeleteMessagesOfChatOnDevice jid deviceID) ;;
  _ <- TxExecDeletion (isPostgres r) tx (DeleteChatOnDevice jid deviceID) ;;
  Commit tx.

(** [func (r *SQLRepository) DeleteMessage(id, chatJID string) error]. *)
Definition DeleteMessage (r : SQLRepository) (id chatJID : string)
  : M (option error) :=
  '(_, err) <- ExecDeletion (DeleteMessageOfChat id chatJID) ;;
  ret err.


(** [func (r *SQLRepository) DeleteDeviceRecord(deviceID string) error]. *)
Definition DeleteDeviceRecord (r : SQLRepository) (deviceID : string)
  : M (option error) :=
  '(_, err) <- ExecDeletion (DeleteDevice deviceID) ;;
  ret err.

(** An [error] as [DeleteDeviceData] returns it: one it makes itself with
    [fmt.Errorf], or one the handle gave it. *)
Inductive call_error : Type :=
| Errorf (text : string)
| FromHandle (e : error).

Definition from_handle (err : option error) : option call_error :=
  match err with
  | Some e => Some (FromHandle e)
  | None => None
  end.

(** [func (r *SQLRepository) DeleteDeviceData(deviceID string) error]; the
    deferred [tx.Rollback()] runs once the result of [tx.Commit()] is
    set. *)
Definition DeleteDeviceData (r : SQLRepository) (deviceID : string)
  : M (option call_error) :=
  if String.eqb deviceID "" then ret (Some (Errorf "device_id is required"))
  else
    '(tx, err) <- Begin ;;
    if negb (is_nil err) then ret (from_handle err)
    else
      _ <- TxExecDeletion (isPostgres r) tx (DeleteMessagesOfDevice deviceID) ;;
      _ <- TxExecDeletion (isPostgres r) tx (DeleteChatsOfDevice deviceID) ;;
      result <- Commit tx ;;
      _ <- Rollback tx ;;
      ret (from_handle result).

(** ** Listings *)

(** The rows of a result set; none when the handle is nil. *)
Definition rows_or_nil {A : Type} (rows : option (list A)) : list A :=
  match rows with
  | Some found => found
  | None => []
  end.

(** [domainChatStorage.MessageFilter], with the fields [GetMessages]
    reads. *)
Module MessageFilter.
Record t : Type := mk {
  ChatJID : string;
  DeviceID : string;
  Limit : Z }.
End MessageFilter.

(** [db.Query] of the statement [GetMessages] builds:
    [SELECT ... FROM messages WHERE chat_jid = ? AND device_id = ?
     ORDER BY timestamp DESC [LIMIT n]]; the rows handle is nil when the
    query fails. *)
Definition QueryMessages (chat_jid device_id : string) (limit : option Z)
  : M (option (list Message.t) * option error) :=
  fault <- round_trip ;;
  fun w =>
    match fault with
    | Some diagnostic => (Returned (None, Some (ErrEngine diagnostic)), w)
    | None =>
        match messages (db w) with
        | None => (Returned (None, Some (ErrEngine no_such_table)), w)
        | Some rows =>
            let ordered :=
              order_desc Message.Timestamp
                (filter (message_in_chat_on chat_jid device_id) rows) in
            (Returned (Some match limit with
                            | Some n => firstn (Z.to_nat n) ordered
                            | None => ordered
                            end, None), w)
        end
    end.

(** [func (r *SQLRepository) GetMessages(filter
      *domainChatStorage.MessageFilter) ([]*domainChatStorage.Message,
      error)]; the loop scans every row of the result into the slice. *)
Definition GetMessages (r : SQLRepository) (filter : MessageFilter.t)
  : M (list Message.t * option error) :=
  '(rows, err) <-
    QueryMessages (MessageFilter.ChatJID filter)
      (MessageFilter.DeviceID filter)
      (if MessageFilter.Limit filter >? 0
       then Some (MessageFilter.Limit filter) else None) ;;
  if negb (is_nil err) then ret ([], err)
  else ret (map (fun row => fst (scanMessage (RowOf row))) (rows_or_nil rows),
            None).

(** [ORDER BY column ASC]; rows of equal rank keep the order of the
    table. *)
Fixpoint insert_asc {A : Type} (column : A -> Z) (row : A) (sorted : list A)
  : list A :=
  match sorted with
  | [] => [row]
  | x :: rest =>
      if column row <=? column x then row :: sorted
      else x :: insert_asc column row rest
  end.

Definition order_asc {A : Type} (column : A -> Z) (rows : list A) : list A :=
  fold_right (insert_asc column) [] rows.

(** [db.Query(SELECT device_id, display_name, jid, created_at, updated_at
    FROM devices ORDER BY created_at ASC)]. *)
Definition QueryDevices : M (option (list DeviceRecord.t) * option error) :=
  fault <- round_trip ;;
  fun w =>
    match fault with
    | Some diagnostic => (Returned (None, Some (ErrEngine diagnostic)), w)
    | None =>
        match devices (db w) with
        | None => (Returned (None, Some (ErrEngine no_such_table)), w)
        | Some rows =>
            (Returned (Some (order_asc DeviceRecord.CreatedAt rows), None), w)
        end
    end.

(** [func (r *SQLRepository) ListDeviceRecords()
      ([]*domainChatStorage.DeviceRecord, error)]. *)
Definition ListDeviceRecords (r : SQLRepository)
  : M (list DeviceRecord.t * option error) :=
  '(rows, _) <- QueryDevices ;;
  match rows with
  | None => ret ([], None)
  | Some found => ret (found, None)
  end.

(** ** The methods that only satisfy the interface *)

(** [StoreMessagesBatch], [TruncateAllChats], [TruncateAllDataWithLogging]
    and [StoreSentMessageWithContext]: [return nil]. *)
Definition StoreMessagesBatch (r : SQLRepository) (m : list Message.t)
  : M (option error) := ret None.
Definition TruncateAllChats (r : SQLRepository) : M (option error) := ret None.
Definition TruncateAllDataWithLogging (r : SQLRepository) (prefix : string)
  : M (option error) := ret None.
Definition StoreSentMessageWithContext (r : SQLRepository)
  (mID s rec con : string) (t : Time) : M (option error) := ret None.

(** [GetChatMessageCount], [GetChatMessageCountByDevice],
    [GetTotalMessageCount], [GetTotalChatCount]: [return 0, nil];
    [GetStorageStatistics]: [return 0, 0, nil]. *)
Definition GetChatMessageCount (r : SQLRepository) (jid : string)
  : M (Z * option error) := ret (0, None).
Definition GetChatMessageCountByDevice (r : SQLRepository) (d j : string)
  : M (Z * option error) := ret (0, None).
Definition GetTotalMessageCount (r : SQLRepository) : M (Z * option error) :=
  ret (0, None).
Definition GetTotalChatCount (r : SQLRepository) : M (Z * option error) :=
  ret (0, None).
Definition GetStorageStatistics (r : SQLRepository)
  : M (Z * Z * option error) := ret (0, 0, None).


(* ===================================================================== *)
(** * The start-up of the chat storage (package cmd) *)
(* ===================================================================== *)

(** An [error] as [initChatStorage] returns it: one made with [fmt.Errorf]
    from a text alone, the error of [sql.Open] as it is, or one made with
    [fmt.Errorf] and the verb [%w] around a cause. *)
Inductive init_error : Type :=
| InitErrorf (text : string)
| OpenError (diagnostic : string)
| InitErrorfW (text : string) (cause : string).

Section Startup.

(** [*sql.DB] as package [database/sql] hands it out, with the two answers
    of that package the start-up depends on: [sql.Open] gives a handle or
    an error, [db.Ping] nil or an error. *)
Variable Handle : Type.
Variable sql_Open : string -> string -> Handle + string.
Variable db_Ping : Handle -> option string.

(** The calls made on [database/sql], in their order. *)
Inductive SqlCall : Type :=
| CallOpen (driverName dataSourceName : string)
| CallSetMaxOpenConns (db : Handle) (n : Z)
| CallSetMaxIdleConns (db : Handle) (n : Z)
| CallPing (db : Handle)
| CallClose (db : Handle).

(** [func initChatStorage() ( *sql.DB, error)], with [config.ChatStorageURI]
    as its argument; the result comes with the calls made. *)
Definition initChatStorage (ChatStorageURI : string)
  : (option Handle * option init_error) * list SqlCall :=
  if strings.HasPrefix ChatStorageURI "postgres://" then
    match sql_Open "postgres" ChatStorageURI with
    | inr diagnostic =>
        ((None, Some (OpenError diagnostic)),
         [CallOpen "postgres" ChatStorageURI])
    | inl db =>
        let calls := [CallOpen "postgres" ChatStorageURI;
                      CallSetMaxOpenConns db 25;
                      CallSetMaxIdleConns db 5;
                      CallPing db] in
        match db_Ping db with
        | Some diagnostic =>
            ((None, Some (InitErrorfW "failed to ping database: " diagnostic)),
             (calls ++ [CallClose db])%list)
        | None => ((Some db, None), calls)
        end
    end
  else
    ((None,
      Some (InitErrorf
              "SQLite is disabled in this build. Please use a postgres:// URI")),
     []).

End Startup.

Arguments CallOpen {Handle} _ _.
Arguments CallSetMaxOpenConns {Handle} _ _.
Arguments CallSetMaxIdleConns {Handle} _ _.
Arguments CallPing {Handle} _.
Arguments CallClose {Handle} _.

(* ===================================================================== *)
(** * What the adapter is to compute, in the words of its contract *)
(* ===================================================================== *)

(** The pieces of a query between its placeholder tokens, left to right:
    a query with [k] tokens has [k + 1] pieces. *)
Fixpoint split_q (s : string) : list string :=
  match s with
  | EmptyString => [EmptyString]
  | String c s' =>
      if Ascii.eqb c "?" then EmptyString :: split_q s'
      else match split_q s' with
           | [] => [String c EmptyString]
           | piece :: pieces => String c piece :: pieces
           end
  end.

(** The pieces put together again with the universal token between them. *)
Fixpoint join_q (pieces : list string) : string :=
  match pieces with
  | [] => EmptyString
  | [piece] => piece
  | piece :: rest => piece ++ "?" ++ join_q rest
  end.

(** The pieces put together with the ordinal markers [$n], [$(n+1)], ...
    between them: the Nth gap receives the marker [$(n+N-1)]. *)
Fixpoint join_markers (pieces : list string) (n : Z) : string :=
  match pieces with
  | [] => EmptyString
  | [piece] => piece
  | piece :: rest => piece ++ Sprintf_dollar n ++ join_markers rest (n + 1)
  end.

(** The same translation written as one pass over the query. *)
Fixpoint number_placeholders (s : string) (n : Z) : string :=
  match s with
  | EmptyString => EmptyString
  | String c s' =>
      if Ascii.eqb c "?"
      then Sprintf_dollar n ++ number_placeholders s' (n + 1)
      else String c (number_placeholders s' n)
  end.

(* ===================================================================== *)
(** * The vocabulary of the properties *)
(* ===================================================================== *)

(** The struct as [StoreMessage] leaves it: both stamps set to the clock. *)
Definition stamped (now : Time) (message : Message.t) : Message.t :=
  Message.set_UpdatedAt (Message.set_CreatedAt message now) now.



(** The recorded schema version: the highest version of [schema_info], or
    0 when the table is absent or empty. *)
Definition current_version (d : DB) : Z :=
  match schema_info d with
  | Some versions => max_version versions
  | None => 0
  end.

(** The statements one run sends for the pending migrations [pending],
    the first of which has index [i]: each migration, then the removal and
    the record of version [i + 1]. *)
Fixpoint steps_from (i : Z) (pending : list Stmt) : list Stmt :=
  match pending with
  | [] => []
  | mig :: rest =>
      mig :: DeleteSchemaVersion (i + 1) :: InsertSchemaVersion (i + 1)
          :: steps_from (i + 1) rest
  end.

Definition rows_of {A : Type} (table : option (list A)) : list A :=
  match table with
  | Some rows => rows
  | None => []
  end.

(** What goes wrong with the next query of [table], if anything: the call
    is lost in transit, or the engine refuses it for want of the table. *)
Definition query_failure {A : Type} (table : DB -> option (list A))
  (w : World) : option string :=
  match faults w with
  | Some diagnostic :: _ => Some diagnostic
  | _ => match table (db w) with
         | None => Some no_such_table
         | Some _ => None
         end
  end.

(** The contract of a point lookup [lookup] that selects the rows [sel] of
    [table]: it returns and leaves the tables alone; when the query goes
    through and selects no row, the result is [(nil, nil)]; when it goes
    through and selects rows, the result is one of them and no error (the
    one row, when the selection is by a key); an error is returned
    exactly when the query failed, and it is the failure's diagnostic,
    never [sql.ErrNoRows]. *)
Definition lookup_contract {A : Type} (table : DB -> option (list A))
  (sel : A -> bool) (lookup : M (option A * option error)) (w : World)
  : Prop :=
  exists (found : option A) (err : option error) (w' : World),
    lookup w = (Returned (found, err), w') /\
    db w' = db w /\
    (query_failure table w = None ->
     filter sel (rows_of (table (db w))) = [] ->
     found = None /\ err = None) /\
    (query_failure table w = None ->
     filter sel (rows_of (table (db w))) <> [] ->
     exists row,
       found = Some row /\ err = None /\
       In row (filter sel (rows_of (table (db w))))) /\
    (forall e, err = Some e ->
               exists diagnostic,
                 e = ErrEngine diagnostic /\
                 query_failure table w = Some diagnostic) /\
    (forall diagnostic, query_failure table w = Some diagnostic ->
                        err = Some (ErrEngine diagnostic)).

(** Nothing is left of a chat: no message of it and no chat row. *)
Definition chat_erased (jid : string) (d : DB) : Prop :=
  filter (message_in_chat jid) (rows_of (messages d)) = [] /\
  filter (chat_has_jid jid) (rows_of (chats d)) = [].

(** All or nothing: when [DeleteChat] reports success nothing is left of
    the chat, and otherwise the committed tables are as they were. *)
Definition all_or_nothing (r : SQLRepository) (jid : string) (w : World)
  : Prop :=
  match DeleteChat r jid w with
  | (Returned None, w') => chat_erased jid (db w')
  | (_, w') => db w' = db w
  end.

(** [name] contains [search] as a substring, the letters [A] to [Z]
    compared without regard to case. *)
Definition contains_fold (name search : string) : bool :=
  strings.Contains (strings.lower_ascii name) (strings.lower_ascii search).

(** ** For the remaining properties *)

(** The chat of a [StoreChat] call is in the table, with the values of the
    call and the stamp [now]. *)
Definition chat_stored (chat : Chat.t) (now : Time) (d : DB) : Prop :=
  exists row : Chat.t,
    In row (rows_of (chats d)) /\
    chat_is (Chat.JID chat) (Chat.DeviceID chat) row = true /\
    Chat.Name row = Chat.Name chat /\
    Chat.LastMessageTime row = Chat.LastMessageTime chat /\
    Chat.EphemeralExpiration row = Chat.EphemeralExpiration chat /\
    Chat.UpdatedAt row = now.

(** The message of a [StoreMessage] call is in the table: a row with all
    its columns, but for the creation stamp, which is the row's own. *)
Definition message_stored (message : Message.t) (now : Time) (d : DB) : Prop :=
  exists row : Message.t,
    In row (rows_of (messages d)) /\
    row = Message.set_CreatedAt (stamped now message) (Message.CreatedAt row).

(** Nothing is left of a device: no message and no chat of it. *)
Definition device_erased (deviceID : string) (d : DB) : Prop :=
  filter (message_on_device deviceID) (rows_of (messages d)) = [] /\
  filter (chat_on_device deviceID) (rows_of (chats d)) = [].

(** The order of a listing: [desc column a b] when [a] may come before [b]
    under [ORDER BY column DESC], [asc column a b] under [ASC]. *)
Definition desc {A : Type} (column : A -> Z) (a b : A) : Prop :=
  column b <= column a.

Definition asc {A : Type} (column : A -> Z) (a b : A) : Prop :=
  column a <= column b.

(** The [WHERE] clause [GetChats] builds from its filter, as the engine of
    dialect [pg] evaluates it on a row. *)
Definition chats_where (pg : bool) (filter : ChatFilter.t) (row : Chat.t)
  : bool :=
  opt_holds
    (if negb (String.eqb (ChatFilter.SearchName filter) "")
     then Some ("%" ++ ChatFilter.SearchName filter ++ "%") else None)
    (fun pattern => like pg pattern (Chat.Name row))
  && opt_holds
       (if negb (String.eqb (ChatFilter.DeviceID filter) "")
        then Some (ChatFilter.DeviceID filter) else None)
       (String.eqb (Chat.DeviceID row)).

(** A search text without the bytes [LIKE] reads as wildcards or escape. *)
Fixpoint plain (text : string) : bool :=
  match text with
  | EmptyString => true
  | String c rest =>
      negb (Ascii.eqb c "%" || Ascii.eqb c "_" || Ascii.eqb c "\") && plain rest
  end.

(** The [WHERE] clause of [SearchMessages] for a search text of ASCII
    bytes, as the engine of dialect [pg] evaluates it on a row. *)
Definition search_where (pg : bool) (chatJID deviceID searchText : string)
  (row : Message.t) : bool :=
  String.eqb (Message.ChatJID row) chatJID
  && String.eqb (Message.DeviceID row) deviceID
  && like pg ("%" ++ strings.lower_ascii searchText ++ "%")
       (LOWER (Message.Content row)).

(** The statements of the migrator other than the creation of [chats]. *)
Definition spares_chats (s : Stmt) : bool :=
  match s with
  | CreateSchemaInfo | DeleteSchemaVersion _ | InsertSchemaVersion _
  | CreateMessages _ | CreateDevices => true
  | _ => false
  end.

(* ===================================================================== *)
(** * Sample data *)
(* ===================================================================== *)

(** A stand-in for the tables of package [unicode], which the ASCII texts
    of the samples never reach. *)
Definition no_tables : string -> string := fun s => s.

(** The repository over the Postgres driver, the one this build opens, and
    over a driver of the universal token. *)
Definition postgres : SQLRepository :=
  NewStorageRepository no_tables "*pq.Driver".

Definition native : SQLRepository :=
  NewStorageRepository no_tables "*sqlite3.SQLiteDriver".

(** No table yet. *)
Definition empty_db : DB := mkDB None None None None.

(** A migrated database with the chat of Alice on device [dev1] and one
    message in it. *)
Definition one_chat_one_message : DB :=
  mkDB (Some [Chat.mk "dev1" "alice@s.whatsapp.net" "Alice" 5 0 1 1])
       (Some [Message.mk "m1" "alice@s.whatsapp.net" "dev1"
                "alice@s.whatsapp.net" "Hi" 5 false "" "" "" [] [] [] 0 1 1])
       (Some []) (Some [1; 2; 3]).

(** That database at a moment when the first round trip goes through and
    the second is refused: for [DeleteChat], [Begin] succeeds and the
    [DELETE] of the messages fails. *)
Definition first_delete_fails : World :=
  mkWorld one_chat_one_message None [None; Some "database is locked"] [].

(** For an upsert: the [UPDATE] goes through and the [INSERT] is lost. *)
Definition insert_is_lost : World :=
  mkWorld one_chat_one_message None [None; Some "connection reset"] [].

(** For an upsert: the [UPDATE] is lost. *)
Definition update_is_lost : World :=
  mkWorld one_chat_one_message None [Some "connection reset"] [].

(** A device that is not in the table yet. *)
Definition new_device : DeviceRecord.t :=
  DeviceRecord.mk "dev1" "Phone" "alice@s.whatsapp.net" 0 0.


(** A protocol control message: no text and no media. *)
Definition control_message : Message.t :=
  Message.mk "m3" "alice@s.whatsapp.net" "dev1" "alice@s.whatsapp.net" ""
    6 false "" "" "" [] [] [] 0 0 0.


(** A notification from Bob, and the ingestor with stand-ins for its
    collaborators: the context names the device [dev1], identifiers are
    canonical already and render as [user@server], the payload is its own
    text and carries no media. *)
Definition bob : JID.t := JID.mk "bob" 0 0 0 "s.whatsapp.net".

Definition hello_from_bob : Event.t string :=
  Event.mk (MessageInfo.mk "m2" bob bob 9 false "Bob") "Hello".

Definition ingest (r : SQLRepository) (now_chat now_message : Time)
  (evt : Event.t string) : M (option error) :=
  CreateMessage unit unit string string
    (fun _ => tt) (fun _ => Some "dev1") (fun inst => inst)
    (fun _ jid _ => jid)
    (fun jid => JID.User jid ++ "@" ++ JID.Server jid)
    (fun payload => payload)
    (fun _ => MediaInfo.mk "" "" "" [] [] [] 0)
    r now_chat now_message tt evt.

(** A notification from Bob without text and without a display name, as a
    protocol control message arrives. *)
Definition control_from_bob : Event.t string :=
  Event.mk (MessageInfo.mk "m4" bob bob 12 false "") "".


(** The sample database with the device [dev1] registered. *)
Definition with_device : DB :=
  set_devices one_chat_one_message (Some [new_device]).

(** A fresh database at a moment when the two probes of the version go
    through and the third round trip, the creation of [chats], is lost. *)
Definition creation_is_lost : World :=
  mkWorld empty_db None [None; None; Some "connection reset"] [].


(** A migrated database with the chat of Alice on two devices and the chat
    of Bob on one, five messages in all (the message [m1] is on both
    devices), and the two devices registered. *)
Definition two_devices : DB :=
  mkDB (Some [Chat.mk "dev1" "alice@s.whatsapp.net" "Alice" 5 0 1 1;
              Chat.mk "dev2" "alice@s.whatsapp.net" "Alice" 7 0 2 2;
              Chat.mk "dev1" "bob@s.whatsapp.net" "Bob" 6 0 3 3])
       (Some [Message.mk "m1" "alice@s.whatsapp.net" "dev1"
                "alice@s.whatsapp.net" "Hi" 5 false "" "" "" [] [] [] 0 1 1;
              Message.mk "m2" "alice@s.whatsapp.net" "dev1"
                "me@s.whatsapp.net" "Hi Alice" 6 true "" "" "" [] [] [] 0 2 2;
              Message.mk "m1" "alice@s.whatsapp.net" "dev2"
                "alice@s.whatsapp.net" "Hi" 5 false "" "" "" [] [] [] 0 3 3;
              Message.mk "m3" "alice@s.whatsapp.net" "dev2"
                "alice@s.whatsapp.net" "" 7 false "image" "a.jpg"
                "https://example.org/a" [] [] [] 10 4 4;
              Message.mk "m4" "bob@s.whatsapp.net" "dev1"
                "bob@s.whatsapp.net" "Hello" 6 false "" "" "" [] [] [] 0 5 5])
       (Some [DeviceRecord.mk "dev1" "Phone" "me@s.whatsapp.net" 1 1;
              DeviceRecord.mk "dev2" "Tablet" "me@s.whatsapp.net" 2 2])
       (Some [1; 2; 3]).

(* ===================================================================== *)
(** * The placeholder adapter meets its contract *)
(* ===================================================================== *)

Section Placeholders.

(** One round of the loop. *)
Lemma p_loop_round (query : string) (n : Z) :
  p_loop query n =
  if strings.Contains query "?"
  then p_loop (strings.Replace1 query "?" (Sprintf_dollar n)) (wrap64 (n + 1))
  else query.
Proof.
  funelim (p_loop query n).
  - rewrite more. reflexivity.
  - match goal with E : strings.Contains _ _ = false |- _ => rewrite E end.
    reflexivity.
Qed.

Lemma Replace1_app_noq (u s new : string) :
  count_q u = O ->
  strings.Replace1 (u ++ s) "?" new = u ++ strings.Replace1 s "?" new.
Proof.
  induction u as [|c u IH]; intros Hu; [reflexivity|].
  cbn [count_q] in Hu. destruct (Ascii.eqb c "?") eqn:E; [discriminate|].
  cbn [append strings.Replace1]. rewrite HasPrefix_q.
  rewrite Ascii.eqb_sym, E. rewrite IH by exact Hu. reflexivity.
Qed.

Lemma p_loop_noq (s : string) (n : Z) : count_q s = O -> p_loop s n = s.
Proof.
  intros H. rewrite p_loop_round, Contains_q_count, H. reflexivity.
Qed.

(** A prefix without placeholder is carried through the loop untouched. *)
Lemma p_loop_app_noq (u : string) :
  count_q u = O ->
  forall (k : nat) (s : string) (n : Z),
    count_q s = k -> p_loop (u ++ s) n = u ++ p_loop s n.
Proof.
  intros Hu k. induction k as [|k IH]; intros s n Hk.
  - rewrite !p_loop_noq; auto. rewrite count_q_app. lia.
  - rewrite (p_loop_round (u ++ s)), (p_loop_round s).
    rewrite !Contains_q_count, count_q_app, Hu, Hk. cbn [Nat.add Nat.eqb negb].
    rewrite Replace1_app_noq by exact Hu. apply IH.
    pose proof (count_q_Replace1 s (Sprintf_dollar n) (count_q_Sprintf n)).
    lia.
Qed.

Lemma number_placeholders_noq (s : string) (n : Z) :
  count_q s = O -> number_placeholders s n = s.
Proof.
  induction s as [|c s IH]; intros H; [reflexivity|].
  cbn [count_q number_placeholders] in *.
  destruct (Ascii.eqb c "?"); [discriminate|]. now rewrite IH.
Qed.

Lemma wrap64_small (z : Z) : int_range z -> wrap64 z = z.
Proof.
  unfold int_range, wrap64. intros H.
  rewrite Z.mod_small by lia. lia.
Qed.

(** The loop computes the one-pass translation as long as no ordinal
    leaves the range of [int]. *)
Lemma p_loop_number (s : string) :
  forall n : Z,
    - 2 ^ 63 <= n ->
    count_q s = O \/ n + Z.of_nat (count_q s) <= 2 ^ 63 ->
    p_loop s n = number_placeholders s n.
Proof.
  induction s as [|c s IH]; intros n Hlo Hk.
  - now rewrite p_loop_noq.
  - cbn [number_placeholders]. destruct (Ascii.eqb c "?") eqn:E.
    + apply Ascii.eqb_eq in E. subst c.
      rewrite p_loop_round, Contains_q_count.
      cbn [count_q Ascii.eqb Bool.eqb Nat.add Nat.eqb negb strings.Replace1].
      rewrite HasPrefix_q.
      cbn [Ascii.eqb Bool.eqb String.length strings.skip].
      rewrite (p_loop_app_noq _ (count_q_Sprintf n) (count_q s) s _ eq_refl).
      f_equal.
      destruct Hk as [Hk|Hk]; [discriminate|].
      cbn [count_q Ascii.eqb Bool.eqb] in Hk.
      destruct (Nat.eq_dec (count_q s) 0) as [Z0|NZ].
      * now rewrite p_loop_noq, number_placeholders_noq.
      * rewrite wrap64_small by (unfold int_range; lia).
        apply IH; lia.
    + change (String c s) with (String c EmptyString ++ s).
      rewrite (p_loop_app_noq (String c EmptyString)) with (k := count_q s);
        [|cbn [count_q]; now rewrite E|reflexivity].
      cbn [append]. f_equal. apply IH; [exact Hlo|].
      cbn [count_q] in Hk. rewrite E in Hk. exact Hk.
Qed.

Lemma split_q_nonempty (s : string) : split_q s <> [].
Proof.
  induction s as [|c s IH]; cbn [split_q]; [discriminate|].
  destruct (Ascii.eqb c "?"); [discriminate|].
  destruct (split_q s); discriminate.
Qed.

Lemma join_q_split (s : string) : join_q (split_q s) = s.
Proof.
  induction s as [|c s IH]; [reflexivity|]. cbn [split_q].
  destruct (Ascii.eqb c "?") eqn:E.
  - apply Ascii.eqb_eq in E. subst c.
    pose proof (split_q_nonempty s).
    cbn [join_q]. destruct (split_q s); [contradiction|].
    rewrite IH. reflexivity.
  - pose proof (split_q_nonempty s).
    destruct (split_q s) as [|piece rest]; [contradiction|].
    rewrite <- IH. destruct rest; reflexivity.
Qed.

Lemma split_q_pieces (s : string) :
  Forall (fun piece => count_q piece = O) (split_q s).
Proof.
  induction s as [|c s IH]; cbn [split_q].
  - constructor; [reflexivity|constructor].
  - destruct (Ascii.eqb c "?") eqn:E.
    + constructor; [reflexivity|exact IH].
    + destruct (split_q s) as [|piece rest].
      * constructor; [cbn [count_q]; now rewrite E|constructor].
      * inversion IH; subst. constructor; [|assumption].
        cbn [count_q]. rewrite E. assumption.
Qed.

Lemma split_q_length (s : string) :
  List.length (split_q s) = S (count_q s).
Proof.
  induction s as [|c s IH]; [reflexivity|]. cbn [split_q count_q].
  destruct (Ascii.eqb c "?").
  - cbn [List.length]. now rewrite IH.
  - pose proof (split_q_nonempty s).
    destruct (split_q s); [contradiction|]. exact IH.
Qed.

Lemma number_join_markers (s : string) :
  forall n : Z, number_placeholders s n = join_markers (split_q s) n.
Proof.
  induction s as [|c s IH]; intros n; [reflexivity|].
  cbn [number_placeholders split_q]. pose proof (split_q_nonempty s).
  destruct (Ascii.eqb c "?").
  - rewrite IH. cbn [join_markers].
    destruct (split_q s); [contradiction|]. reflexivity.
  - rewrite IH. destruct (split_q s) as [|piece [|piece' rest]];
      [contradiction|reflexivity|reflexivity].
Qed.

End Placeholders.

(** C3. For every query with [k] universal placeholder tokens (no more
    than an [int] can count), cut at its tokens into [k + 1] token-free
    pieces: on the numbered-parameter dialect (Postgres) the adapter [p]
    returns the pieces joined by the markers [$1], ..., [$k] in
    left-to-right order, one marker per token; on a dialect that takes the
    universal token natively it returns the query unchanged. *)
Theorem p_translates_placeholders (r : SQLRepository) (query : string) :
  Z.of_nat (count_q query) < 2 ^ 63 ->
  let pieces := split_q query in
  join_q pieces = query /\
  Forall (fun piece => count_q piece = O) pieces /\
  List.length pieces = S (count_q query) /\
  (isPostgres r = true -> p r query = join_markers pieces 1) /\
  (isPostgres r = false -> p r query = query).
Proof.
  intros Hk pieces. subst pieces.
  split; [apply join_q_split|].
  split; [apply split_q_pieces|].
  split; [apply split_q_length|].
  unfold p. split; intros ->; cbn [negb]; [|reflexivity].
  rewrite p_loop_number by lia. apply number_join_markers.
Qed.

Lemma p_translates_placeholders_witness :
  let q := "UPDATE devices SET display_name = ?, jid = ?, updated_at = ? WHERE device_id = ?" in
  p postgres q =
    "UPDATE devices SET display_name = $1, jid = $2, updated_at = $3 WHERE device_id = $4"
  /\ p native q = q.
Proof.
  cbv zeta.
  destruct (p_translates_placeholders postgres
    "UPDATE devices SET display_name = ?, jid = ?, updated_at = ? WHERE device_id = ?")
    as (_ & _ & _ & Hpg & _); [vm_compute; reflexivity|].
  destruct (p_translates_placeholders native
    "UPDATE devices SET display_name = ?, jid = ?, updated_at = ? WHERE device_id = ?")
    as (_ & _ & _ & _ & Hnative); [vm_compute; reflexivity|].
  split.
  - rewrite Hpg by reflexivity. vm_compute. reflexivity.
  - apply Hnative. reflexivity.
Defined.

(* ===================================================================== *)
(** * The handle: basic facts *)
(* ===================================================================== *)

Section Handle.

(** [Exec] always returns, and hands back a result whenever it reports
    no error. *)
Lemma Exec_returns (s : Stmt) (w : World) :
  exists (result : Result) (err : option error) (w' : World),
    Exec s w = (Returned (result, err), w') /\
    (err = None -> exists n, result = Some n).
Proof.
  unfold Exec, round_trip. cbn.
  destruct (refused_argument s) as [refusal|];
    [do 3 eexists; split; [reflexivity|discriminate]|].
  destruct (faults w) as [|[diagnostic|] rest]; cbn.
  - destruct (run_stmt s (db w)) as [[d n]|diagnostic]; cbn;
      do 3 eexists; (split; [reflexivity|]); intros E;
      [eexists; reflexivity|discriminate].
  - do 3 eexists. split; [reflexivity|]. discriminate.
  - destruct (run_stmt s (db w)) as [[d n]|diagnostic]; cbn;
      do 3 eexists; (split; [reflexivity|]); intros E;
      [eexists; reflexivity|discriminate].
Qed.

(** [Exec] of a statement the library accepts, when nothing is scheduled
    to fail. *)
Lemma Exec_calm (s : Stmt) (d : DB) (t : option TxState) (lg : list Stmt) :
  refused_argument s = None ->
  Exec s (mkWorld d t [] lg) =
  match run_stmt s d with
  | inl (d', n) => (Returned (Some n, None), mkWorld d' t [] (lg ++ [s])%list)
  | inr diagnostic =>
      (Returned (None, Some (ErrEngine diagnostic)),
       mkWorld d t [] (lg ++ [s])%list)
  end.
Proof.
  intros Haccepted. unfold Exec, round_trip. rewrite Haccepted. cbn.
  destruct (run_stmt s d) as [[d' n]|diagnostic]; reflexivity.
Qed.

(** [Exec], whatever is scheduled: either the statement ran, or an error
    is reported and the tables are as they were. *)
Lemma Exec_cases (s : Stmt) (w : World) :
  exists (result : Result) (err : option error) (w' : World),
    Exec s w = (Returned (result, err), w') /\
    ((exists d n, err = None /\ result = Some n /\
                  run_stmt s (db w) = inl (d, n) /\ db w' = d) \/
     (exists e, err = Some e /\ result = None /\ db w' = db w)).
Proof.
  unfold Exec, round_trip. cbn.
  destruct (refused_argument s) as [refusal|];
    [do 3 eexists; split; [reflexivity|];
     right; eexists; repeat split; reflexivity|].
  destruct (faults w) as [|[diagnostic|] rest]; cbn;
    try (destruct (run_stmt s (db w)) as [[d n]|diagnostic] eqn:E; cbn);
    do 3 eexists; (split; [reflexivity|]); cbn [db];
    first [left; do 2 eexists; repeat split; reflexivity
          |right; eexists; repeat split; reflexivity].
Qed.

Lemma set_chats_same (d : DB) (rows : list Chat.t) :
  chats d = Some rows -> set_chats d (Some rows) = d.
Proof. destruct d; cbn. now intros ->. Qed.

Lemma set_messages_same (d : DB) (rows : list Message.t) :
  messages d = Some rows -> set_messages d (Some rows) = d.
Proof. destruct d; cbn. now intros ->. Qed.

Lemma chat_is_refl (jid device_id name : string) (t1 : Time) (e : Z)
  (t2 t3 : Time) :
  chat_is jid device_id (Chat.mk device_id jid name t1 e t2 t3) = true.
Proof. unfold chat_is. cbn. now rewrite !String.eqb_refl. Qed.


Lemma filter_nil_existsb {A : Type} (sel : A -> bool) (rows : list A) :
  filter sel rows = [] <-> existsb sel rows = false.
Proof.
  induction rows as [|row rows IH]; cbn; [tauto|].
  destruct (sel row); cbn; [split; discriminate|exact IH].
Qed.

Lemma count_rows_zero {A : Type} (sel : A -> bool) (rows : list A) :
  count_rows sel rows = 0 <-> filter sel rows = [].
Proof.
  unfold count_rows. destruct (filter sel rows); cbn; split;
    intros; try reflexivity; try discriminate; lia.
Qed.

Lemma filter_update_rows {A : Type} (sel : A -> bool) (upd : A -> A)
  (rows : list A) :
  (forall row, sel (upd row) = sel row) ->
  filter sel (update_rows sel upd rows) = map upd (filter sel rows).
Proof.
  intros Hkey. unfold update_rows.
  induction rows as [|row rows IH]; [reflexivity|].
  cbn [map filter]. destruct (sel row) eqn:E.
  - rewrite Hkey, E. cbn [map]. now rewrite IH.
  - rewrite E. exact IH.
Qed.

End Handle.

(* ===================================================================== *)
(** * [StoreMessage] *)
(* ===================================================================== *)

Section StoreMessageFacts.

Lemma update_rows_none {A : Type} (sel : A -> bool) (upd : A -> A)
  (rows : list A) :
  filter sel rows = [] -> update_rows sel upd rows = rows.
Proof.
  unfold update_rows. induction rows as [|row rows IH]; [reflexivity|].
  cbn [filter map]. destruct (sel row); [discriminate|].
  intros H. now rewrite IH.
Qed.

Lemma update_rows_In {A : Type} (sel : A -> bool) (upd : A -> A)
  (rows : list A) (row : A) :
  In row (filter sel rows) -> In (upd row) (update_rows sel upd rows).
Proof.
  intros H. apply filter_In in H. destruct H as [Hin Hsel].
  unfold update_rows. apply in_map_iff. exists row. now rewrite Hsel.
Qed.

Lemma message_is_columns (m row : Message.t) :
  message_is (Message.ID m) (Message.ChatJID m) (Message.DeviceID m) row
  = true ->
  set_message_columns m row = Message.set_CreatedAt m (Message.CreatedAt row).
Proof.
  unfold message_is. intros H.
  apply andb_true_iff in H. destruct H as [H Hdev].
  apply andb_true_iff in H. destruct H as [Hid Hjid].
  apply String.eqb_eq in Hid, Hjid, Hdev.
  unfold set_message_columns, Message.set_CreatedAt.
  rewrite Hid, Hjid, Hdev. reflexivity.
Qed.

Lemma displayable (message : Message.t) :
  Message.Content message <> "" \/ Message.MediaType message <> "" ->
  String.eqb (Message.Content message) ""
  && String.eqb (Message.MediaType message) "" = false.
Proof.
  intros [H|H]; apply String.eqb_neq in H; rewrite H;
    [reflexivity|apply andb_false_r].
Qed.

(** The drop path: nothing is sent and the state is as it was. *)
Lemma StoreMessage_skips (r : SQLRepository) (now : Time)
  (message : Message.t) (w : World) :
  Message.Content message = "" -> Message.MediaType message = "" ->
  StoreMessage r now message w = (Returned (None, stamped now message), w).
Proof.
  intros Hc Hm. unfold StoreMessage. fold (stamped now message).
  replace (Message.Content (stamped now message)) with "" by (now rewrite <- Hc).
  replace (Message.MediaType (stamped now message)) with "" by (now rewrite <- Hm).
  reflexivity.
Qed.

(** The statements of [StoreMessage] touch no table but [messages]. *)
Lemma Exec_message_frame (s : Stmt) (w : World) :
  (exists m, s = UpdateMessage m \/ s = InsertMessage m) ->
  exists (result : Result) (err : option error) (w' : World),
    Exec s w = (Returned (result, err), w') /\
    chats (db w') = chats (db w) /\
    (err = None -> exists n, result = Some n).
Proof.
  intros [m Hs]. unfold Exec, round_trip. cbn.
  assert (Hrun : forall d d' n, run_stmt s d = inl (d', n) -> chats d' = chats d).
  { intros d d' n. destruct Hs as [-> | ->]; cbn [run_stmt]; unfold on_table;
      destruct (messages d) as [rows|]; try discriminate.
    - intros [= <- _]. reflexivity.
    - unfold insert_row. destruct (existsb _ rows); [discriminate|].
      intros [= <- _]. reflexivity. }
  destruct (refused_argument s) as [refusal|];
    [do 3 eexists; split; [reflexivity|]; split; [reflexivity|discriminate]|].
  destruct (faults w) as [|[diagnostic|] rest]; cbn;
    try (destruct (run_stmt s (db w)) as [[d n]|diagnostic] eqn:E; cbn);
    do 3 eexists; (split; [reflexivity|]); cbn [db];
    (split; [try reflexivity; eapply Hrun; eassumption|]);
    intros H; try discriminate; eexists; reflexivity.
Qed.

Lemma StoreMessage_keeps_chats (r : SQLRepository) (now : Time)
  (message : Message.t) (w : World) :
  exists (err : option error) (w' : World),
    StoreMessage r now message w = (Returned (err, stamped now message), w') /\
    chats (db w') = chats (db w).
Proof.
  unfold StoreMessage. fold (stamped now message).
  destruct (_ && _); [do 2 eexists; split; reflexivity|].
  unfold bind.
  destruct (Exec_message_frame (UpdateMessage (stamped now message)) w)
    as (result & err & w1 & -> & Hchats1 & Hres); [eexists; now left|].
  destruct err as [e|]; cbn [is_nil negb].
  - do 2 eexists; split; [reflexivity|exact Hchats1].
  - destruct (Hres eq_refl) as [n ->]. cbn [RowsAffected ret].
    destruct (n =? 0).
    + destruct (Exec_message_frame (InsertMessage (stamped now message)) w1)
        as (result2 & err2 & w2 & -> & Hchats2 & _); [eexists; now right|].
      do 2 eexists; split; [reflexivity|congruence].
    + do 2 eexists; split; [reflexivity|exact Hchats1].
Qed.

(** A displayable message is never dropped in silence: whatever the
    engine does, [StoreMessage] returns, and it returns an error with the
    tables as they were, or nil with the message in the table. *)
Lemma StoreMessage_reports (r : SQLRepository) (now : Time)
  (message : Message.t) (w : World) :
  Message.Content message <> "" \/ Message.MediaType message <> "" ->
  exists (err : option error) (w' : World),
    StoreMessage r now message w = (Returned (err, stamped now message), w') /\
    (err = None -> message_stored message now (db w')) /\
    (err <> None -> db w' = db w).
Proof.
  intros Hshow. unfold StoreMessage, message_stored.
  fold (stamped now message).
  rewrite (displayable (stamped now message))
    by (destruct message; exact Hshow).
  unfold bind.
  destruct (Exec_cases (UpdateMessage (stamped now message)) w)
    as (result & err & w1 & -> & Hcase).
  destruct Hcase as [(d & n & -> & -> & Hrun & Hdb)|(e & -> & -> & Hdb)];
    cbn [is_nil negb RowsAffected ret];
    [|do 2 eexists; split; [reflexivity|];
      split; [discriminate|intros _; exact Hdb]].
  cbn [run_stmt] in Hrun. unfold on_table in Hrun.
  destruct (messages (db w)) as [rows|] eqn:Hrows; [|discriminate].
  injection Hrun as Hd Hn.
  set (m := stamped now message) in *.
  set (sel := message_is (Message.ID m) (Message.ChatJID m)
                         (Message.DeviceID m)) in *.
  destruct (n =? 0) eqn:E.
  - apply Z.eqb_eq in E. subst n. apply count_rows_zero in E.
    rewrite (update_rows_none sel _ rows E) in Hd.
    rewrite (set_messages_same _ _ Hrows) in Hd.
    destruct (Exec_cases (InsertMessage m) w1)
      as (result2 & err2 & w2 & -> & Hcase2).
    destruct Hcase2
      as [(d2 & n2 & -> & -> & Hrun2 & Hdb2)|(e & -> & -> & Hdb2)];
      cbn [ret]; do 2 eexists; (split; [reflexivity|]); split;
      try discriminate; try (intros H; now elim H); intros _.
    + cbn [run_stmt] in Hrun2. unfold on_table in Hrun2.
      rewrite Hdb, <- Hd, Hrows in Hrun2. unfold insert_row in Hrun2.
      destruct (existsb _ rows); [discriminate|].
      injection Hrun2 as Hd2 _. rewrite Hdb2, <- Hd2.
      exists m. cbn [messages set_messages rows_of]. split.
      * apply in_or_app. right. left. reflexivity.
      * unfold m. destruct message; reflexivity.
    + rewrite Hdb2, Hdb, <- Hd. reflexivity.
  - apply Z.eqb_neq in E. subst n. cbn [ret].
    do 2 eexists. split; [reflexivity|].
    split; [intros _|intros H; now elim H].
    destruct (filter sel rows) as [|row0 others] eqn:F;
      [elim E; now apply count_rows_zero|].
    assert (Hin : In row0 (filter sel rows)) by (rewrite F; now left).
    rewrite Hdb, <- Hd. exists (set_message_columns m row0).
    cbn [messages set_messages rows_of]. split; [now apply update_rows_In|].
    apply filter_In in Hin. destruct Hin as [_ Hsel].
    rewrite (message_is_columns m row0 Hsel). reflexivity.
Qed.

End StoreMessageFacts.

(** C10. For every message handed to [StoreMessage], in every state of the
    handle, the call returns and leaves the caller's struct with
    [CreatedAt] and [UpdatedAt] set to the current time and every other
    field as it was; this holds as well when the message has empty content
    and no media kind, in which case nothing reaches the engine. *)
Theorem StoreMessage_stamps_input (r : SQLRepository) (now : Time)
  (message : Message.t) (w : World) :
  (exists (err : option error) (w' : World),
     StoreMessage r now message w = (Returned (err, stamped now message), w'))
  /\ (Message.Content message = "" /\ Message.MediaType message = "" ->
      StoreMessage r now message w = (Returned (None, stamped now message), w))
  /\ Message.CreatedAt (stamped now message) = now
  /\ Message.UpdatedAt (stamped now message) = now
  /\ Message.set_UpdatedAt
       (Message.set_CreatedAt (stamped now message) (Message.CreatedAt message))
       (Message.UpdatedAt message) = message.
Proof.
  split; [|split; [|split; [|split]]].
  - destruct (StoreMessage_keeps_chats r now message w) as (err & w' & H & _).
    now exists err, w'.
  - intros [Hc Hm]. now apply StoreMessage_skips.
  - reflexivity.
  - reflexivity.
  - destruct message; reflexivity.
Qed.


(* ===================================================================== *)
(** * [StoreChat] *)
(* ===================================================================== *)

Section StoreChatFacts.






(** [StoreChat] returns, whatever the engine does. *)
Lemma StoreChat_returns (r : SQLRepository) (now : Time) (chat : Chat.t)
  (w : World) :
  exists (err : option error) (w' : World),
    StoreChat r now chat w = (Returned (err, Chat.set_UpdatedAt chat now), w').
Proof.
  unfold StoreChat, bind.
  match goal with
  | |- context [Exec ?s w] =>
      destruct (Exec_returns s w) as (result & err & w1 & -> & Hres)
  end.
  destruct err as [e|]; cbn [is_nil negb]; [do 2 eexists; reflexivity|].
  destruct (Hres eq_refl) as [n ->]. cbn [RowsAffected ret].
  destruct (n =? 0); [|do 2 eexists; reflexivity].
  match goal with
  | |- context [Exec ?s w1] =>
      destruct (Exec_returns s w1) as (result2 & err2 & w2 & -> & _)
  end.
  do 2 eexists; reflexivity.
Qed.

End StoreChatFacts.


(* ===================================================================== *)
(** * The schema migrator *)
(* ===================================================================== *)

Section Migrator.

(** One test of the loop condition. *)
Lemma schema_loop_round (migs : list Stmt) (i : Z) :
  schema_loop migs i =
  if i <? Z.of_nat (List.length migs) then
    mig <- index migs i ;;
    _ <- Exec mig ;;
    _ <- Exec (DeleteSchemaVersion (i + 1)) ;;
    _ <- Exec (InsertSchemaVersion (i + 1)) ;;
    schema_loop migs (i + 1)
  else ret tt.
Proof.
  funelim (schema_loop migs i).
  - rewrite more. reflexivity.
  - match goal with E : (_ <? _) = false |- _ => rewrite E end. reflexivity.
Qed.

Lemma fold_max_lower (l : list Z) :
  forall a : Z,
    a <= fold_left Z.max l a /\ Forall (fun v => v <= fold_left Z.max l a) l.
Proof.
  induction l as [|x l IH]; intros a; cbn [fold_left].
  - split; [lia|constructor].
  - destruct (IH (Z.max a x)) as [Hge Hall]. split; [lia|].
    constructor; [lia|exact Hall].
Qed.

Lemma fold_max_upper (l : list Z) (m : Z) :
  forall a : Z, a <= m -> Forall (fun v => v <= m) l -> fold_left Z.max l a <= m.
Proof.
  induction l as [|x l IH]; intros a Ha Hall; cbn [fold_left]; [exact Ha|].
  inversion Hall; subst. apply IH; [lia|assumption].
Qed.

Lemma max_version_bounds (versions : list Z) :
  0 <= max_version versions ->
  Forall (fun v => v <= max_version versions) versions.
Proof.
  destruct versions as [|v rest]; intros _; [constructor|].
  cbn [max_version]. destruct (fold_max_lower rest v) as [Hge Hall].
  constructor; assumption.
Qed.

Lemma max_version_is (versions : list Z) (m : Z) :
  In m versions -> Forall (fun v => v <= m) versions ->
  max_version versions = m.
Proof.
  destruct versions as [|v rest]; intros Hin Hall; [contradiction|].
  cbn [max_version]. inversion Hall; subst.
  apply Z.le_antisymm; [now apply fold_max_upper|].
  destruct (fold_max_lower rest v) as [Hge Hrest].
  destruct Hin as [->|Hin]; [exact Hge|].
  rewrite Forall_forall in Hrest. now apply Hrest.
Qed.

(** A migration is accepted by the engine whatever the tables, and leaves
    the version table alone. *)
Lemma migration_runs (s : Stmt) (d : DB) :
  is_migration s = true ->
  exists d', run_stmt s d = inl (d', 0) /\ schema_info d' = schema_info d.
Proof.
  destruct s; try discriminate; intros _; cbn [run_stmt].
  - destruct (chats d); eexists; split; reflexivity.
  - destruct (messages d); eexists; split; reflexivity.
  - destruct (devices d); eexists; split; reflexivity.
Qed.

Lemma delete_then_absent (v : Z) (versions : list Z) :
  existsb (Z.eqb v) (delete_rows (Z.eqb v) versions) = false.
Proof.
  apply filter_nil_existsb. unfold delete_rows.
  induction versions as [|x rest IH]; [reflexivity|].
  cbn [filter]. destruct (v =? x) eqn:E; cbn [negb filter]; [exact IH|].
  now rewrite E.
Qed.

Lemma delete_rows_bound (v m : Z) (versions : list Z) :
  Forall (fun x => x <= m) versions ->
  Forall (fun x => x <= m) (delete_rows (Z.eqb v) versions).
Proof.
  intros H. unfold delete_rows. apply Forall_forall. intros x Hin.
  apply filter_In in Hin. rewrite Forall_forall in H. now apply H.
Qed.

(** The loop on a working engine, started at [i] with every recorded
    version at most [i]: it runs once per pending migration and leaves the
    count of migrations as the highest recorded version. *)
Lemma schema_loop_calm (migs : list Stmt) :
  Forall (fun s => is_migration s = true) migs ->
  forall (k : nat) (i : Z) (w : World) (versions : list Z),
    Z.to_nat (Z.of_nat (List.length migs) - i) = k ->
    0 <= i ->
    faults w = [] ->
    schema_info (db w) = Some versions ->
    Forall (fun v => v <= i) versions ->
    exists (w' : World) (versions' : list Z),
      schema_loop migs i w = (Returned tt, w') /\
      faults w' = [] /\
      log w' = (log w ++ steps_from i (skipn (Z.to_nat i) migs))%list /\
      schema_info (db w') = Some versions' /\
      (k = O -> db w' = db w) /\
      (k <> O -> In (Z.of_nat (List.length migs)) versions' /\
                 Forall (fun v => v <= Z.of_nat (List.length migs)) versions').
Proof.
  intros Hmigs k. induction k as [|k IH]; intros i w versions Hk Hi Hcalm Hsch Hle.
  - rewrite schema_loop_round.
    destruct (Z.ltb_spec i (Z.of_nat (List.length migs))) as [Hlt|Hge]; [lia|].
    exists w, versions. rewrite skipn_all2 by lia. cbn [steps_from].
    rewrite app_nil_r.
    split; [reflexivity|]. split; [exact Hcalm|]. split; [reflexivity|].
    split; [exact Hsch|]. split; [reflexivity|]. intros Habs. now elim Habs.
  - rewrite schema_loop_round.
    destruct (Z.ltb_spec i (Z.of_nat (List.length migs))) as [Hlt|Hge]; [|lia].
    destruct (nth_error migs (Z.to_nat i)) as [mig|] eqn:Hnth;
      [|apply nth_error_None in Hnth; lia].
    assert (Hskip : skipn (Z.to_nat i) migs
                    = mig :: skipn (Z.to_nat (i + 1)) migs).
    { replace (Z.to_nat (i + 1)) with (S (Z.to_nat i)) by lia.
      clear - Hnth. revert migs Hnth.
      induction (Z.to_nat i) as [|n IHn]; intros [|m ms] Hnth;
        try discriminate; cbn in *; [now injection Hnth as ->|now apply IHn]. }
    assert (Hmig : is_migration mig = true).
    { rewrite Forall_forall in Hmigs. apply Hmigs.
      eapply nth_error_In; eassumption. }
    destruct w as [d t fs lg]. cbn in Hcalm, Hsch. subst fs.
    destruct (migration_runs mig d Hmig) as (d1 & Hrun & Hsame).
    unfold bind at 1. unfold index.
    destruct (Z.ltb_spec i 0) as [Hneg|_]; [lia|]. rewrite Hnth. cbn [ret].
    unfold bind at 1. rewrite Exec_calm, Hrun by (now destruct mig).
    unfold bind at 1. rewrite Exec_calm by reflexivity. cbn [run_stmt].
    rewrite Hsame, Hsch. cbn [on_table].
    unfold bind at 1. rewrite Exec_calm by reflexivity.
    cbn [run_stmt schema_info set_schema_info on_table]. unfold insert_row.
    rewrite delete_then_absent.
    set (versions1 := (delete_rows (Z.eqb (i + 1)) versions ++ [i + 1])%list).
    assert (Hle1 : Forall (fun v => v <= i + 1) versions1).
    { apply Forall_app. split.
      - apply delete_rows_bound. eapply Forall_impl; [|exact Hle].
        cbn. intros; lia.
      - repeat constructor. lia. }
    match goal with
    | |- context [schema_loop migs (i + 1) ?w1] =>
        destruct (IH (i + 1) w1 versions1) as
          (w' & versions' & Hloop & Hcalm' & Hlog & Hsch' & Hzero & Hpos);
          [lia|lia|reflexivity|reflexivity|exact Hle1|]
    end.
    exists w', versions'. split; [exact Hloop|]. split; [exact Hcalm'|].
    split; [|split; [exact Hsch'|split; [discriminate|]]].
    + rewrite Hlog, Hskip. cbn [log steps_from].
      rewrite <- !app_assoc. reflexivity.
    + intros _. destruct k as [|k'].
      * rewrite (Hzero eq_refl) in Hsch'.
        cbn [db schema_info set_schema_info] in Hsch'.
        assert (Hlen : Z.of_nat (List.length migs) = i + 1) by lia.
        rewrite Hlen. injection Hsch' as <-. split; [|exact Hle1].
        apply in_or_app. right. now left.
      * apply Hpos. discriminate.
Qed.

End Migrator.

Lemma getMigrations_are_migrations (r : SQLRepository) :
  Forall (fun s => is_migration s = true) (getMigrations r).
Proof. unfold getMigrations. repeat constructor. Qed.

(** One run on a working engine. *)
Lemma InitializeSchema_calm (r : SQLRepository) (w : World) :
  faults w = [] ->
  0 <= current_version (db w) ->
  exists (w1 : World) (versions1 : list Z),
    InitializeSchema r w = (Returned None, w1) /\
    faults w1 = [] /\
    log w1 = (log w ++ CreateSchemaInfo
                :: steps_from (current_version (db w))
                     (skipn (Z.to_nat (current_version (db w)))
                        (getMigrations r)))%list /\
    schema_info (db w1) = Some versions1 /\
    current_version (db w1)
    = Z.max (current_version (db w)) (Z.of_nat (List.length (getMigrations r))) /\
    (schema_info (db w) <> None ->
     Z.of_nat (List.length (getMigrations r)) <= current_version (db w) ->
     db w1 = db w).
Proof.
  intros Hcalm Hv. destruct w as [d t fs lg]. cbn in Hcalm, Hv. subst fs.
  cbn [db log].
  unfold InitializeSchema, getSchemaVersion.
  unfold bind at 1. unfold bind at 1. rewrite Exec_calm by reflexivity. cbn [run_stmt].
  set (d0 := match schema_info d with
             | Some _ => d
             | None => set_schema_info d (Some [])
             end).
  set (versions := match schema_info d with
                   | Some versions => versions
                   | None => []
                   end).
  assert (Hd0 : schema_info d0 = Some versions)
    by (unfold d0, versions; destruct (schema_info d) eqn:E; [exact E|reflexivity]).
  assert (Hcur : current_version d = max_version versions)
    by (unfold current_version, versions; now destruct (schema_info d)).
  replace (match schema_info d with
           | Some _ => inl (d, 0)
           | None => inl (set_schema_info d (Some []), 0)
           end) with (@inl (DB * Z) string (d0, 0))
    by (unfold d0; now destruct (schema_info d)).
  unfold bind at 1. unfold QueryRowMaxVersion, bind at 1, round_trip.
  cbn [faults db]. rewrite Hd0. cbn [ret]. rewrite <- Hcur.
  set (migs := getMigrations r).
  destruct (schema_loop_calm migs (getMigrations_are_migrations r)
              (Z.to_nat (Z.of_nat (List.length migs) - current_version d))
              (current_version d)
              (mkWorld d0 t [] (lg ++ [CreateSchemaInfo])%list) versions
              eq_refl Hv eq_refl Hd0)
    as (w1 & versions1 & Hloop & Hcalm1 & Hlog & Hsch1 & Hzero & Hpos).
  { rewrite Hcur. apply max_version_bounds. now rewrite <- Hcur. }
  unfold bind. rewrite Hloop. cbn [ret].
  exists w1, versions1. split; [reflexivity|]. split; [exact Hcalm1|].
  split; [|split; [exact Hsch1|split]].
  - rewrite Hlog. cbn [log]. rewrite <- app_assoc. reflexivity.
  - destruct (Z.to_nat (Z.of_nat (List.length migs) - current_version d))
      as [|k] eqn:Hk.
    + unfold current_version at 1. rewrite (Hzero eq_refl). cbn [db].
      rewrite Hd0, <- Hcur. lia.
    + destruct Hpos as [Hin Hall]; [discriminate|].
      unfold current_version at 1. rewrite Hsch1.
      rewrite (max_version_is _ _ Hin Hall). lia.
  - intros Hpresent Hdone. rewrite Hzero by lia. cbn [db]. unfold d0.
    destruct (schema_info d); [reflexivity|now elim Hpresent].
Qed.

(** C4. On a working engine, with a recorded version [v] that is not
    negative: the first run of [InitializeSchema] sends, after the probe
    of the version table, the migrations of index [v] up to the last one,
    each followed by the removal and the record of version [i + 1], and
    leaves the recorded version at the larger of [v] and the number of
    migrations (the number of migrations when [v] does not exceed it); a
    second run right after it sends nothing but the probe (no migration),
    and leaves the tables, the recorded version included, unchanged. *)
Theorem InitializeSchema_twice (r : SQLRepository) (w : World) :
  faults w = [] ->
  0 <= current_version (db w) ->
  exists (w1 w2 : World),
    InitializeSchema r w = (Returned None, w1) /\
    log w1 = (log w ++ CreateSchemaInfo
                :: steps_from (current_version (db w))
                     (skipn (Z.to_nat (current_version (db w)))
                        (getMigrations r)))%list /\
    current_version (db w1)
    = Z.max (current_version (db w)) (Z.of_nat (List.length (getMigrations r))) /\
    InitializeSchema r w1 = (Returned None, w2) /\
    log w2 = (log w1 ++ [CreateSchemaInfo])%list /\
    filter is_migration (skipn (List.length (log w1)) (log w2)) = [] /\
    db w2 = db w1 /\
    current_version (db w2) = current_version (db w1).
Proof.
  intros Hcalm Hv.
  destruct (InitializeSchema_calm r w Hcalm Hv)
    as (w1 & versions1 & Hrun1 & Hcalm1 & Hlog1 & Hsch1 & Hcur1 & _).
  assert (Hv1 : 0 <= current_version (db w1)) by lia.
  destruct (InitializeSchema_calm r w1 Hcalm1 Hv1)
    as (w2 & versions2 & Hrun2 & _ & Hlog2 & _ & _ & Hsame).
  assert (Hdb : db w2 = db w1).
  { apply Hsame; [rewrite Hsch1; discriminate|lia]. }
  assert (Hlog : log w2 = (log w1 ++ [CreateSchemaInfo])%list).
  { rewrite Hlog2. rewrite skipn_all2 by lia. reflexivity. }
  exists w1, w2. repeat (split; [assumption|]).
  split; [|now rewrite Hdb].
  rewrite Hlog, skipn_app, skipn_all, Nat.sub_diag. reflexivity.
Qed.

(* ===================================================================== *)
(** * Point lookups *)
(* ===================================================================== *)

Section Lookups.

(** A lookup in the shape all four share: query one row, scan it into a
    fresh struct, turn [sql.ErrNoRows] into [(nil, nil)]. *)
Lemma lookup_shape {A : Type} (table : DB -> option (list A))
  (sel : A -> bool) (met : nat) (zero : A) (w : World) :
  lookup_contract table sel
    (row <- QueryRow table sel met ;;
     let '(rec, err) := match row with
                        | RowOf found => (found, None)
                        | RowErr e => (zero, Some e)
                        end in
     if is_ErrNoRows err then ret (None, None) else ret (Some rec, err)) w.
Proof.
  unfold lookup_contract, query_failure, QueryRow, bind, round_trip.
  destruct w as [d t fs lg]. cbn [faults db].
  assert (Hmet : forall (row : A) (others : list A),
             In (nth (met mod List.length (row :: others)) (row :: others) row)
                (row :: others)).
  { intros row others. apply nth_In, Nat.mod_upper_bound. discriminate. }
  destruct fs as [|[diagnostic|] rest]; cbn [faults db];
    try (destruct (table d) as [rows|]; cbn [rows_of];
         [destruct (filter sel rows) as [|row others]|]);
    cbv zeta; cbn [is_ErrNoRows ret]; do 3 eexists;
    (split; [reflexivity|]); (split; [reflexivity|]);
    repeat apply conj; intros;
    repeat match goal with
           | H : Some _ = Some _ |- _ => injection H as H; subst
           | H : [] <> [] |- _ => now elim H
           end;
    try discriminate; try (eexists; split; reflexivity);
    try (eexists; split; [reflexivity|]; split; [reflexivity|]; apply Hmet);
    repeat split; try discriminate; try reflexivity.
Qed.

End Lookups.

(** C5. Each of the four point lookups ([GetChat], [GetChatByDevice],
    [GetMessageByID], [GetDeviceRecord]) returns [(nil, nil)] when its
    query goes through and no row matches, and a matching row without
    error when one matches, whichever of the matching rows the engine
    meets first; it returns an error only when the query itself failed
    (lost in transit or refused by the engine), and then the error is
    that failure's diagnostic and not the not-found marker. *)
Theorem point_lookups_not_found_is_no_error (r : SQLRepository) (w : World)
  (met : nat) :
  (forall jid : string,
     lookup_contract chats (chat_has_jid jid) (GetChat r met jid) w) /\
  (forall deviceID jid : string,
     lookup_contract chats (chat_is jid deviceID)
       (GetChatByDevice r met deviceID jid) w) /\
  (forall id : string,
     lookup_contract messages (message_has_id id)
       (GetMessageByID r met id) w) /\
  (forall deviceID : string,
     lookup_contract devices (device_is deviceID)
       (GetDeviceRecord r met deviceID) w).
Proof.
  split; [|split; [|split]]; intros.
  - exact (lookup_shape chats (chat_has_jid jid) met Chat.zero w).
  - exact (lookup_shape chats (chat_is jid deviceID) met Chat.zero w).
  - exact (lookup_shape messages (message_has_id id) met Message.zero w).
  - exact (lookup_shape devices (device_is deviceID) met DeviceRecord.zero w).
Qed.

(* ===================================================================== *)
(** * The event ingestor *)
(* ===================================================================== *)

Section IngestorFacts.

Variables Context Client DeviceInstance Proto : Type.
Variable ClientFromContext : Context -> Client.
Variable DeviceFromContext : Context -> option DeviceInstance.
Variable DeviceInstance_ID : DeviceInstance -> string.
Variable NormalizeJIDFromLID : Context -> JID.t -> Client -> JID.t.
Variable JID_String : JID.t -> string.
Variable ExtractMessageTextFromProto : Proto -> string.
Variable ExtractMediaInfo : Proto -> MediaInfo.t.


(** Whatever the engine does, [CreateMessage] returns what its message
    upsert returns: the result of the chat upsert is dropped. *)
Lemma CreateMessage_keeps_message_error (r : SQLRepository)
  (now_chat now_message : Time) (ctx : Context) (evt : Event.t Proto)
  (w : World) :
  exists (chat : Chat.t) (chat_err : option error) (w1 : World)
         (message : Message.t) (err : option error) (w2 : World),
    StoreChat r now_chat chat w
    = (Returned (chat_err, Chat.set_UpdatedAt chat now_chat), w1) /\
    StoreMessage r now_message message w1
    = (Returned (err, stamped now_message message), w2) /\
    CreateMessage Context Client DeviceInstance Proto ClientFromContext
      DeviceFromContext DeviceInstance_ID NormalizeJIDFromLID JID_String
      ExtractMessageTextFromProto ExtractMediaInfo
      r now_chat now_message ctx evt w = (Returned err, w2).
Proof.
  unfold CreateMessage. cbv zeta. unfold bind at 1.
  match goal with
  | |- context [StoreChat r now_chat ?c w] =>
      destruct (StoreChat_returns r now_chat c w) as (chat_err & w1 & Hchat);
      exists c, chat_err, w1
  end.
  rewrite Hchat. cbv beta iota zeta. unfold bind.
  match goal with
  | |- context [StoreMessage r now_message ?m w1] =>
      destruct (StoreMessage_keeps_chats r now_message m w1)
        as (err & w2 & Hmsg & _);
      exists m, err, w2
  end.
  rewrite Hmsg. repeat split; reflexivity.
Qed.

End IngestorFacts.

(* ===================================================================== *)
(** * [DeleteChat] *)
(* ===================================================================== *)

Lemma filter_delete_rows {A : Type} (sel : A -> bool) (rows : list A) :
  filter sel (delete_rows sel rows) = [].
Proof.
  unfold delete_rows. induction rows as [|row rows IH]; [reflexivity|].
  cbn [filter]. destruct (sel row) eqn:E; cbn [negb filter]; [exact IH|].
  now rewrite E.
Qed.

(** Why the engine matters: on the engine behind the universal token,
    which this build does not open, a refused [DELETE] leaves the
    transaction going; its error is dropped, the second [DELETE] and the
    commit succeed, and [DeleteChat] reports success with the chat row
    gone and the message still there. *)
Lemma DeleteChat_partial_delete :
  ~ all_or_nothing native "alice@s.whatsapp.net" first_delete_fails.
Proof.
  unfold all_or_nothing. vm_compute. intros [Hmessages _]. discriminate.
Qed.


(* ===================================================================== *)
(** * Storage errors of the write paths *)
(* ===================================================================== *)

(** C7, at its failing inputs. [SaveDeviceRecord] reports success although
    the engine lost its [INSERT] and the device is not stored, and panics
    when the [UPDATE] is lost; [CreateMessage] reports success although
    its chat upsert failed and no chat row was written. The sibling upsert
    [StoreChat] returns the engine's error at the same moments. *)
Theorem write_paths_drop_storage_errors :
  (exists w',
     SaveDeviceRecord postgres 7 new_device insert_is_lost
     = (Returned None, w') /\
     devices (db w') = Some []) /\
  fst (SaveDeviceRecord postgres 7 new_device update_is_lost)
  = Panicked /\
  (exists w',
     ingest postgres 7 8 hello_from_bob update_is_lost
     = (Returned None, w') /\
     filter (chat_is "bob@s.whatsapp.net" "dev1") (rows_of (chats (db w'))) = [] /\
     filter (message_has_id "m2") (rows_of (messages (db w'))) <> []) /\
  fst (StoreChat postgres 7
         (Chat.mk "dev1" "bob@s.whatsapp.net" "Bob" 9 0 0 0) update_is_lost)
  = Returned (Some (ErrEngine "connection reset"),
              Chat.mk "dev1" "bob@s.whatsapp.net" "Bob" 9 0 0 7) /\
  fst (StoreChat postgres 7
         (Chat.mk "dev1" "bob@s.whatsapp.net" "Bob" 9 0 0 0) insert_is_lost)
  = Returned (Some (ErrEngine "connection reset"),
              Chat.mk "dev1" "bob@s.whatsapp.net" "Bob" 9 0 0 7).
Proof.
  split; [eexists; split; vm_compute; reflexivity|].
  split; [vm_compute; reflexivity|].
  split; [|split; vm_compute; reflexivity].
  eexists. split; [vm_compute; reflexivity|].
  split; [vm_compute; reflexivity|]. vm_compute. discriminate.
Qed.

(** Whatever the engine does, [SaveDeviceRecord] never returns an error. *)
Lemma SaveDeviceRecord_never_reports (r : SQLRepository) (now : Time)
  (record : DeviceRecord.t) (w : World) :
  fst (SaveDeviceRecord r now record w) = Returned None \/
  fst (SaveDeviceRecord r now record w) = Panicked.
Proof.
  unfold SaveDeviceRecord, bind.
  destruct (Exec_returns
              (UpdateDevice (DeviceRecord.DisplayName record)
                 (DeviceRecord.JID record) now (DeviceRecord.DeviceID record)) w)
    as (res & err & w1 & -> & _).
  destruct res as [aff|]; cbn [RowsAffected ret panic]; [|now right].
  destruct (aff =? 0); [|now left].
  match goal with
  | |- context [Exec ?s w1] =>
      destruct (Exec_returns s w1) as (res2 & err2 & w2 & -> & _)
  end.
  now left.
Qed.

(* ===================================================================== *)
(** * The filtered chat listing *)
(* ===================================================================== *)

(** C8, at its failing input. On Postgres, the only engine this build
    opens, the listing filtered by ["alice"] leaves out the chat named
    ["Alice"], whose name does contain the search string when case is
    disregarded; it finds that chat only under the spelling ["Alice"]. The
    same call on the engine behind the universal token finds it, and so
    does, on Postgres, the sibling [SearchMessages], which lowers both
    sides: asked for ["HI"] it returns the message ["Hi"]. *)
Theorem GetChats_is_case_sensitive_on_postgres :
  contains_fold "Alice" "alice" = true /\
  GetChats postgres (ChatFilter.mk "alice" "" 0) (calm one_chat_one_message)
  = (Returned ([], None), calm one_chat_one_message) /\
  fst (GetChats postgres (ChatFilter.mk "Alice" "" 0)
         (calm one_chat_one_message))
  = Returned (rows_of (chats one_chat_one_message), None) /\
  fst (GetChats native (ChatFilter.mk "alice" "" 0)
         (calm one_chat_one_message))
  = Returned (rows_of (chats one_chat_one_message), None) /\
  (forall unicode_lower : string -> string,
     fst (SearchMessages unicode_lower postgres "dev1" "alice@s.whatsapp.net"
            "HI" 0 (calm one_chat_one_message))
     = Returned (rows_of (messages one_chat_one_message), None)).
Proof. repeat split; intros; vm_compute; reflexivity. Qed.

(* ===================================================================== *)
(** * The properties at concrete inputs *)
(* ===================================================================== *)



Lemma StoreMessage_stamps_input_witness :
  StoreMessage postgres 7 control_message (calm empty_db)
  = (Returned (None, stamped 7 control_message), calm empty_db).
Proof.
  apply (proj1 (proj2 (StoreMessage_stamps_input postgres 7 control_message
                         (calm empty_db)))).
  split; reflexivity.
Defined.

Lemma fresh_database_version :
  0 <= current_version empty_db.
Proof. cbn. lia. Qed.

Lemma InitializeSchema_twice_witness :
  exists (w1 w2 : World),
    InitializeSchema postgres (calm empty_db) = (Returned None, w1) /\
    log w1 = [CreateSchemaInfo;
              CreateChats; DeleteSchemaVersion 1; InsertSchemaVersion 1;
              CreateMessages "BYTEA"; DeleteSchemaVersion 2;
              InsertSchemaVersion 2;
              CreateDevices; DeleteSchemaVersion 3; InsertSchemaVersion 3] /\
    current_version (db w1) = 3 /\
    InitializeSchema postgres w1 = (Returned None, w2) /\
    log w2 = (log w1 ++ [CreateSchemaInfo])%list /\
    filter is_migration (skipn (List.length (log w1)) (log w2)) = [] /\
    db w2 = db w1 /\
    current_version (db w2) = current_version (db w1).
Proof.
  exact (InitializeSchema_twice postgres (calm empty_db) eq_refl
           fresh_database_version).
Defined.

Lemma point_lookups_not_found_is_no_error_witness :
  exists w' : World,
    GetChat postgres 0 "nobody@s.whatsapp.net" (calm one_chat_one_message)
    = (Returned (None, None), w').
Proof.
  destruct (proj1 (point_lookups_not_found_is_no_error postgres
                     (calm one_chat_one_message) 0) "nobody@s.whatsapp.net")
    as (found & err & w' & Hcall & _ & Hnone & _).
  destruct (Hnone eq_refl eq_refl) as [-> ->].
  exists w'. exact Hcall.
Defined.



(* ===================================================================== *)
(** * Further properties: the placeholder adapter *)
(* ===================================================================== *)

Lemma p_loop_no_token (k : nat) :
  forall (query : string) (n : Z),
    count_q query = k -> count_q (p_loop query n) = O.
Proof.
  induction k as [|k IH]; intros query n Hk.
  - rewrite p_loop_noq; assumption.
  - rewrite p_loop_round, Contains_q_count, Hk. cbn [Nat.eqb negb].
    apply IH.
    pose proof (count_q_Replace1 query (Sprintf_dollar n) (count_q_Sprintf n)).
    lia.
Qed.

(** X1. Whatever the query and however many tokens it holds, the text [p]
    returns on Postgres holds no universal token any more; on the other
    dialect every token is still there. *)
Theorem p_leaves_no_token (r : SQLRepository) (query : string) :
  count_q (p r query) = if isPostgres r then O else count_q query.
Proof.
  unfold p. destruct (isPostgres r); cbn [negb]; [|reflexivity].
  now apply (p_loop_no_token (count_q query)).
Qed.

(** X2. Translating twice is translating once: [p] returns its own results
    unchanged, on either dialect. *)
Theorem p_idempotent (r : SQLRepository) (query : string) :
  p r (p r query) = p r query.
Proof.
  unfold p. destruct (isPostgres r); cbn [negb]; [|reflexivity].
  apply p_loop_noq. now apply (p_loop_no_token (count_q query)).
Qed.

(* ===================================================================== *)
(** * Further properties: the upserts under failures *)
(* ===================================================================== *)

(** X3. In every state and under every schedule of failures [StoreChat]
    returns (it never panics); when it returns nil the chat is in the
    table with the name, last-message time, expiration and update stamp of
    the call; when it returns an error the tables are exactly as before
    the call. *)
Theorem StoreChat_stores_or_leaves (r : SQLRepository) (now : Time)
  (chat : Chat.t) (w : World) :
  match StoreChat r now chat w with
  | (Returned (None, _), w') => chat_stored chat now (db w')
  | (Returned (Some _, _), w') => db w' = db w
  | (Panicked, _) => False
  end.
Proof.
  unfold StoreChat, bind, chat_stored.
  match goal with
  | |- context [Exec ?s w] =>
      destruct (Exec_cases s w) as (result & err & w1 & -> & Hcase)
  end.
  destruct Hcase as [(d & n & -> & -> & Hrun & Hdb)|(e & -> & -> & Hdb)];
    cbn [is_nil negb RowsAffected ret]; [|exact Hdb].
  cbn [run_stmt] in Hrun. unfold on_table in Hrun.
  destruct (chats (db w)) as [rows|] eqn:Hrows; [|discriminate].
  injection Hrun as Hd Hn.
  change (Chat.JID (Chat.set_UpdatedAt chat now)) with (Chat.JID chat) in *.
  change (Chat.DeviceID (Chat.set_UpdatedAt chat now))
    with (Chat.DeviceID chat) in *.
  change (Chat.Name (Chat.set_UpdatedAt chat now)) with (Chat.Name chat) in *.
  change (Chat.LastMessageTime (Chat.set_UpdatedAt chat now))
    with (Chat.LastMessageTime chat) in *.
  change (Chat.EphemeralExpiration (Chat.set_UpdatedAt chat now))
    with (Chat.EphemeralExpiration chat) in *.
  change (Chat.UpdatedAt (Chat.set_UpdatedAt chat now)) with now in *.
  set (sel := chat_is (Chat.JID chat) (Chat.DeviceID chat)) in *.
  destruct (n =? 0) eqn:E.
  - apply Z.eqb_eq in E. subst n. apply count_rows_zero in E.
    rewrite (update_rows_none sel _ rows E) in Hd.
    rewrite (set_chats_same _ _ Hrows) in Hd.
    match goal with
    | |- context [Exec ?s w1] =>
        destruct (Exec_cases s w1) as (result2 & err2 & w2 & -> & Hcase2)
    end.
    destruct Hcase2 as [(d2 & n2 & -> & -> & Hrun2 & Hdb2)|(e & -> & -> & Hdb2)];
      cbn [ret].
    + cbn [run_stmt] in Hrun2. unfold on_table in Hrun2.
      rewrite Hdb, <- Hd, Hrows in Hrun2. unfold insert_row in Hrun2.
      destruct (existsb _ rows); [discriminate|].
      injection Hrun2 as Hd2 _. rewrite Hdb2, <- Hd2.
      eexists. cbn [chats set_chats rows_of]. split.
      * apply in_or_app. right. left. reflexivity.
      * split; [apply chat_is_refl|]. repeat split.
    + rewrite Hdb2, Hdb, <- Hd. reflexivity.
  - apply Z.eqb_neq in E. subst n. cbn [ret].
    destruct (filter sel rows) as [|row0 others] eqn:F;
      [elim E; now apply count_rows_zero|].
    assert (Hin : In row0 (filter sel rows)) by (rewrite F; now left).
    rewrite Hdb, <- Hd. eexists. cbn [chats set_chats rows_of]. split.
    + eapply update_rows_In. exact Hin.
    + apply filter_In in Hin. destruct Hin as [_ Hsel].
      split; [exact Hsel|]. repeat split.
Qed.

(** X4. In every state and under every schedule of failures
    [StoreMessage] returns; when it returns nil, either the message was
    not displayable (no content, no media kind) and the state is untouched,
    or the message is in the table with the columns of the call; when it
    returns an error the tables are exactly as before the call. *)
Theorem StoreMessage_stores_or_leaves (r : SQLRepository) (now : Time)
  (message : Message.t) (w : World) :
  match StoreMessage r now message w with
  | (Returned (None, _), w') =>
      (Message.Content message = "" /\ Message.MediaType message = "" /\
       w' = w) \/
      ((Message.Content message <> "" \/ Message.MediaType message <> "") /\
       message_stored message now (db w'))
  | (Returned (Some _, _), w') => db w' = db w
  | (Panicked, _) => False
  end.
Proof.
  destruct (String.eqb_spec (Message.Content message) "") as [Hc|Hc];
    [destruct (String.eqb_spec (Message.MediaType message) "") as [Hm|Hm]|].
  - rewrite (StoreMessage_skips r now message w Hc Hm). left. auto.
  - destruct (StoreMessage_reports r now message w (or_intror Hm))
      as (err & w' & -> & Hnil & Herr).
    destruct err as [e|]; [now apply Herr|right; auto].
  - destruct (StoreMessage_reports r now message w (or_introl Hc))
      as (err & w' & -> & Hnil & Herr).
    destruct err as [e|]; [now apply Herr|right; auto].
Qed.

Section UpsertFrames.

Lemma filter_others_update_rows {A : Type} (sel : A -> bool) (upd : A -> A)
  (rows : list A) :
  (forall row, sel (upd row) = sel row) ->
  filter (fun row => negb (sel row)) (update_rows sel upd rows)
  = filter (fun row => negb (sel row)) rows.
Proof.
  intros Hkey. unfold update_rows.
  induction rows as [|row rows IH]; [reflexivity|].
  cbn [map filter]. destruct (sel row) eqn:E.
  - rewrite Hkey, E. cbn [negb]. exact IH.
  - rewrite E. cbn [negb]. now rewrite IH.
Qed.

(** What [StoreChat] does to the state, whatever is scheduled: nothing, or
    the update of the rows of the key, or the insertion of a new row when
    no row has the key. *)
Lemma StoreChat_effect (r : SQLRepository) (now : Time) (chat : Chat.t)
  (w : World) :
  let sel := chat_is (Chat.JID chat) (Chat.DeviceID chat) in
  let upd := set_chat_columns (Chat.Name chat) (Chat.LastMessageTime chat)
               (Chat.EphemeralExpiration chat) now in
  let new := Chat.mk (Chat.DeviceID chat) (Chat.JID chat) (Chat.Name chat)
               (Chat.LastMessageTime chat) (Chat.EphemeralExpiration chat)
               now now in
  exists (err : option error) (w' : World),
    StoreChat r now chat w = (Returned (err, Chat.set_UpdatedAt chat now), w') /\
    (db w' = db w \/
     exists rows,
       chats (db w) = Some rows /\ err = None /\
       ((filter sel rows <> [] /\
         db w' = set_chats (db w) (Some (update_rows sel upd rows))) \/
        (filter sel rows = [] /\
         db w' = set_chats (db w) (Some (rows ++ [new])%list)))).
Proof.
  intros sel upd new. unfold StoreChat, bind.
  match goal with
  | |- context [Exec ?s w] =>
      destruct (Exec_cases s w) as (result & err & w1 & -> & Hcase)
  end.
  destruct Hcase as [(d & n & -> & -> & Hrun & Hdb)|(e & -> & -> & Hdb)];
    cbn [is_nil negb RowsAffected ret];
    [|do 2 eexists; split; [reflexivity|now left]].
  cbn [run_stmt] in Hrun. unfold on_table in Hrun.
  destruct (chats (db w)) as [rows|] eqn:Hrows; [|discriminate].
  injection Hrun as Hd Hn.
  change (Chat.JID (Chat.set_UpdatedAt chat now)) with (Chat.JID chat) in *.
  change (Chat.DeviceID (Chat.set_UpdatedAt chat now))
    with (Chat.DeviceID chat) in *.
  change (Chat.Name (Chat.set_UpdatedAt chat now)) with (Chat.Name chat) in *.
  change (Chat.LastMessageTime (Chat.set_UpdatedAt chat now))
    with (Chat.LastMessageTime chat) in *.
  change (Chat.EphemeralExpiration (Chat.set_UpdatedAt chat now))
    with (Chat.EphemeralExpiration chat) in *.
  change (Chat.UpdatedAt (Chat.set_UpdatedAt chat now)) with now in *.
  fold sel upd in Hd, Hn. fold sel new.
  destruct (n =? 0) eqn:E.
  - apply Z.eqb_eq in E. subst n. apply count_rows_zero in E.
    rewrite (update_rows_none sel _ rows E) in Hd.
    rewrite (set_chats_same _ _ Hrows) in Hd.
    destruct (Exec_cases (InsertChat new) w1)
      as (result2 & err2 & w2 & -> & Hcase2).
    destruct Hcase2 as [(d2 & n2 & -> & -> & Hrun2 & Hdb2)|(e & -> & -> & Hdb2)];
      cbn [ret]; do 2 eexists; (split; [reflexivity|]).
    + cbn [run_stmt] in Hrun2. unfold on_table in Hrun2.
      rewrite Hdb, <- Hd, Hrows in Hrun2. unfold insert_row in Hrun2.
      destruct (existsb _ rows); [discriminate|].
      injection Hrun2 as Hd2 _. right. exists rows.
      split; [reflexivity|]. split; [reflexivity|]. right.
      split; [exact E|]. now rewrite Hdb2, <- Hd2.
    + left. now rewrite Hdb2, Hdb, <- Hd.
  - apply Z.eqb_neq in E. subst n. cbn [ret].
    do 2 eexists. split; [reflexivity|]. right. exists rows.
    split; [reflexivity|]. split; [reflexivity|]. left. split.
    + intros F. apply E. now apply count_rows_zero.
    + now rewrite Hdb, <- Hd.
Qed.

End UpsertFrames.

(** X5. Whatever happens, [StoreChat] touches no table but [chats], leaves
    every chat row of another key in place and as it was, and keeps the
    creation stamp of the rows it updates: a chat keeps the [created_at]
    of its first insertion. *)
Theorem StoreChat_frame (r : SQLRepository) (now : Time) (chat : Chat.t)
  (w : World) :
  let sel := chat_is (Chat.JID chat) (Chat.DeviceID chat) in
  exists (err : option error) (w' : World),
    StoreChat r now chat w = (Returned (err, Chat.set_UpdatedAt chat now), w') /\
    messages (db w') = messages (db w) /\
    devices (db w') = devices (db w) /\
    schema_info (db w') = schema_info (db w) /\
    filter (fun row => negb (sel row)) (rows_of (chats (db w')))
    = filter (fun row => negb (sel row)) (rows_of (chats (db w))) /\
    (filter sel (rows_of (chats (db w))) <> [] ->
     map Chat.CreatedAt (filter sel (rows_of (chats (db w'))))
     = map Chat.CreatedAt (filter sel (rows_of (chats (db w))))).
Proof.
  intros sel.
  destruct (StoreChat_effect r now chat w) as (err & w' & Hcall & Heff).
  exists err, w'. split; [exact Hcall|]. fold sel in Heff.
  destruct Heff as [->|(rows & Hrows & _ & [[Hsome ->]|[Hnone ->]])].
  - repeat split; reflexivity.
  - cbn [messages devices schema_info chats set_chats]. rewrite Hrows.
    cbn [rows_of]. repeat split.
    + apply filter_others_update_rows. intros row. reflexivity.
    + intros _. rewrite filter_update_rows by (intros row; reflexivity).
      rewrite map_map. reflexivity.
  - cbn [messages devices schema_info chats set_chats]. rewrite Hrows.
    cbn [rows_of]. repeat split.
    + rewrite filter_app. cbn [filter]. unfold sel at 2.
      rewrite chat_is_refl. cbn [negb]. apply app_nil_r.
    + intros Habs. now elim Habs.
Qed.

Section RoundTrips.


(** A point lookup on a working engine finds nothing where no row is
    selected. *)
Lemma lookup_none {A : Type} (table : DB -> option (list A))
  (sel : A -> bool) (lookup : M (option A * option error)) (w : World)
  (rows : list A) :
  lookup_contract table sel lookup w ->
  faults w = [] -> table (db w) = Some rows -> filter sel rows = [] ->
  exists w', lookup w = (Returned (None, None), w') /\ db w' = db w.
Proof.
  intros (found & err & w' & Hcall & Hdb & Hnone & _) Hcalm Htable Hsel.
  assert (Hok : query_failure table w = None)
    by (unfold query_failure; now rewrite Hcalm, Htable).
  destruct (Hnone Hok) as [-> ->]; [now rewrite Htable|].
  now exists w'.
Qed.


End RoundTrips.


Section MoreRoundTrips.


(** [ExecDeletion] when nothing is scheduled to fail. *)
Lemma ExecDeletion_calm (s : Deletion) (d : DB) (t : option TxState)
  (lg : list Stmt) :
  ExecDeletion s (mkWorld d t [] lg) =
  match run_deletion s d with
  | inl (d', n) => (Returned (Some n, None), mkWorld d' t [] lg)
  | inr diagnostic =>
      (Returned (None, Some (ErrEngine diagnostic)), mkWorld d t [] lg)
  end.
Proof.
  unfold ExecDeletion, bind, round_trip. cbn.
  destruct (run_deletion s d) as [[d' n]|diagnostic]; reflexivity.
Qed.




End MoreRoundTrips.





(** X10. Delete then look up a device: on a working engine with the
    [devices] table in place, [DeleteDeviceRecord] returns nil, removes
    the rows of the device and no other, and [GetDeviceRecord] then
    answers not found, [(nil, nil)]. *)
Theorem DeleteDeviceRecord_then_GetDeviceRecord (r : SQLRepository)
  (deviceID : string) (w : World) (rows : list DeviceRecord.t) (met : nat) :
  faults w = [] ->
  devices (db w) = Some rows ->
  exists (w1 w2 : World),
    DeleteDeviceRecord r deviceID w = (Returned None, w1) /\
    devices (db w1)
    = Some (filter (fun row => negb (device_is deviceID row)) rows) /\
    chats (db w1) = chats (db w) /\
    messages (db w1) = messages (db w) /\
    GetDeviceRecord r met deviceID w1 = (Returned (None, None), w2).
Proof.
  intros Hcalm Hrows.
  destruct w as [d t fs lg]. cbn in Hcalm, Hrows. subst fs.
  unfold DeleteDeviceRecord, bind. rewrite ExecDeletion_calm.
  cbn [run_deletion]. unfold delete_from_devices. rewrite Hrows.
  cbn [on_table ret].
  set (w1 := mkWorld _ t [] lg).
  destruct (lookup_none devices (device_is deviceID)
              (GetDeviceRecord r met deviceID) w1
              (delete_rows (device_is deviceID) rows))
    as (w2 & Hget & _); try reflexivity.
  { exact (lookup_shape devices (device_is deviceID) met DeviceRecord.zero
             w1). }
  { apply filter_delete_rows. }
  exists w1, w2. repeat split; assumption.
Qed.

(* ===================================================================== *)
(** * Further properties: the transactional deletes *)
(* ===================================================================== *)

(** X11. On a working engine with both tables in place, [DeleteChat]
    returns nil and removes exactly the chat rows and the messages with
    the given chat identifier, on every device: every other row stays, in
    its place, and [devices] and the schema version are untouched;
    [GetChat] for the identifier then answers not found. *)
Theorem DeleteChat_removes_exactly (r : SQLRepository) (jid : string)
  (w : World) (cs : list Chat.t) (ms : list Message.t) (met : nat) :
  faults w = [] ->
  chats (db w) = Some cs ->
  messages (db w) = Some ms ->
  exists (w1 w2 : World),
    DeleteChat r jid w = (Returned None, w1) /\
    chats (db w1) = Some (filter (fun row => negb (chat_has_jid jid row)) cs) /\
    messages (db w1)
    = Some (filter (fun row => negb (message_in_chat jid row)) ms) /\
    devices (db w1) = devices (db w) /\
    schema_info (db w1) = schema_info (db w) /\
    GetChat r met jid w1 = (Returned (None, None), w2).
Proof.
  intros Hcalm Hcs Hms.
  destruct w as [d t fs lg]. cbn in Hcalm, Hcs, Hms. subst fs.
  unfold DeleteChat, bind, Begin, TxExec, Commit, round_trip.
  cbn -[delete_rows filter count_rows]. rewrite Hms.
  cbn -[delete_rows filter count_rows]. rewrite Hcs.
  cbn -[delete_rows filter count_rows].
  match goal with
  | |- exists w1 w2, (_, ?w) = (_, w1) /\ _ => set (w1 := w)
  end.
  destruct (lookup_none chats (chat_has_jid jid) (GetChat r met jid) w1
              (delete_rows (chat_has_jid jid) cs))
    as (w2 & Hget & _); try reflexivity.
  { exact (lookup_shape chats (chat_has_jid jid) met Chat.zero w1). }
  { apply filter_delete_rows. }
  exists w1, w2. repeat split. exact Hget.
Qed.

(** X12. On a working engine with both tables in place,
    [DeleteChatByDevice] returns nil and removes exactly the chat row and
    the messages of the given chat on the given device: the rows of the
    same chat on other devices stay, and [GetChatByDevice] for the pair
    then answers not found. *)
Theorem DeleteChatByDevice_removes_exactly (r : SQLRepository)
  (deviceID jid : string) (w : World) (cs : list Chat.t)
  (ms : list Message.t) (met : nat) :
  faults w = [] ->
  chats (db w) = Some cs ->
  messages (db w) = Some ms ->
  exists (w1 w2 : World),
    DeleteChatByDevice r deviceID jid w = (Returned None, w1) /\
    chats (db w1)
    = Some (filter (fun row => negb (chat_is jid deviceID row)) cs) /\
    messages (db w1)
    = Some (filter (fun row => negb (message_in_chat_on jid deviceID row)) ms) /\
    (forall row, In row cs -> Chat.DeviceID row <> deviceID ->
                 In row (rows_of (chats (db w1)))) /\
    (forall row, In row ms -> Message.DeviceID row <> deviceID ->
                 In row (rows_of (messages (db w1)))) /\
    GetChatByDevice r met deviceID jid w1 = (Returned (None, None), w2).
Proof.
  intros Hcalm Hcs Hms.
  destruct w as [d t fs lg]. cbn in Hcalm, Hcs, Hms. subst fs.
  unfold DeleteChatByDevice, bind, Begin, TxExecDeletion, Commit, round_trip.
  cbn -[delete_rows filter count_rows run_deletion].
  cbn [run_deletion]. unfold delete_from_messages, delete_from_chats.
  rewrite Hms. cbn -[delete_rows filter count_rows]. rewrite Hcs.
  cbn -[delete_rows filter count_rows].
  match goal with
  | |- exists w1 w2, (_, ?w) = (_, w1) /\ _ => set (w1 := w)
  end.
  destruct (lookup_none chats (chat_is jid deviceID)
              (GetChatByDevice r met deviceID jid) w1
              (delete_rows (chat_is jid deviceID) cs))
    as (w2 & Hget & _); try reflexivity.
  { exact (lookup_shape chats (chat_is jid deviceID) met Chat.zero w1). }
  { apply filter_delete_rows. }
  exists w1, w2. split; [reflexivity|]. split; [reflexivity|].
  split; [reflexivity|]. split; [|split; [|exact Hget]].
  - intros row Hin Hdev. cbn [w1 db chats set_chats rows_of].
    apply filter_In. split; [exact Hin|].
    unfold chat_is. apply String.eqb_neq in Hdev. rewrite Hdev.
    now rewrite andb_false_r.
  - intros row Hin Hdev. cbn [w1 db messages set_messages set_chats rows_of].
    apply filter_In. split; [exact Hin|].
    unfold message_in_chat_on. apply String.eqb_neq in Hdev. rewrite Hdev.
    now rewrite andb_false_r.
Qed.

(** X13. When the transaction cannot be begun, [DeleteChat] and
    [DeleteChatByDevice], which drop the error of [Begin], panic on the
    nil transaction, while [DeleteDeviceData], which checks it, returns
    the engine's error; in all three cases the tables are untouched. *)
Theorem deletes_when_Begin_fails (r : SQLRepository) (deviceID jid : string)
  (w : World) (diagnostic : string) (rest : list (option string)) :
  faults w = Some diagnostic :: rest ->
  deviceID <> "" ->
  (exists w', DeleteChat r jid w = (Panicked, w') /\ db w' = db w) /\
  (exists w', DeleteChatByDevice r deviceID jid w = (Panicked, w') /\
              db w' = db w) /\
  (exists w', DeleteDeviceData r deviceID w
              = (Returned (Some (FromHandle (ErrEngine diagnostic))), w') /\
              db w' = db w).
Proof.
  intros Hfault Hid. destruct w as [d t fs lg]. cbn in Hfault. subst fs.
  apply String.eqb_neq in Hid.
  unfold DeleteChat, DeleteChatByDevice, DeleteDeviceData. rewrite Hid.
  unfold bind, Begin, round_trip. cbn.
  repeat split; eexists; split; reflexivity.
Qed.

(** X14. [DeleteDeviceData] never panics. With an empty device identifier
    it returns the validation error without a round trip: the state, the
    schedule of the engine included, is untouched. Whenever it returns an
    error the tables are as before the call; when it returns nil on
    Postgres, no message and no chat of the device is left. *)
Theorem DeleteDeviceData_outcomes (r : SQLRepository) (deviceID : string)
  (w : World) :
  DeleteDeviceData r "" w
  = (Returned (Some (Errorf "device_id is required")), w) /\
  match DeleteDeviceData r deviceID w with
  | (Returned None, w') =>
      deviceID <> "" /\
      (isPostgres r = true -> device_erased deviceID (db w'))
  | (Returned (Some _), w') => db w' = db w
  | (Panicked, _) => False
  end.
Proof.
  split; [reflexivity|].
  unfold DeleteDeviceData, device_erased.
  destruct (String.eqb_spec deviceID "") as [->|Hid]; [reflexivity|].
  destruct r as [pg]. destruct w as [d t fs lg]. cbn [isPostgres].
  unfold bind, Begin, TxExecDeletion, Commit, Rollback, round_trip, panic.
  destruct fs as [|[f1|] [|[f2|] [|[f3|] [|[f4|] rest]]]];
    destruct pg;
    cbn -[delete_rows filter count_rows run_deletion];
    try reflexivity;
    cbn [run_deletion]; unfold delete_from_messages, delete_from_chats;
    destruct (messages d) as [ms|] eqn:Hm;
    cbn -[delete_rows filter count_rows];
    try reflexivity;
    destruct (chats d) as [cs|] eqn:Hc;
    cbn -[delete_rows filter count_rows];
    try reflexivity;
    (split; [exact Hid|]); intros Hpg; try discriminate;
    try rewrite Hm; try rewrite Hc; cbn [rows_of];
    (split; [try reflexivity; apply filter_delete_rows
            |try reflexivity; apply filter_delete_rows]).
Qed.

(** X15. On a working engine with both tables in place,
    [DeleteDeviceData] returns nil and removes every message and every
    chat of the device and nothing else: rows of other devices stay, and
    so does the device's own record in [devices]. *)
Theorem DeleteDeviceData_removes_exactly (r : SQLRepository)
  (deviceID : string) (w : World) (cs : list Chat.t) (ms : list Message.t) :
  deviceID <> "" ->
  faults w = [] ->
  chats (db w) = Some cs ->
  messages (db w) = Some ms ->
  exists (w1 : World),
    DeleteDeviceData r deviceID w = (Returned None, w1) /\
    chats (db w1)
    = Some (filter (fun row => negb (chat_on_device deviceID row)) cs) /\
    messages (db w1)
    = Some (filter (fun row => negb (message_on_device deviceID row)) ms) /\
    devices (db w1) = devices (db w) /\
    tx w1 = None.
Proof.
  intros Hid Hcalm Hcs Hms. apply String.eqb_neq in Hid.
  destruct w as [d t fs lg]. cbn in Hcalm, Hcs, Hms. subst fs.
  unfold DeleteDeviceData. rewrite Hid.
  unfold bind, Begin, TxExecDeletion, Commit, Rollback, round_trip.
  cbn -[delete_rows filter count_rows run_deletion].
  cbn [run_deletion]. unfold delete_from_messages, delete_from_chats.
  rewrite Hms. cbn -[delete_rows filter count_rows]. rewrite Hcs.
  cbn -[delete_rows filter count_rows].
  eexists. repeat split.
Qed.

(* ===================================================================== *)
(** * Further properties: the listings *)
(* ===================================================================== *)

Section Ordering.

Context {A : Type} (column : A -> Z).


Lemma insert_desc_perm (row : A) (l : list A) :
  Permutation (row :: l) (insert_desc column row l).
Proof.
  induction l as [|x l IH]; cbn [insert_desc]; [reflexivity|].
  destruct (column x <=? column row); [reflexivity|].
  rewrite perm_swap. now apply perm_skip.
Qed.

Lemma order_desc_perm (l : list A) : Permutation l (order_desc column l).
Proof.
  unfold order_desc. induction l as [|x l IH]; cbn [fold_right]; [reflexivity|].
  rewrite <- insert_desc_perm. now apply perm_skip.
Qed.

Lemma insert_desc_sorted (row : A) (l : list A) :
  StronglySorted (desc column) l -> StronglySorted (desc column) (insert_desc column row l).
Proof.
  induction l as [|x l IH]; intros Hs; cbn [insert_desc].
  - repeat constructor.
  - inversion Hs as [|? ? Hl Hx]; subst.
    destruct (Z.leb_spec (column x) (column row)) as [Hle|Hgt].
    + constructor; [exact Hs|]. constructor; [exact Hle|].
      eapply Forall_impl; [|exact Hx]. unfold desc. intros; lia.
    + constructor; [now apply IH|].
      eapply Permutation_Forall; [apply insert_desc_perm|].
      constructor; [unfold desc; lia|exact Hx].
Qed.

Lemma order_desc_sorted (l : list A) : StronglySorted (desc column) (order_desc column l).
Proof.
  unfold order_desc. induction l as [|x l IH]; cbn [fold_right].
  - constructor.
  - now apply insert_desc_sorted.
Qed.

Lemma insert_asc_perm (row : A) (l : list A) :
  Permutation (row :: l) (insert_asc column row l).
Proof.
  induction l as [|x l IH]; cbn [insert_asc]; [reflexivity|].
  destruct (column row <=? column x); [reflexivity|].
  rewrite perm_swap. now apply perm_skip.
Qed.

Lemma order_asc_perm (l : list A) : Permutation l (order_asc column l).
Proof.
  unfold order_asc. induction l as [|x l IH]; cbn [fold_right]; [reflexivity|].
  rewrite <- insert_asc_perm. now apply perm_skip.
Qed.

Lemma insert_asc_sorted (row : A) (l : list A) :
  StronglySorted (asc column) l -> StronglySorted (asc column) (insert_asc column row l).
Proof.
  induction l as [|x l IH]; intros Hs; cbn [insert_asc].
  - repeat constructor.
  - inversion Hs as [|? ? Hl Hx]; subst.
    destruct (Z.leb_spec (column row) (column x)) as [Hle|Hgt].
    + constructor; [exact Hs|]. constructor; [exact Hle|].
      eapply Forall_impl; [|exact Hx]. unfold asc. intros; lia.
    + constructor; [now apply IH|].
      eapply Permutation_Forall; [apply insert_asc_perm|].
      constructor; [unfold asc; lia|exact Hx].
Qed.

Lemma order_asc_sorted (l : list A) : StronglySorted (asc column) (order_asc column l).
Proof.
  unfold order_asc. induction l as [|x l IH]; cbn [fold_right].
  - constructor.
  - now apply insert_asc_sorted.
Qed.

Lemma sorted_firstn (R : A -> A -> Prop) (n : nat) (l : list A) :
  StronglySorted R l -> StronglySorted R (firstn n l).
Proof.
  revert l. induction n as [|n IH]; intros [|x l] Hs; cbn [firstn];
    try constructor.
  - inversion Hs; subst. now apply IH.
  - inversion Hs as [|? ? _ Hx]; subst.
    rewrite Forall_forall in *. intros y Hy. apply Hx.
    rewrite <- (firstn_skipn n l). apply in_or_app. now left.
Qed.

Lemma sorted_split (R : A -> A -> Prop) (l1 l2 : list A) :
  StronglySorted R (l1 ++ l2) ->
  forall a b, In a l1 -> In b l2 -> R a b.
Proof.
  induction l1 as [|x l1 IH]; intros Hs a b Ha Hb; [contradiction|].
  cbn [app] in Hs. inversion Hs as [|? ? Hrest Hx]; subst.
  destruct Ha as [<-|Ha].
  - rewrite Forall_forall in Hx. apply Hx. apply in_or_app. now right.
  - now apply (IH Hrest).
Qed.

(** What a listing [... WHERE sel ORDER BY column DESC [LIMIT n]] holds:
    selected rows only, most recent first; all of them without a cap, and
    with a cap the first [n], none of which is older than a selected row
    left out. *)
Lemma listing_facts (sel : A -> bool) (rows : list A) (limit : option Z) :
  let all := order_desc column (filter sel rows) in
  let result := match limit with
                | Some n => firstn (Z.to_nat n) all
                | None => all
                end in
  StronglySorted (desc column) result /\
  (forall x, In x result -> In x rows /\ sel x = true) /\
  (limit = None -> Permutation result (filter sel rows)) /\
  (forall n, limit = Some n ->
             List.length result
             = Nat.min (Z.to_nat n) (List.length (filter sel rows))) /\
  (forall a b, In a result -> In b rows -> sel b = true -> ~ In b result ->
               column b <= column a).
Proof.
  intros all result.
  assert (Hperm : Permutation (filter sel rows) all) by apply order_desc_perm.
  assert (Hsorted : StronglySorted (desc column) all) by apply order_desc_sorted.
  assert (Hin : forall x, In x all -> In x rows /\ sel x = true).
  { intros x Hx. apply filter_In.
    eapply Permutation_in; [symmetry; exact Hperm|exact Hx]. }
  destruct limit as [n|]; subst result.
  - split; [now apply sorted_firstn|]. split; [|split; [discriminate|split]].
    + intros x Hx. apply Hin. rewrite <- (firstn_skipn (Z.to_nat n) all).
      apply in_or_app. now left.
    + intros n' [= <-]. rewrite length_firstn.
      now rewrite (Permutation_length Hperm).
    + intros a b Ha Hb Hsel Hout.
      assert (Hball : In b all).
      { eapply Permutation_in; [exact Hperm|]. apply filter_In. now split. }
      rewrite <- (firstn_skipn (Z.to_nat n) all) in Hball, Hsorted.
      apply in_app_or in Hball. destruct Hball as [Hb1|Hb2]; [contradiction|].
      exact (sorted_split (desc column) _ _ Hsorted a b Ha Hb2).
  - split; [exact Hsorted|]. split; [exact Hin|].
    split; [intros _; now symmetry|]. split; [discriminate|].
    intros a b _ Hb Hsel Hout. elim Hout.
    eapply Permutation_in; [exact Hperm|]. apply filter_In. now split.
Qed.

End Ordering.

Lemma scan_all (rows : list Message.t) :
  map (fun row => fst (scanMessage (RowOf row))) rows = rows.
Proof.
  induction rows as [|row rows IH]; [reflexivity|].
  cbn [map]. rewrite IH. reflexivity.
Qed.

(** X16. On a working engine [GetMessages] returns, without error and
    without touching the tables, messages of the requested chat and device
    only, ordered by send time, most recent first; all of them when the
    limit is not positive, and with a positive limit that many (or all, if
    fewer), none of them older than a message of the chat left out. *)
Theorem GetMessages_lists_chat (r : SQLRepository) (filter : MessageFilter.t)
  (w : World) (rows : list Message.t) :
  faults w = [] ->
  messages (db w) = Some rows ->
  let sel := message_in_chat_on (MessageFilter.ChatJID filter)
                                (MessageFilter.DeviceID filter) in
  exists (result : list Message.t),
    GetMessages r filter w = (Returned (result, None), w) /\
    StronglySorted (desc Message.Timestamp) result /\
    (forall m, In m result ->
               In m rows /\
               Message.ChatJID m = MessageFilter.ChatJID filter /\
               Message.DeviceID m = MessageFilter.DeviceID filter) /\
    (MessageFilter.Limit filter <= 0 ->
     Permutation result (List.filter sel rows)) /\
    (0 < MessageFilter.Limit filter ->
     List.length result
     = Nat.min (Z.to_nat (MessageFilter.Limit filter))
               (List.length (List.filter sel rows))) /\
    (forall a b, In a result -> In b rows -> sel b = true -> ~ In b result ->
                 Message.Timestamp b <= Message.Timestamp a).
Proof.
  intros Hcalm Hrows sel.
  destruct w as [d t fs lg]. cbn in Hcalm, Hrows. subst fs.
  unfold GetMessages, bind, QueryMessages, round_trip.
  cbn -[order_desc List.filter firstn Z.gtb scanMessage map].
  rewrite Hrows. cbn -[order_desc List.filter firstn Z.gtb scanMessage map].
  rewrite scan_all. fold sel.
  set (limit := if MessageFilter.Limit filter >? 0
                then Some (MessageFilter.Limit filter) else None).
  destruct (listing_facts Message.Timestamp sel rows limit)
    as (Hsorted & Hin & Hall & Hcap & Htop).
  eexists. split; [reflexivity|]. split; [exact Hsorted|].
  split; [|split; [|split; [|exact Htop]]].
  - intros m Hm. destruct (Hin m Hm) as [Hrow Hsel]. split; [exact Hrow|].
    unfold sel, message_in_chat_on in Hsel. apply andb_true_iff in Hsel.
    destruct Hsel as [Hj Hd]. now apply String.eqb_eq in Hj, Hd.
  - intros Hle. apply Hall. unfold limit.
    destruct (Z.gtb_spec (MessageFilter.Limit filter) 0); [lia|reflexivity].
  - intros Hpos. apply Hcap. unfold limit.
    destruct (Z.gtb_spec (MessageFilter.Limit filter) 0); [reflexivity|lia].
Qed.

Section ChatListing.

(** [GetChats] on a working engine is the listing of its [WHERE] clause. *)
Lemma GetChats_calm (r : SQLRepository) (filter : ChatFilter.t) (w : World)
  (rows : list Chat.t) :
  faults w = [] ->
  chats (db w) = Some rows ->
  GetChats r filter w
  = (Returned
       (match (if ChatFilter.Limit filter >? 0
               then Some (ChatFilter.Limit filter) else None) with
        | Some n =>
            firstn (Z.to_nat n)
              (order_desc Chat.LastMessageTime
                 (List.filter (chats_where (isPostgres r) filter) rows))
        | None =>
            order_desc Chat.LastMessageTime
              (List.filter (chats_where (isPostgres r) filter) rows)
        end, None), w).
Proof.
  intros Hcalm Hrows.
  destruct w as [d t fs lg]. cbn in Hcalm, Hrows. subst fs.
  unfold GetChats, bind, QueryChats, round_trip.
  cbn -[order_desc List.filter firstn Z.gtb like String.eqb].
  rewrite Hrows. cbn -[order_desc List.filter firstn Z.gtb like String.eqb].
  destruct (ChatFilter.Limit filter >? 0); reflexivity.
Qed.

End ChatListing.

(** X17. On a working engine [GetChats] returns, without error and
    without touching the tables, rows of [chats] ordered by last-message
    time, most recent first, of the requested device only when the filter
    names one; with a positive limit it returns that many (or all that
    match, if fewer), none of them older than a matching chat left out. *)
Theorem GetChats_recent_first (r : SQLRepository) (filter : ChatFilter.t)
  (w : World) (rows : list Chat.t) :
  faults w = [] ->
  chats (db w) = Some rows ->
  let sel := chats_where (isPostgres r) filter in
  exists (result : list Chat.t),
    GetChats r filter w = (Returned (result, None), w) /\
    StronglySorted (desc Chat.LastMessageTime) result /\
    (forall c, In c result ->
               In c rows /\
               (ChatFilter.DeviceID filter <> "" ->
                Chat.DeviceID c = ChatFilter.DeviceID filter)) /\
    (ChatFilter.Limit filter <= 0 -> Permutation result (List.filter sel rows)) /\
    (0 < ChatFilter.Limit filter ->
     List.length result
     = Nat.min (Z.to_nat (ChatFilter.Limit filter))
               (List.length (List.filter sel rows))) /\
    (forall a b, In a result -> In b rows -> sel b = true -> ~ In b result ->
                 Chat.LastMessageTime b <= Chat.LastMessageTime a).
Proof.
  intros Hcalm Hrows sel.
  rewrite (GetChats_calm r filter w rows Hcalm Hrows). fold sel.
  set (limit := if ChatFilter.Limit filter >? 0
                then Some (ChatFilter.Limit filter) else None).
  destruct (listing_facts Chat.LastMessageTime sel rows limit)
    as (Hsorted & Hin & Hall & Hcap & Htop).
  eexists. split; [reflexivity|]. split; [exact Hsorted|].
  split; [|split; [|split; [|exact Htop]]].
  - intros c Hc. destruct (Hin c Hc) as [Hrow Hsel]. split; [exact Hrow|].
    intros Hdev. unfold sel, chats_where in Hsel.
    apply andb_true_iff in Hsel. destruct Hsel as [_ Hd].
    apply String.eqb_neq in Hdev. rewrite Hdev in Hd. cbn in Hd.
    now apply String.eqb_eq in Hd.
  - intros Hle. apply Hall. unfold limit.
    destruct (Z.gtb_spec (ChatFilter.Limit filter) 0); [lia|reflexivity].
  - intros Hpos. apply Hcap. unfold limit.
    destruct (Z.gtb_spec (ChatFilter.Limit filter) 0); [reflexivity|lia].
Qed.

(** X18. [ListDeviceRecords] never returns an error and never panics:
    when its query fails (lost in transit, or no [devices] table) it
    returns an empty list and nil, as it does for an empty table;
    otherwise it returns every device record, ordered by creation time,
    oldest first. The tables are untouched in every case. *)
Theorem ListDeviceRecords_never_fails (r : SQLRepository) (w : World) :
  exists (records : list DeviceRecord.t) (w' : World),
    ListDeviceRecords r w = (Returned (records, None), w') /\
    db w' = db w /\
    (query_failure devices w <> None -> records = []) /\
    (query_failure devices w = None ->
     Permutation records (rows_of (devices (db w))) /\
     StronglySorted (asc DeviceRecord.CreatedAt) records).
Proof.
  unfold ListDeviceRecords, bind, QueryDevices, round_trip, query_failure.
  destruct w as [d t fs lg]. cbn [faults db].
  destruct fs as [|[diagnostic|] rest]; cbn -[order_asc];
    try (destruct (devices d) as [rows|] eqn:Hrows; cbn -[order_asc]);
    do 2 eexists; (split; [reflexivity|]);
    (split; [reflexivity|]); split; intros H;
    try reflexivity; try discriminate; try (now elim H).
  all: split; [symmetry; apply order_asc_perm|apply order_asc_sorted].
Qed.

(* ===================================================================== *)
(** * Further properties: what [LIKE] matches *)
(* ===================================================================== *)

Section Like.

Lemma like_percent (pg : bool) (pattern s : string) :
  like pg (String "%" pattern) s
  = like pg pattern s
    || match s with
       | EmptyString => false
       | String _ s' => like pg (String "%" pattern) s'
       end.
Proof. destruct s; reflexivity. Qed.

Lemma like_percent_only (pg : bool) (s : string) : like pg "%" s = true.
Proof.
  induction s as [|c s IH]; [reflexivity|].
  rewrite like_percent, IH. apply orb_true_r.
Qed.

Lemma like_plain_byte (pg : bool) (c : ascii) (pattern s : string) :
  negb (Ascii.eqb c "%" || Ascii.eqb c "_" || Ascii.eqb c "\") = true ->
  like pg (String c pattern) s
  = match s with
    | EmptyString => false
    | String d s' => like_byte pg c d && like pg pattern s'
    end.
Proof.
  intros H. apply negb_true_iff in H.
  apply orb_false_iff in H. destruct H as [H Hesc].
  apply orb_false_iff in H. destruct H as [Hpct Hund].
  cbn [like]. rewrite Hpct, Hund, Hesc, andb_false_r. reflexivity.
Qed.

Lemma lower_byte_idem (c : ascii) :
  strings.lower_byte (strings.lower_byte c) = strings.lower_byte c.
Proof. destruct c as [[] [] [] [] [] [] [] []]; reflexivity. Qed.

Lemma lower_byte_plain (c : ascii) :
  Ascii.eqb (strings.lower_byte c) "%" || Ascii.eqb (strings.lower_byte c) "_"
  || Ascii.eqb (strings.lower_byte c) "\"
  = Ascii.eqb c "%" || Ascii.eqb c "_" || Ascii.eqb c "\".
Proof. destruct c as [[] [] [] [] [] [] [] []]; reflexivity. Qed.

Lemma lower_ascii_idem (s : string) :
  strings.lower_ascii (strings.lower_ascii s) = strings.lower_ascii s.
Proof.
  induction s as [|c s IH]; [reflexivity|].
  cbn [strings.lower_ascii]. now rewrite lower_byte_idem, IH.
Qed.

Lemma plain_lower_ascii (t : string) : plain (strings.lower_ascii t) = plain t.
Proof.
  induction t as [|c t IH]; [reflexivity|].
  cbn [strings.lower_ascii plain]. now rewrite lower_byte_plain, IH.
Qed.

(** [strings.ToLower] of a text of ASCII bytes does not consult the tables
    of package [unicode]. *)
Lemma ToLower_ascii (unicode_lower : string -> string) (s : string) :
  strings.isASCII s = true ->
  strings.ToLower unicode_lower s = strings.lower_ascii s.
Proof. intros H. unfold strings.ToLower. now rewrite H. Qed.

(** A plain text followed by [%] matches the strings it is a prefix of:
    byte for byte on Postgres, letters without regard to case on the other
    engine. *)
Lemma like_prefix (pg : bool) (t : string) :
  plain t = true ->
  forall s : string,
    like pg (t ++ "%") s
    = if pg then strings.HasPrefix s t
      else strings.HasPrefix (strings.lower_ascii s) (strings.lower_ascii t).
Proof.
  induction t as [|c t IH]; intros Hplain s.
  - cbn [append]. rewrite like_percent_only.
    destruct pg; destruct s; reflexivity.
  - cbn [plain] in Hplain. apply andb_true_iff in Hplain.
    destruct Hplain as [Hc Ht]. cbn [append].
    rewrite (like_plain_byte pg c _ s Hc).
    destruct s as [|d s]; [now destruct pg|].
    rewrite (IH Ht s). destruct pg; reflexivity.
Qed.

(** A plain text between two [%] matches the strings it occurs in. *)
Lemma like_substring (pg : bool) (t : string) :
  plain t = true ->
  forall s : string,
    like pg ("%" ++ t ++ "%") s
    = if pg then strings.Contains s t else contains_fold s t.
Proof.
  intros Hplain s. change ("%" ++ t ++ "%") with (String "%" (t ++ "%")).
  unfold contains_fold.
  induction s as [|d s IH]; rewrite like_percent, (like_prefix pg t Hplain).
  - destruct pg; reflexivity.
  - rewrite IH. destruct pg; reflexivity.
Qed.

(** [SearchMessages] for a text of ASCII bytes on a working engine is the
    listing of its [WHERE] clause. *)
Lemma SearchMessages_calm (unicode_lower : string -> string)
  (r : SQLRepository) (deviceID chatJID searchText : string) (limit : Z)
  (w : World) (rows : list Message.t) :
  strings.isASCII searchText = true ->
  faults w = [] ->
  messages (db w) = Some rows ->
  SearchMessages unicode_lower r deviceID chatJID searchText limit w
  = (Returned
       (match (if limit >? 0 then Some limit else None) with
        | Some n =>
            firstn (Z.to_nat n)
              (order_desc Message.Timestamp
                 (List.filter
                    (search_where (isPostgres r) chatJID deviceID searchText)
                    rows))
        | None =>
            order_desc Message.Timestamp
              (List.filter
                 (search_where (isPostgres r) chatJID deviceID searchText)
                 rows)
        end, None), w).
Proof.
  intros Hascii Hcalm Hrows.
  destruct w as [d t fs lg]. cbn in Hcalm, Hrows. subst fs.
  unfold SearchMessages. rewrite (ToLower_ascii _ _ Hascii).
  unfold bind, QueryMessagesLike, round_trip.
  cbn -[order_desc List.filter firstn Z.gtb like String.eqb
        strings.lower_ascii LOWER].
  rewrite Hrows.
  cbn -[order_desc List.filter firstn Z.gtb like String.eqb
        strings.lower_ascii LOWER].
  destruct (limit >? 0); reflexivity.
Qed.

(** The search clause for a plain text, on either dialect. *)
Lemma search_where_plain (pg : bool) (chatJID deviceID searchText : string)
  (row : Message.t) :
  plain searchText = true ->
  search_where pg chatJID deviceID searchText row
  = message_in_chat_on chatJID deviceID row
    && contains_fold (Message.Content row) searchText.
Proof.
  intros Hplain. unfold search_where, message_in_chat_on. f_equal.
  rewrite like_substring by (now rewrite plain_lower_ascii).
  unfold contains_fold, LOWER. destruct pg; [reflexivity|].
  now rewrite !lower_ascii_idem.
Qed.

End Like.

(** X19. For a search text of ASCII bytes without the bytes [%], [_] and
    backslash, on a working engine and on either dialect,
    [SearchMessages] returns, without error, messages of the given chat
    and device whose content contains the text, the letters [A] to [Z]
    compared without regard to case, ordered by send time, most recent
    first; when the limit is not positive it returns every such message.
    (A text with a byte outside ASCII goes through the tables of package
    [unicode] before it is sent, and is not covered.) *)
Theorem SearchMessages_ignores_case (unicode_lower : string -> string)
  (r : SQLRepository) (deviceID chatJID searchText : string) (limit : Z)
  (w : World) (rows : list Message.t) :
  plain searchText = true ->
  strings.isASCII searchText = true ->
  faults w = [] ->
  messages (db w) = Some rows ->
  exists (result : list Message.t),
    SearchMessages unicode_lower r deviceID chatJID searchText limit w
    = (Returned (result, None), w) /\
    StronglySorted (desc Message.Timestamp) result /\
    (forall m, In m result ->
               In m rows /\
               Message.ChatJID m = chatJID /\
               Message.DeviceID m = deviceID /\
               contains_fold (Message.Content m) searchText = true) /\
    (limit <= 0 ->
     forall m, In m rows ->
               Message.ChatJID m = chatJID ->
               Message.DeviceID m = deviceID ->
               contains_fold (Message.Content m) searchText = true ->
               In m result).
Proof.
  intros Hplain Hascii Hcalm Hrows.
  rewrite (SearchMessages_calm unicode_lower r deviceID chatJID searchText
             limit w rows Hascii Hcalm Hrows).
  set (sel := search_where (isPostgres r) chatJID deviceID searchText).
  set (lim := if limit >? 0 then Some limit else None).
  destruct (listing_facts Message.Timestamp sel rows lim)
    as (Hsorted & Hin & Hall & _ & _).
  eexists. split; [reflexivity|]. split; [exact Hsorted|]. split.
  - intros m Hm. destruct (Hin m Hm) as [Hrow Hsel]. split; [exact Hrow|].
    unfold sel in Hsel. rewrite search_where_plain in Hsel by exact Hplain.
    apply andb_true_iff in Hsel. destruct Hsel as [Hkey Hfold].
    unfold message_in_chat_on in Hkey. apply andb_true_iff in Hkey.
    destruct Hkey as [Hj Hd]. apply String.eqb_eq in Hj, Hd. auto.
  - intros Hle m Hm Hj Hd Hfold.
    assert (Hnone : lim = None)
      by (unfold lim; destruct (Z.gtb_spec limit 0); [lia|reflexivity]).
    eapply Permutation_in; [symmetry; exact (Hall Hnone)|].
    apply filter_In. split; [exact Hm|].
    unfold sel. rewrite search_where_plain by exact Hplain.
    unfold message_in_chat_on. rewrite Hj, Hd, !String.eqb_refl. exact Hfold.
Qed.

(** X20. For a non-empty search name without the bytes [%], [_] and
    backslash and a limit that is not positive, on a working engine,
    [GetChats] returns exactly the chats (of the device, when the filter
    names one) whose name contains the search name: byte for byte on
    Postgres, letters without regard to case on the other engine. *)
Theorem GetChats_name_filter (r : SQLRepository) (filter : ChatFilter.t)
  (w : World) (rows : list Chat.t) :
  plain (ChatFilter.SearchName filter) = true ->
  ChatFilter.SearchName filter <> "" ->
  ChatFilter.Limit filter <= 0 ->
  faults w = [] ->
  chats (db w) = Some rows ->
  exists (result : list Chat.t),
    GetChats r filter w = (Returned (result, None), w) /\
    forall c,
      In c result <->
      In c rows /\
      (if isPostgres r
       then strings.Contains (Chat.Name c) (ChatFilter.SearchName filter)
       else contains_fold (Chat.Name c) (ChatFilter.SearchName filter)) = true /\
      (ChatFilter.DeviceID filter = "" \/
       Chat.DeviceID c = ChatFilter.DeviceID filter).
Proof.
  intros Hplain Hname Hlimit Hcalm Hrows.
  rewrite (GetChats_calm r filter w rows Hcalm Hrows).
  destruct (Z.gtb_spec (ChatFilter.Limit filter) 0) as [Hpos|_]; [lia|].
  eexists. split; [reflexivity|]. intros c.
  assert (Hwhere :
    chats_where (isPostgres r) filter c = true <->
    (if isPostgres r
     then strings.Contains (Chat.Name c) (ChatFilter.SearchName filter)
     else contains_fold (Chat.Name c) (ChatFilter.SearchName filter)) = true /\
    (ChatFilter.DeviceID filter = "" \/
     Chat.DeviceID c = ChatFilter.DeviceID filter)).
  { unfold chats_where. apply String.eqb_neq in Hname. rewrite Hname.
    cbn [negb opt_holds]. rewrite (like_substring _ _ Hplain).
    rewrite andb_true_iff.
    destruct (String.eqb_spec (ChatFilter.DeviceID filter) "") as [Hd|Hd];
      cbn [negb opt_holds].
    - split; [intros [H _]; auto|intros [H _]; auto].
    - rewrite String.eqb_eq. split; [intros [H1 H2]; auto|].
      intros [H1 [H2|H2]]; [contradiction|auto]. }
  split.
  - intros Hc.
    assert (Hf : In c (List.filter (chats_where (isPostgres r) filter) rows))
      by (eapply Permutation_in;
          [symmetry; apply order_desc_perm|exact Hc]).
    apply filter_In in Hf. destruct Hf as [Hrow Hsel].
    split; [exact Hrow|]. now apply Hwhere.
  - intros [Hrow Hcond].
    eapply Permutation_in; [apply order_desc_perm|].
    apply filter_In. split; [exact Hrow|]. now apply Hwhere.
Qed.

(** X21. With an empty search text [SearchMessages] is [GetMessages]: in
    every state, on either dialect and whatever fails, it returns what
    [GetMessages] returns for the same chat, device and limit. *)
Theorem SearchMessages_empty_text (unicode_lower : string -> string)
  (r : SQLRepository) (deviceID chatJID : string) (limit : Z) (w : World) :
  SearchMessages unicode_lower r deviceID chatJID "" limit w
  = GetMessages r (MessageFilter.mk chatJID deviceID limit) w.
Proof.
  unfold SearchMessages, GetMessages, bind, QueryMessagesLike, QueryMessages,
    round_trip.
  destruct w as [d t fs lg]. cbn [faults db MessageFilter.ChatJID
    MessageFilter.DeviceID MessageFilter.Limit].
  assert (Hsame : forall rows,
    List.filter
      (fun row => String.eqb (Message.ChatJID row) chatJID
                  && String.eqb (Message.DeviceID row) deviceID
                  && like (isPostgres r)
                       ("%" ++ strings.ToLower unicode_lower "" ++ "%")
                       (LOWER (Message.Content row))) rows
    = List.filter (message_in_chat_on chatJID deviceID) rows).
  { intros rows. apply filter_ext. intros row. unfold message_in_chat_on.
    change ("%" ++ strings.ToLower unicode_lower "" ++ "%")
      with (String "%" "%").
    rewrite like_percent, like_percent_only. cbn [orb]. apply andb_true_r. }
  destruct fs as [|[diagnostic|] rest];
    cbn -[order_desc List.filter firstn Z.gtb like String.eqb strings.ToLower
          LOWER scanMessage map];
    try reflexivity;
    destruct (messages d) as [rows|];
    cbn -[order_desc List.filter firstn Z.gtb like String.eqb strings.ToLower
          LOWER scanMessage map];
    try reflexivity;
    rewrite scan_all, Hsame; destruct (limit >? 0); reflexivity.
Qed.

(** X22. The search text is put into the pattern as it is: for the text
    [_], on a working engine and with a limit that is not positive,
    [SearchMessages] returns every message of the chat and device that has
    any content at all, not those that contain an underscore. *)
Theorem SearchMessages_underscore (unicode_lower : string -> string)
  (r : SQLRepository) (deviceID chatJID : string) (limit : Z) (w : World)
  (rows : list Message.t) :
  limit <= 0 ->
  faults w = [] ->
  messages (db w) = Some rows ->
  exists (result : list Message.t),
    SearchMessages unicode_lower r deviceID chatJID "_" limit w
    = (Returned (result, None), w) /\
    forall m,
      In m result <->
      In m rows /\ Message.ChatJID m = chatJID /\
      Message.DeviceID m = deviceID /\ Message.Content m <> "".
Proof.
  intros Hlimit Hcalm Hrows.
  rewrite (SearchMessages_calm unicode_lower r deviceID chatJID "_" limit w
             rows eq_refl Hcalm Hrows).
  destruct (Z.gtb_spec limit 0) as [Hpos|_]; [lia|].
  eexists. split; [reflexivity|]. intros m.
  assert (Hwhere :
    search_where (isPostgres r) chatJID deviceID "_" m = true <->
    Message.ChatJID m = chatJID /\ Message.DeviceID m = deviceID /\
    Message.Content m <> "").
  { unfold search_where.
    change ("%" ++ strings.lower_ascii "_" ++ "%")
      with (String "%" (String "_" "%")).
    unfold LOWER.
    rewrite !andb_true_iff, !String.eqb_eq.
    destruct (Message.Content m) as [|c content].
    - cbn. split; [intros [_ H]; discriminate|intros (_ & _ & H); now elim H].
    - cbn [strings.lower_ascii]. rewrite like_percent.
      replace (like (isPostgres r) (String "_" "%")
                 (String (strings.lower_byte c) (strings.lower_ascii content)))
        with (like (isPostgres r) "%" (strings.lower_ascii content))
        by reflexivity.
      rewrite like_percent_only. cbn [orb].
      split; [intros [[H1 H2] _]|intros (H1 & H2 & _)]; repeat split;
        try assumption; discriminate. }
  split.
  - intros Hm.
    assert (Hf : In m (List.filter
                         (search_where (isPostgres r) chatJID deviceID "_")
                         rows))
      by (eapply Permutation_in;
          [symmetry; apply order_desc_perm|exact Hm]).
    apply filter_In in Hf. destruct Hf as [Hrow Hsel].
    split; [exact Hrow|]. now apply Hwhere.
  - intros [Hrow Hcond].
    eapply Permutation_in; [apply order_desc_perm|].
    apply filter_In. split; [exact Hrow|]. now apply Hwhere.
Qed.

(* ===================================================================== *)
(** * Further properties: the schema migrator under failures *)
(* ===================================================================== *)

Section MigratorOutcomes.

(** The loop returns whatever the engine does, once its counter is not
    negative. *)
Lemma schema_loop_returns (migs : list Stmt) (k : nat) :
  forall (i : Z) (w : World),
    Z.to_nat (Z.of_nat (List.length migs) - i) = k ->
    0 <= i ->
    exists w', schema_loop migs i w = (Returned tt, w').
Proof.
  induction k as [|k IH]; intros i w Hk Hi; rewrite schema_loop_round.
  - destruct (Z.ltb_spec i (Z.of_nat (List.length migs))); [lia|].
    now exists w.
  - destruct (Z.ltb_spec i (Z.of_nat (List.length migs))); [|lia].
    unfold bind at 1. unfold index.
    destruct (Z.ltb_spec i 0); [lia|].
    destruct (nth_error migs (Z.to_nat i)) as [mig|] eqn:Hnth;
      [|apply nth_error_None in Hnth; lia].
    cbn [ret]. unfold bind at 1.
    destruct (Exec_returns mig w) as (r1 & e1 & w1 & -> & _).
    unfold bind at 1.
    destruct (Exec_returns (DeleteSchemaVersion (i + 1)) w1)
      as (r2 & e2 & w2 & -> & _).
    unfold bind at 1.
    destruct (Exec_returns (InsertSchemaVersion (i + 1)) w2)
      as (r3 & e3 & w3 & -> & _).
    apply IH; lia.
Qed.

Lemma Exec_spares_chats (s : Stmt) (w : World) :
  spares_chats s = true ->
  exists (result : Result) (err : option error) (w' : World),
    Exec s w = (Returned (result, err), w') /\
    chats (db w') = chats (db w).
Proof.
  intros Hs.
  destruct (Exec_cases s w) as (result & err & w' & Hcall & Hcase).
  exists result, err, w'. split; [exact Hcall|].
  destruct Hcase as [(d & n & _ & _ & Hrun & ->)|(e & _ & _ & ->)];
    [|reflexivity].
  destruct s; try discriminate; cbn [run_stmt] in Hrun; unfold on_table in Hrun.
  - destruct (schema_info (db w)); injection Hrun as <- _; reflexivity.
  - destruct (schema_info (db w)); [|discriminate].
    injection Hrun as <- _; reflexivity.
  - destruct (schema_info (db w)); [|discriminate]. unfold insert_row in Hrun.
    destruct (existsb _ _); [discriminate|]. injection Hrun as <- _; reflexivity.
  - destruct (messages (db w)); injection Hrun as <- _; reflexivity.
  - destruct (devices (db w)); injection Hrun as <- _; reflexivity.
Qed.

(** From a counter past the creation of [chats], the loop leaves that
    table as it is, present or absent. *)
Lemma schema_loop_spares_chats (migs : list Stmt) (k : nat) :
  forall (i : Z) (w : World),
    Z.to_nat (Z.of_nat (List.length migs) - i) = k ->
    0 <= i ->
    Forall (fun s => spares_chats s = true) (skipn (Z.to_nat i) migs) ->
    exists w', schema_loop migs i w = (Returned tt, w') /\
               chats (db w') = chats (db w).
Proof.
  induction k as [|k IH]; intros i w Hk Hi Hrest; rewrite schema_loop_round.
  - destruct (Z.ltb_spec i (Z.of_nat (List.length migs))); [lia|].
    now exists w.
  - destruct (Z.ltb_spec i (Z.of_nat (List.length migs))); [|lia].
    unfold bind at 1. unfold index.
    destruct (Z.ltb_spec i 0); [lia|].
    destruct (nth_error migs (Z.to_nat i)) as [mig|] eqn:Hnth;
      [|apply nth_error_None in Hnth; lia].
    assert (Hskip : skipn (Z.to_nat i) migs
                    = mig :: skipn (Z.to_nat (i + 1)) migs).
    { replace (Z.to_nat (i + 1)) with (S (Z.to_nat i)) by lia.
      clear - Hnth. revert migs Hnth.
      induction (Z.to_nat i) as [|n IHn]; intros [|m ms] Hnth;
        try discriminate; cbn in *; [now injection Hnth as ->|now apply IHn]. }
    rewrite Hskip in Hrest. inversion Hrest as [|? ? Hmig Hrest']; subst.
    cbn [ret]. unfold bind at 1.
    destruct (Exec_spares_chats mig w Hmig) as (r1 & e1 & w1 & -> & H1).
    unfold bind at 1.
    destruct (Exec_spares_chats (DeleteSchemaVersion (i + 1)) w1 eq_refl)
      as (r2 & e2 & w2 & -> & H2).
    unfold bind at 1.
    destruct (Exec_spares_chats (InsertSchemaVersion (i + 1)) w2 eq_refl)
      as (r3 & e3 & w3 & -> & H3).
    destruct (IH (i + 1) w3) as (w' & Hloop & H4); [lia|lia|exact Hrest'|].
    exists w'. split; [exact Hloop|]. congruence.
Qed.

(** The probe of the version returns the recorded version, or fails. *)
Lemma QueryRowMaxVersion_returns (w : World) :
  exists (row : Row Z) (w' : World),
    QueryRowMaxVersion w = (Returned row, w') /\
    (forall version, row = RowOf version ->
                     version = current_version (db w)).
Proof.
  unfold QueryRowMaxVersion, bind, round_trip, current_version.
  destruct w as [d t fs lg]. cbn [faults db].
  destruct fs as [|[diagnostic|] rest]; cbn [faults db];
    try (destruct (schema_info d) as [versions|]);
    do 2 eexists; (split; [reflexivity|]); intros version [= <-]; reflexivity.
Qed.

End MigratorOutcomes.

(** X23. [InitializeSchema] reports no failure: in every state whose
    recorded version is not negative and under every schedule of failures
    it returns nil, whether its statements went through or not. *)
Theorem InitializeSchema_always_nil (r : SQLRepository) (w : World) :
  0 <= current_version (db w) ->
  exists w', InitializeSchema r w = (Returned None, w').
Proof.
  intros Hv. unfold InitializeSchema, getSchemaVersion.
  unfold bind at 1. unfold bind at 1.
  destruct (Exec_cases CreateSchemaInfo w) as (r1 & e1 & w1 & -> & Hcase).
  assert (Hv1 : 0 <= current_version (db w1)).
  { destruct Hcase as [(d & n & _ & _ & Hrun & ->)|(e & _ & _ & ->)];
      [|exact Hv].
    cbn [run_stmt] in Hrun. unfold current_version in *.
    destruct (schema_info (db w)) eqn:E; injection Hrun as <- _.
    - now rewrite E.
    - cbn. lia. }
  unfold bind at 1.
  destruct (QueryRowMaxVersion_returns w1) as (row & w2 & -> & Hrow).
  cbn [ret]. unfold bind.
  match goal with
  | |- context [schema_loop (getMigrations r) ?v w2] =>
      assert (Hnn : 0 <= v)
        by (destruct row as [version|e];
            [now rewrite (Hrow version eq_refl)|lia]);
      destruct (schema_loop_returns (getMigrations r) _ v w2 eq_refl Hnn)
        as (w' & ->)
  end.
  now exists w'.
Qed.

(** X24. A migration that fails is recorded as applied. On a database
    without the [chats] table and with recorded version 0, when the two
    probes of the version go through and the creation of [chats] is lost,
    [InitializeSchema] still returns nil and records version 3 while
    [chats] does not exist; a later run on a working engine sees version 3
    and does not create the table either, and [StoreChat] then fails with
    the engine's error for the missing table. *)
Theorem lost_migration_is_recorded (r : SQLRepository) (w : World)
  (diagnostic : string) :
  faults w = [None; None; Some diagnostic] ->
  chats (db w) = None ->
  current_version (db w) = 0 ->
  exists (w1 w2 : World),
    InitializeSchema r w = (Returned None, w1) /\
    current_version (db w1) = 3 /\
    chats (db w1) = None /\
    InitializeSchema r w1 = (Returned None, w2) /\
    chats (db w2) = None /\
    forall (now : Time) (chat : Chat.t),
    exists w3,
      StoreChat r now chat w2
      = (Returned (Some (ErrEngine no_such_table),
                   Chat.set_UpdatedAt chat now), w3).
Proof.
  intros Hfaults Hchats Hv.
  destruct w as [d t fs lg]. cbn in Hfaults, Hchats, Hv. subst fs.
  (* the probes *)
  set (d0 := match schema_info d with
             | Some _ => d
             | None => set_schema_info d (Some [])
             end).
  set (versions := rows_of (schema_info d)).
  assert (Hd0 : schema_info d0 = Some versions)
    by (unfold d0, versions; destruct (schema_info d) eqn:E; [exact E|reflexivity]).
  assert (Hc0 : chats d0 = None)
    by (unfold d0; destruct (schema_info d); exact Hchats).
  assert (Hmax : max_version versions = 0)
    by (unfold versions; unfold current_version in Hv;
        destruct (schema_info d); [exact Hv|reflexivity]).
  assert (Hle : Forall (fun v => v <= 0) versions)
    by (rewrite <- Hmax; apply max_version_bounds; lia).
  assert (Hprobe1 : forall fs,
             Exec CreateSchemaInfo (mkWorld d t (None :: fs) lg)
             = (Returned (Some 0, None),
                mkWorld d0 t fs (lg ++ [CreateSchemaInfo])%list)).
  { intros fs. unfold Exec, round_trip. cbn [faults db tx log run_stmt].
    unfold d0. now destruct (schema_info d). }
  assert (Hprobe2 : forall fs lg',
             QueryRowMaxVersion (mkWorld d0 t (None :: fs) lg')
             = (Returned (RowOf 0), mkWorld d0 t fs lg')).
  { intros fs lg'. unfold QueryRowMaxVersion, bind, round_trip.
    cbn [faults db tx log]. now rewrite Hd0, Hmax. }
  assert (Hlost : forall lg',
             Exec CreateChats (mkWorld d0 t [Some diagnostic] lg')
             = (Returned (None, Some (ErrEngine diagnostic)),
                mkWorld d0 t [] (lg' ++ [CreateChats])%list)).
  { intros lg'. reflexivity. }
  set (versions1 := (delete_rows (Z.eqb 1) versions ++ [1])%list).
  assert (Hle1 : Forall (fun v => v <= 1) versions1).
  { apply Forall_app. split.
    - apply delete_rows_bound. eapply Forall_impl; [|exact Hle].
      cbn. intros; lia.
    - constructor; [lia|constructor]. }
  assert (Hfirst : exists w1,
             InitializeSchema r (mkWorld d t [None; None; Some diagnostic] lg)
             = (Returned None, w1) /\
             faults w1 = [] /\
             current_version (db w1) = 3 /\
             chats (db w1) = None /\
             schema_info (db w1) <> None).
  { unfold InitializeSchema, getSchemaVersion.
    unfold bind at 1. unfold bind at 1. unfold bind at 1.
    rewrite Hprobe1. unfold bind at 1. rewrite Hprobe2. cbn [ret].
    rewrite schema_loop_round.
    change (0 <? Z.of_nat (List.length (getMigrations r))) with true.
    cbv iota. unfold bind at 1.
    change (index (getMigrations r) 0) with (@ret Stmt CreateChats).
    cbn [ret]. unfold bind at 1. rewrite Hlost.
    unfold bind at 1. rewrite Exec_calm by reflexivity. cbn [run_stmt]. rewrite Hd0.
    cbn [on_table]. unfold bind at 1. rewrite Exec_calm by reflexivity.
    cbn [run_stmt schema_info set_schema_info on_table]. unfold insert_row.
    rewrite delete_then_absent. change (0 + 1) with 1. fold versions1.
    (* the rest of the loop, on a working engine *)
    match goal with
    | |- context [schema_loop ?migs 1 ?w1] =>
        destruct (schema_loop_calm migs (getMigrations_are_migrations r) 2
                    1 w1 versions1)
          as (w' & versions' & Hloop & Hcalm' & _ & Hsch' & _ & Hpos);
          [reflexivity|lia|reflexivity|reflexivity|exact Hle1|];
        destruct (schema_loop_spares_chats migs 2 1 w1)
          as (w'' & Hloop' & Hkeep);
          [reflexivity|lia|repeat constructor|]
    end.
    rewrite Hloop in Hloop'. injection Hloop' as <-.
    cbn [db chats set_schema_info] in Hkeep. rewrite Hc0 in Hkeep.
    destruct Hpos as [Hin Hall]; [discriminate|].
    rewrite Hloop. cbn [ret]. exists w'. split; [reflexivity|].
    split; [exact Hcalm'|]. split.
    - unfold current_version. rewrite Hsch'.
      exact (max_version_is _ _ Hin Hall).
    - split; [exact Hkeep|]. rewrite Hsch'. discriminate. }
  destruct Hfirst as (w1 & Hrun1 & Hcalm1 & Hv1 & Hkeep1 & Hsch1).
  (* the later run *)
  destruct (InitializeSchema_calm r w1 Hcalm1)
    as (w2 & versions2 & Hrun2 & Hcalm2 & _ & _ & _ & Hsame); [lia|].
  assert (Hdb2 : db w2 = db w1).
  { apply Hsame; [exact Hsch1|rewrite Hv1; cbn; lia]. }
  exists w1, w2. split; [exact Hrun1|]. split; [exact Hv1|].
  split; [exact Hkeep1|]. split; [exact Hrun2|].
  split; [now rewrite Hdb2|].
  intros now chat. destruct w2 as [d2 t2 fs2 lg2]. cbn in Hcalm2, Hdb2.
  subst fs2 d2. unfold StoreChat, bind. rewrite Exec_calm by reflexivity. cbn [run_stmt].
  rewrite Hkeep1. cbn [on_table is_nil negb ret]. eexists. reflexivity.
Qed.

(* ===================================================================== *)
(** * Further properties: the event ingestor *)
(* ===================================================================== *)



Section IngestorOutcomes.

Variables Context Client DeviceInstance Proto : Type.
Variable ClientFromContext : Context -> Client.
Variable DeviceFromContext : Context -> option DeviceInstance.
Variable DeviceInstance_ID : DeviceInstance -> string.
Variable NormalizeJIDFromLID : Context -> JID.t -> Client -> JID.t.
Variable JID_String : JID.t -> string.
Variable ExtractMessageTextFromProto : Proto -> string.
Variable ExtractMediaInfo : Proto -> MediaInfo.t.

(** X25. A notification whose payload has neither text nor a media type
    goes through [CreateMessage] as through [StoreChat] alone: in every
    state and under every schedule of failures the call returns nil, also
    when the chat upsert failed, the state it leaves is the one the chat
    upsert leaves, and [messages] and [devices] are as before. *)
Theorem CreateMessage_without_content (r : SQLRepository)
  (now_chat now_message : Time) (ctx : Context) (evt : Event.t Proto)
  (w : World) :
  ExtractMessageTextFromProto (Event.Message evt) = "" ->
  MediaInfo.mType (ExtractMediaInfo (Event.Message evt)) = "" ->
  let info := Event.Info evt in
  let deviceID := match DeviceFromContext ctx with
                  | Some inst => DeviceInstance_ID inst
                  | None => ""
                  end in
  let canonical :=
    NormalizeJIDFromLID ctx (MessageInfo.Chat info) (ClientFromContext ctx) in
  let chat :=
    Chat.mk deviceID (JID_String canonical)
      (if String.eqb (MessageInfo.PushName info) "" then JID.User canonical
       else MessageInfo.PushName info)
      (MessageInfo.Timestamp info) 0 0 0 in
  exists (chat_err : option error) (w' : World),
    StoreChat r now_chat chat w
    = (Returned (chat_err, Chat.set_UpdatedAt chat now_chat), w') /\
    CreateMessage Context Client DeviceInstance Proto ClientFromContext
      DeviceFromContext DeviceInstance_ID NormalizeJIDFromLID JID_String
      ExtractMessageTextFromProto ExtractMediaInfo
      r now_chat now_message ctx evt w = (Returned None, w') /\
    messages (db w') = messages (db w) /\
    devices (db w') = devices (db w).
Proof.
  intros Htext Hmedia info deviceID canonical chat.
  unfold CreateMessage. fold info deviceID canonical.
  replace (Chat.mk deviceID (JID_String canonical) _ _ 0 0 0) with chat
    by (unfold chat, GetChatNameWithPushName;
        now destruct (String.eqb (MessageInfo.PushName info) "")).
  destruct (StoreChat_effect r now_chat chat w)
    as (chat_err & w1 & Hchat & Heffect).
  exists chat_err, w1. split; [exact Hchat|]. split.
  - unfold bind at 1. rewrite Hchat. cbv beta iota zeta. unfold bind.
    rewrite StoreMessage_skips by assumption. reflexivity.
  - destruct Heffect as [->|(rows & _ & _ & [[_ ->]|[_ ->]])];
      split; reflexivity.
Qed.


End IngestorOutcomes.

(* ===================================================================== *)
(** * Further properties: deleting one message *)
(* ===================================================================== *)

(** X27. [DeleteMessage] is not bound to a device: on a working engine
    with the [messages] table in place it returns nil and removes the rows
    of the given message id and chat on every device, keeps every other
    row in its place, and leaves the other tables alone, so that
    afterwards no device has a row under that id and chat. *)
Theorem DeleteMessage_crosses_devices (r : SQLRepository)
  (id chatJID : string) (w : World) (rows : list Message.t) :
  faults w = [] ->
  messages (db w) = Some rows ->
  exists w' : World,
    DeleteMessage r id chatJID w = (Returned None, w') /\
    messages (db w')
    = Some (filter (fun row => negb (message_of_chat id chatJID row)) rows) /\
    chats (db w') = chats (db w) /\
    devices (db w') = devices (db w) /\
    forall deviceID : string,
      filter (message_is id chatJID deviceID) (rows_of (messages (db w'))) = [].
Proof.
  intros Hcalm Hrows. destruct w as [d t fs lg]. cbn in Hcalm, Hrows.
  subst fs. unfold DeleteMessage, bind. rewrite ExecDeletion_calm.
  cbn [run_deletion]. unfold delete_from_messages. rewrite Hrows.
  cbn [on_table ret]. eexists. split; [reflexivity|].
  cbn [db messages chats devices set_messages rows_of]. unfold delete_rows.
  repeat split.
  intros deviceID. apply filter_nil_existsb.
  apply not_true_is_false. intros H. apply existsb_exists in H.
  destruct H as (row & Hin & Hsel). apply filter_In in Hin.
  destruct Hin as [_ Hnot]. unfold message_is in Hsel.
  unfold message_of_chat in Hnot.
  apply andb_true_iff in Hsel. destruct Hsel as [Hsel _].
  rewrite Hsel in Hnot. discriminate.
Qed.

(* ===================================================================== *)
(** * Further properties: the start-up of the chat storage *)
(* ===================================================================== *)

Section StartupFacts.

Variable Handle : Type.
Variable sql_Open : string -> string -> Handle + string.
Variable db_Ping : Handle -> option string.

(** X28. [initChatStorage] returns a handle or an error, never both and
    never neither. A URI that does not start with [postgres://] is refused
    before any call on the database library. A handle is returned only
    when the URI has that prefix, [sql.Open] for the driver [postgres]
    gave that handle and its ping succeeded, and then the limits 25 and 5
    were set on it and it was not closed. A handle that was opened and is
    not returned has been closed, as the last call. *)
Theorem initChatStorage_handle_or_closed (ChatStorageURI : string) :
  let '((db, err), calls) :=
    initChatStorage Handle sql_Open db_Ping ChatStorageURI in
  (db = None <-> err <> None) /\
  (strings.HasPrefix ChatStorageURI "postgres://" = false -> calls = []) /\
  (forall h : Handle,
     db = Some h ->
     strings.HasPrefix ChatStorageURI "postgres://" = true /\
     sql_Open "postgres" ChatStorageURI = inl h /\
     db_Ping h = None /\
     calls = [CallOpen "postgres" ChatStorageURI; CallSetMaxOpenConns h 25;
              CallSetMaxIdleConns h 5; CallPing h]) /\
  (forall h : Handle,
     db = None ->
     strings.HasPrefix ChatStorageURI "postgres://" = true ->
     sql_Open "postgres" ChatStorageURI = inl h ->
     exists before, calls = (before ++ [CallClose h])%list /\
                    ~ In (CallClose h) before).
Proof.
  unfold initChatStorage.
  destruct (strings.HasPrefix ChatStorageURI "postgres://") eqn:Hprefix.
  - destruct (sql_Open "postgres" ChatStorageURI) as [db|diagnostic] eqn:Hopen.
    + destruct (db_Ping db) as [diagnostic|] eqn:Hping; cbv zeta.
      * split; [split; [discriminate|reflexivity]|].
        split; [discriminate|]. split; [discriminate|].
        intros h _ _ [= <-]. eexists. split; [reflexivity|].
        cbn. intros [H|[H|[H|[H|[]]]]]; discriminate.
      * split; [split; [discriminate|intros H; now elim H]|].
        split; [discriminate|]. split; [|discriminate].
        intros h [= <-]. now repeat split.
    + split; [split; [discriminate|reflexivity]|].
      split; [discriminate|]. split; discriminate.
  - split; [split; [discriminate|reflexivity]|].
    split; [reflexivity|]. split; discriminate.
Qed.

End StartupFacts.

(* ===================================================================== *)
(** * The further properties at concrete inputs *)
(* ===================================================================== *)






Lemma DeleteDeviceRecord_then_GetDeviceRecord_witness :
  let r := postgres in
  let deviceID := "dev1" in
  let w := calm two_devices in
  let rows := rows_of (devices two_devices) in
  let met := 0%nat in
  exists (w1 w2 : World),
    DeleteDeviceRecord r deviceID w = (Returned None, w1) /\
    devices (db w1)
    = Some (filter (fun row => negb (device_is deviceID row)) rows) /\
    chats (db w1) = chats (db w) /\
    messages (db w1) = messages (db w) /\
    GetDeviceRecord r met deviceID w1 = (Returned (None, None), w2).
Proof.
  cbv zeta.
  apply (DeleteDeviceRecord_then_GetDeviceRecord postgres "dev1"
    (calm two_devices) (rows_of (devices two_devices)) (0%nat));
    reflexivity.
Defined.

Lemma DeleteChat_removes_exactly_witness :
  let r := postgres in
  let jid := "alice@s.whatsapp.net" in
  let w := calm two_devices in
  let cs := rows_of (chats two_devices) in
  let ms := rows_of (messages two_devices) in
  let met := 0%nat in
  exists (w1 w2 : World),
    DeleteChat r jid w = (Returned None, w1) /\
    chats (db w1) = Some (filter (fun row => negb (chat_has_jid jid row)) cs) /\
    messages (db w1)
    = Some (filter (fun row => negb (message_in_chat jid row)) ms) /\
    devices (db w1) = devices (db w) /\
    schema_info (db w1) = schema_info (db w) /\
    GetChat r met jid w1 = (Returned (None, None), w2).
Proof.
  cbv zeta.
  apply (DeleteChat_removes_exactly postgres "alice@s.whatsapp.net"
    (calm two_devices) (rows_of (chats two_devices))
    (rows_of (messages two_devices)) (0%nat));
    reflexivity.
Defined.

Lemma DeleteChatByDevice_removes_exactly_witness :
  let r := native in
  let deviceID := "dev1" in
  let jid := "alice@s.whatsapp.net" in
  let w := calm two_devices in
  let cs := rows_of (chats two_devices) in
  let ms := rows_of (messages two_devices) in
  let met := 0%nat in
  exists (w1 w2 : World),
    DeleteChatByDevice r deviceID jid w = (Returned None, w1) /\
    chats (db w1)
    = Some (filter (fun row => negb (chat_is jid deviceID row)) cs) /\
    messages (db w1)
    = Some (filter (fun row => negb (message_in_chat_on jid deviceID row)) ms) /\
    (forall row, In row cs -> Chat.DeviceID row <> deviceID ->
                 In row (rows_of (chats (db w1)))) /\
    (forall row, In row ms -> Message.DeviceID row <> deviceID ->
                 In row (rows_of (messages (db w1)))) /\
    GetChatByDevice r met deviceID jid w1 = (Returned (None, None), w2).
Proof.
  cbv zeta.
  apply (DeleteChatByDevice_removes_exactly native "dev1"
    "alice@s.whatsapp.net" (calm two_devices) (rows_of (chats two_devices))
    (rows_of (messages two_devices)) (0%nat));
    reflexivity.
Defined.

Lemma deletes_when_Begin_fails_witness :
  let r := postgres in
  let deviceID := "dev1" in
  let jid := "alice@s.whatsapp.net" in
  let w := update_is_lost in
  let diagnostic := "connection reset" in
  let rest := @nil (option string) in
  (exists w', DeleteChat r jid w = (Panicked, w') /\ db w' = db w) /\
  (exists w', DeleteChatByDevice r deviceID jid w = (Panicked, w') /\
              db w' = db w) /\
  (exists w', DeleteDeviceData r deviceID w
              = (Returned (Some (FromHandle (ErrEngine diagnostic))), w') /\
              db w' = db w).
Proof.
  cbv zeta.
  apply (deletes_when_Begin_fails postgres "dev1" "alice@s.whatsapp.net"
    update_is_lost "connection reset" (@nil (option string)));
    first [reflexivity | discriminate].
Defined.

Lemma DeleteDeviceData_removes_exactly_witness :
  let r := postgres in
  let deviceID := "dev1" in
  let w := calm two_devices in
  let cs := rows_of (chats two_devices) in
  let ms := rows_of (messages two_devices) in
  exists (w1 : World),
    DeleteDeviceData r deviceID w = (Returned None, w1) /\
    chats (db w1)
    = Some (filter (fun row => negb (chat_on_device deviceID row)) cs) /\
    messages (db w1)
    = Some (filter (fun row => negb (message_on_device deviceID row)) ms) /\
    devices (db w1) = devices (db w) /\
    tx w1 = None.
Proof.
  cbv zeta.
  apply (DeleteDeviceData_removes_exactly postgres "dev1" (calm two_devices)
    (rows_of (chats two_devices)) (rows_of (messages two_devices)));
    first [reflexivity | discriminate].
Defined.

Lemma GetMessages_lists_chat_witness :
  let r := postgres in
  let filter := MessageFilter.mk "alice@s.whatsapp.net" "dev1" 1 in
  let w := calm two_devices in
  let rows := rows_of (messages two_devices) in
  let sel := message_in_chat_on (MessageFilter.ChatJID filter)
                                (MessageFilter.DeviceID filter) in
  exists (result : list Message.t),
    GetMessages r filter w = (Returned (result, None), w) /\
    StronglySorted (desc Message.Timestamp) result /\
    (forall m, In m result ->
               In m rows /\
               Message.ChatJID m = MessageFilter.ChatJID filter /\
               Message.DeviceID m = MessageFilter.DeviceID filter) /\
    (MessageFilter.Limit filter <= 0 ->
     Permutation result (List.filter sel rows)) /\
    (0 < MessageFilter.Limit filter ->
     List.length result
     = Nat.min (Z.to_nat (MessageFilter.Limit filter))
               (List.length (List.filter sel rows))) /\
    (forall a b, In a result -> In b rows -> sel b = true -> ~ In b result ->
                 Message.Timestamp b <= Message.Timestamp a).
Proof.
  cbv zeta.
  apply (GetMessages_lists_chat postgres
    (MessageFilter.mk "alice@s.whatsapp.net" "dev1" 1) (calm two_devices)
    (rows_of (messages two_devices)));
    reflexivity.
Defined.

Lemma GetChats_recent_first_witness :
  let r := postgres in
  let filter := ChatFilter.mk "" "dev1" 1 in
  let w := calm two_devices in
  let rows := rows_of (chats two_devices) in
  let sel := chats_where (isPostgres r) filter in
  exists (result : list Chat.t),
    GetChats r filter w = (Returned (result, None), w) /\
    StronglySorted (desc Chat.LastMessageTime) result /\
    (forall c, In c result ->
               In c rows /\
               (ChatFilter.DeviceID filter <> "" ->
                Chat.DeviceID c = ChatFilter.DeviceID filter)) /\
    (ChatFilter.Limit filter <= 0 -> Permutation result (List.filter sel rows)) /\
    (0 < ChatFilter.Limit filter ->
     List.length result
     = Nat.min (Z.to_nat (ChatFilter.Limit filter))
               (List.length (List.filter sel rows))) /\
    (forall a b, In a result -> In b rows -> sel b = true -> ~ In b result ->
                 Chat.LastMessageTime b <= Chat.LastMessageTime a).
Proof.
  cbv zeta.
  apply (GetChats_recent_first postgres (ChatFilter.mk "" "dev1" 1)
    (calm two_devices) (rows_of (chats two_devices)));
    reflexivity.
Defined.

Lemma SearchMessages_ignores_case_witness :
  let unicode_lower := no_tables in
  let r := postgres in
  let deviceID := "dev1" in
  let chatJID := "alice@s.whatsapp.net" in
  let searchText := "HI" in
  let limit := 0 in
  let w := calm two_devices in
  let rows := rows_of (messages two_devices) in
  exists (result : list Message.t),
    SearchMessages unicode_lower r deviceID chatJID searchText limit w
    = (Returned (result, None), w) /\
    StronglySorted (desc Message.Timestamp) result /\
    (forall m, In m result ->
               In m rows /\
               Message.ChatJID m = chatJID /\
               Message.DeviceID m = deviceID /\
               contains_fold (Message.Content m) searchText = true) /\
    (limit <= 0 ->
     forall m, In m rows ->
               Message.ChatJID m = chatJID ->
               Message.DeviceID m = deviceID ->
               contains_fold (Message.Content m) searchText = true ->
               In m result).
Proof.
  cbv zeta.
  apply (SearchMessages_ignores_case no_tables postgres "dev1"
    "alice@s.whatsapp.net" "HI" 0 (calm two_devices)
    (rows_of (messages two_devices)));
    reflexivity.
Defined.

Lemma GetChats_name_filter_witness :
  let r := postgres in
  let filter := ChatFilter.mk "lic" "" 0 in
  let w := calm two_devices in
  let rows := rows_of (chats two_devices) in
  exists (result : list Chat.t),
    GetChats r filter w = (Returned (result, None), w) /\
    forall c,
      In c result <->
      In c rows /\
      (if isPostgres r
       then strings.Contains (Chat.Name c) (ChatFilter.SearchName filter)
       else contains_fold (Chat.Name c) (ChatFilter.SearchName filter)) = true /\
      (ChatFilter.DeviceID filter = "" \/
       Chat.DeviceID c = ChatFilter.DeviceID filter).
Proof.
  cbv zeta.
  apply (GetChats_name_filter postgres (ChatFilter.mk "lic" "" 0)
    (calm two_devices) (rows_of (chats two_devices)));
    first [reflexivity | discriminate].
Defined.

Lemma SearchMessages_underscore_witness :
  let unicode_lower := no_tables in
  let r := postgres in
  let deviceID := "dev2" in
  let chatJID := "alice@s.whatsapp.net" in
  let limit := 0 in
  let w := calm two_devices in
  let rows := rows_of (messages two_devices) in
  exists (result : list Message.t),
    SearchMessages unicode_lower r deviceID chatJID "_" limit w
    = (Returned (result, None), w) /\
    forall m,
      In m result <->
      In m rows /\ Message.ChatJID m = chatJID /\
      Message.DeviceID m = deviceID /\ Message.Content m <> "".
Proof.
  cbv zeta.
  apply (SearchMessages_underscore no_tables postgres "dev2"
    "alice@s.whatsapp.net" 0 (calm two_devices)
    (rows_of (messages two_devices)));
    first [reflexivity | discriminate].
Defined.

Lemma InitializeSchema_always_nil_witness :
  let r := postgres in
  let w := calm empty_db in
  exists w', InitializeSchema r w = (Returned None, w').
Proof.
  cbv zeta.
  apply (InitializeSchema_always_nil postgres (calm empty_db));
    discriminate.
Defined.

Lemma lost_migration_is_recorded_witness :
  let r := postgres in
  let w := creation_is_lost in
  let diagnostic := "connection reset" in
  exists (w1 w2 : World),
    InitializeSchema r w = (Returned None, w1) /\
    current_version (db w1) = 3 /\
    chats (db w1) = None /\
    InitializeSchema r w1 = (Returned None, w2) /\
    chats (db w2) = None /\
    forall (now : Time) (chat : Chat.t),
    exists w3,
      StoreChat r now chat w2
      = (Returned (Some (ErrEngine no_such_table),
                   Chat.set_UpdatedAt chat now), w3).
Proof.
  cbv zeta.
  apply (lost_migration_is_recorded postgres creation_is_lost
    "connection reset");
    reflexivity.
Defined.

Lemma CreateMessage_without_content_witness :
  let Context := unit in
  let Client := unit in
  let DeviceInstance := string in
  let Proto := string in
  let ClientFromContext := (fun _ : unit => tt) in
  let DeviceFromContext := (fun _ : unit => Some "dev1") in
  let DeviceInstance_ID := (fun inst : string => inst) in
  let NormalizeJIDFromLID := (fun (_ : unit) (jid : JID.t) (_ : unit) => jid) in
  let JID_String := (fun jid : JID.t => JID.User jid ++ "@" ++ JID.Server jid) in
  let ExtractMessageTextFromProto := (fun payload : string => payload) in
  let ExtractMediaInfo := (fun _ : string => MediaInfo.mk "" "" "" [] [] [] 0) in
  let r := postgres in
  let now_chat := 7 in
  let now_message := 8 in
  let ctx := tt in
  let evt := control_from_bob in
  let w := update_is_lost in
  let info := Event.Info evt in
  let deviceID := match DeviceFromContext ctx with
                  | Some inst => DeviceInstance_ID inst
                  | None => ""
                  end in
  let canonical :=
    NormalizeJIDFromLID ctx (MessageInfo.Chat info) (ClientFromContext ctx) in
  let chat :=
    Chat.mk deviceID (JID_String canonical)
      (if String.eqb (MessageInfo.PushName info) "" then JID.User canonical
       else MessageInfo.PushName info)
      (MessageInfo.Timestamp info) 0 0 0 in
  exists (chat_err : option error) (w' : World),
    StoreChat r now_chat chat w
    = (Returned (chat_err, Chat.set_UpdatedAt chat now_chat), w') /\
    CreateMessage Context Client DeviceInstance Proto ClientFromContext
      DeviceFromContext DeviceInstance_ID NormalizeJIDFromLID JID_String
      ExtractMessageTextFromProto ExtractMediaInfo
      r now_chat now_message ctx evt w = (Returned None, w') /\
    messages (db w') = messages (db w) /\
    devices (db w') = devices (db w).
Proof.
  cbv zeta.
  apply (CreateMessage_without_content unit unit string string
    (fun _ : unit => tt) (fun _ : unit => Some "dev1")
    (fun inst : string => inst)
    (fun (_ : unit) (jid : JID.t) (_ : unit) => jid)
    (fun jid : JID.t => JID.User jid ++ "@" ++ JID.Server jid)
    (fun payload : string => payload)
    (fun _ : string => MediaInfo.mk "" "" "" [] [] [] 0) postgres 7 8 tt
    control_from_bob update_is_lost);
    reflexivity.
Defined.


Lemma DeleteMessage_crosses_devices_witness :
  let r := postgres in
  let id := "m1" in
  let chatJID := "alice@s.whatsapp.net" in
  let w := calm two_devices in
  let rows := rows_of (messages two_devices) in
  exists w' : World,
    DeleteMessage r id chatJID w = (Returned None, w') /\
    messages (db w')
    = Some (filter (fun row => negb (message_of_chat id chatJID row)) rows) /\
    chats (db w') = chats (db w) /\
    devices (db w') = devices (db w) /\
    forall deviceID : string,
      filter (message_is id chatJID deviceID) (rows_of (messages (db w'))) = [].
Proof.
  cbv zeta.
  apply (DeleteMessage_crosses_devices postgres "m1" "alice@s.whatsapp.net"
    (calm two_devices) (rows_of (messages two_devices)));
    reflexivity.
Defined.
